(** * Taxify: page classification, range detection, retry, normalisation
      and consolidation

    A shallow embedding of the document-segmentation and extraction pipeline
    of the taxify repository (Python), together with the properties stated
    for it.  Every definition follows one source function; the file and the
    function are named in the comment above it. *)

From Stdlib Require Import ZArith QArith List String Ascii Bool Lia.
From Stdlib Require Import Permutation DecimalString.
Import ListNotations.

Set Warnings "-register-all".

Local Open Scope string_scope.
Local Open Scope list_scope.
Local Open Scope Z_scope.

(** ** Python string primitives

    [str] values are modelled as [string] (sequences of bytes).  The
    operations below are the ones the sources apply to page text, error
    messages and field values. *)
Module PyStr.

(** [s.startswith(p)] *)
Fixpoint startswith (p s : string) : bool :=
  match p, s with
  | EmptyString, _ => true
  | String _ _, EmptyString => false
  | String a p', String b s' => Ascii.eqb a b && startswith p' s'
  end.

(** [pat in s] for two strings: substring search. *)
Fixpoint py_in (pat s : string) : bool :=
  if startswith pat s then true
  else match s with
       | EmptyString => false
       | String _ s' => py_in pat s'
       end.

(** The mathematical reading of [pat in s]. *)
Definition occurs (pat s : string) : Prop :=
  exists before after, s = (before ++ pat ++ after)%string.

(** [c.lower()] on one character: only ASCII capitals change. *)
Definition lower_ascii (c : ascii) : ascii :=
  let n := nat_of_ascii c in
  if ((65 <=? n) && (n <=? 90))%nat then ascii_of_nat (n + 32) else c.

(** [s.lower()] *)
Fixpoint lower (s : string) : string :=
  match s with
  | EmptyString => EmptyString
  | String c s' => String (lower_ascii c) (lower s')
  end.

(** [s.replace(c, r)] where the searched text is the single character
    [c]: every occurrence is replaced by [r]. *)
Fixpoint replace_char (c : ascii) (r : string) (s : string) : string :=
  match s with
  | EmptyString => EmptyString
  | String a s' =>
      if Ascii.eqb a c then (r ++ replace_char c r s')%string
      else String a (replace_char c r s')
  end.

(** Characters removed by [str.strip()] with no argument (the ASCII ones:
    tab, line feed, vertical tab, form feed, carriage return, the four
    separators 0x1c..0x1f and the space). *)
Definition is_space (c : ascii) : bool :=
  let n := nat_of_ascii c in
  (((9 <=? n) && (n <=? 13)) || ((28 <=? n) && (n <=? 32)))%nat.

Fixpoint lstrip (s : string) : string :=
  match s with
  | EmptyString => EmptyString
  | String c s' => if is_space c then lstrip s' else s
  end.

Fixpoint rstrip (s : string) : string :=
  match s with
  | EmptyString => EmptyString
  | String c s' =>
      match rstrip s' with
      | EmptyString => if is_space c then EmptyString else String c EmptyString
      | t => String c t
      end
  end.

(** [s.strip()] *)
Definition strip (s : string) : string := rstrip (lstrip s).

End PyStr.

(** ** Page classification

    The per-page tests of the four multi-page processors.  Each definition
    keeps the source's local names. *)
Module Classifier.
Import PyStr.

(** forms/form_k1/extractor.py, [MultiPageK1Processor.__init__] *)
Definition k1_form_header : string * string := ("Schedule K-1", "(Form 1065)").
Definition part_i_indicator : string * string :=
  ("Part I", "Information About the Partnership").

(** forms/form_k1/extractor.py, [detect_k1_pages], loop body: the test
    under which a page number is appended. *)
Definition is_k1_start_page (text : string) : bool :=
  let has_schedule_k1 := py_in (fst k1_form_header) text in
  let has_form_1065 := py_in (snd k1_form_header) text in
  let has_k1_header := has_schedule_k1 && has_form_1065 in
  let has_part_i :=
    py_in (fst part_i_indicator) text && py_in (snd part_i_indicator) text in
  has_k1_header && has_part_i.

(** forms/form_k3/extractor.py, [detect_k3_page_ranges], first pass. *)
Definition is_k3_page (text : string) : bool :=
  let has_k3 := py_in "Schedule K-3" text in
  let has_k1 := py_in "Schedule K-1" text in
  has_k3 && negb has_k1.

(** forms/form_8805/extractor.py, [detect_8805_page_ranges], first pass:
    the exclusions the 8805 detector itself computes. *)
Definition is_k1_8804 (text : string) : bool :=
  py_in "Schedule K-1" text && py_in "(Form 8804)" text.

Definition is_main_8804 (text : string) : bool :=
  py_in "Form 8804" text
  && py_in "Annual Return for Partnership Withholding Tax" text.

Definition is_any_8804 (text : string) : bool :=
  is_k1_8804 text || is_main_8804 text
  || (py_in "Form 8804" text && py_in "Schedule K-1" text).

Definition has_8805_signature (text : string) : bool :=
  let has_form_8805 := py_in "Form 8805" text in
  let has_title := py_in "Foreign Partner's Information Statement" text in
  let has_copy :=
    (py_in "Copy A" text || py_in "Copy B" text
     || py_in "Copy C" text || py_in "Copy D" text)
    && py_in "8805" text in
  let has_section_1446 := py_in "Section 1446" text && py_in "Form 8805" text in
  has_form_8805 || has_title || has_section_1446 || has_copy.

Definition is_8805_page (text : string) : bool :=
  let is_k1 := py_in "Schedule K-1" text && py_in "(Form 1065)" text in
  let is_k3 := py_in "Schedule K-3" text in
  has_8805_signature text
  && negb (is_any_8804 text) && negb is_k1 && negb is_k3.

(** forms/form_8804/extractor.py, [detect_8804_page_ranges], loop body:
    the signature under which the 8804 detector keeps a page. *)
Definition is_8804_page (text : string) : bool :=
  let has_form_8804_exact :=
    py_in "Form 8804" text && negb (py_in "Schedule K-1" text) in
  let has_main_title :=
    py_in "Annual Return for Partnership Withholding Tax" text in
  let has_schedule_k1_8804 :=
    py_in "Schedule K-1" text && py_in "(Form 8804)" text in
  let has_partner_1446_title :=
    py_in "Partner's Section 1446 Withholding Tax" text in
  let has_part_i :=
    py_in "Part I" text
    && (py_in "Partnership" text || py_in "Name of partnership" (lower text)) in
  let has_part_ii :=
    py_in "Part II" text
    && (py_in "Withholding Agent" text
        || py_in "withholding agent" (lower text)) in
  let is_8805 :=
    py_in "Form 8805" text
    || py_in "Foreign Partner's Information Statement" text
    || (py_in "Foreign Partner's Information" text && py_in "Form 8805" text) in
  let is_standard_k1 := py_in "Schedule K-1" text && py_in "(Form 1065)" text in
  let is_k3 := py_in "Schedule K-3" text in
  let is_schedule_k1_8804 :=
    (has_schedule_k1_8804 || has_partner_1446_title)
    && negb is_standard_k1 && negb is_8805 in
  let is_main_8804 :=
    has_form_8804_exact && (has_main_title || (has_part_i && has_part_ii))
    && negb is_8805 in
  (is_schedule_k1_8804 || is_main_8804)
  && negb is_8805 && negb is_k3 && negb is_standard_k1.

End Classifier.

(** ** Page scanning and range detection *)
Module Detect.
Import PyStr Classifier.

(** [int(x)] on a rational: truncation towards zero. *)
Definition int_trunc (q : Q) : Z := Z.quot (Qnum q) (Zpos (Qden q)).

(** [int(total_pages * max_scan_percentage / 100)].  The percentage is a
    Python float; it is kept as an exact rational here (for the defaults
    85.0 and 100.0 and any realistic page count the float product and
    quotient truncate to the same integer). *)
Definition max_page_to_scan (total_pages : nat) (max_scan_percentage : Q) : Z :=
  int_trunc (inject_Z (Z.of_nat total_pages) * max_scan_percentage / (100 # 1))%Q.

(** A document is the list of its page texts ([doc[i].get_text()]). *)
Definition document := list string.

(** [for page_num in range(n): text = doc[page_num].get_text(); if
    keep(text): pages.append(page_num + 1)], started at [page_num].
    [None] is the [IndexError] of [doc[page_num]] past the last page. *)
Fixpoint scan_loop (keep : string -> bool) (doc : document)
         (page_num n : nat) (pages : list Z) : option (list Z) :=
  match n with
  | O => Some pages
  | S n' =>
      match nth_error doc page_num with
      | None => None
      | Some text =>
          scan_loop keep doc (S page_num) n'
            (if keep text then pages ++ [Z.of_nat page_num + 1] else pages)
      end
  end.

(** The same loop with the early exit of [detect_k1_pages]:
    [if max_k1_pages and len(k1_pages) >= max_k1_pages: break], tested
    right after an append. *)
Fixpoint scan_loop_k1 (doc : document) (max_k1_pages : option nat)
         (page_num n : nat) (k1_pages : list Z) : option (list Z) :=
  match n with
  | O => Some k1_pages
  | S n' =>
      match nth_error doc page_num with
      | None => None
      | Some text =>
          if is_k1_start_page text then
            let k1_pages' := k1_pages ++ [Z.of_nat page_num + 1] in
            match max_k1_pages with
            | Some (S m) =>
                if (S m <=? List.length k1_pages')%nat then Some k1_pages'
                else scan_loop_k1 doc max_k1_pages (S page_num) n' k1_pages'
            | _ => scan_loop_k1 doc max_k1_pages (S page_num) n' k1_pages'
            end
          else scan_loop_k1 doc max_k1_pages (S page_num) n' k1_pages
      end
  end.

(** forms/form_k1/extractor.py, [MultiPageK1Processor.detect_k1_pages];
    an exception inside the scan returns the empty list. *)
Definition detect_k1_pages (doc : document) (max_scan_percentage : Q)
           (max_k1_pages : option nat) : list Z :=
  let total_pages := List.length doc in
  let max_page_to_scan := max_page_to_scan total_pages max_scan_percentage in
  match scan_loop_k1 doc max_k1_pages 0 (Z.to_nat max_page_to_scan) [] with
  | Some k1_pages => k1_pages
  | None => []
  end.

Definition k1_default_percentage : Q := 85 # 1.
Definition default_percentage : Q := 100 # 1.

(** Second pass of [detect_k3_page_ranges] / [detect_8805_page_ranges] /
    [detect_8804_page_ranges]: one step of the grouping loop on the state
    [(start, end, ranges)]. *)
Definition group_step (st : Z * Z * list (Z * Z)) (page : Z)
  : Z * Z * list (Z * Z) :=
  let '(start, end_, ranges) := st in
  if page =? end_ + 1 then (start, page, ranges)
  else (page, page, ranges ++ [(start, end_)]).

(** The whole second pass, with the [if not pages: return []] guard. *)
Definition group_ranges (pages : list Z) : list (Z * Z) :=
  match pages with
  | [] => []
  | p0 :: rest =>
      let '(start, end_, ranges) := fold_left group_step rest (p0, p0, []) in
      ranges ++ [(start, end_)]
  end.

(** Both passes for a page predicate. *)
Definition detect_page_ranges (keep : string -> bool) (doc : document)
           (max_scan_percentage : Q) : list (Z * Z) :=
  let total_pages := List.length doc in
  let max_page_to_scan := max_page_to_scan total_pages max_scan_percentage in
  match scan_loop keep doc 0 (Z.to_nat max_page_to_scan) [] with
  | Some pages => group_ranges pages
  | None => []
  end.

(** forms/form_k3/extractor.py, [MultiPageK3Processor.detect_k3_page_ranges] *)
Definition detect_k3_page_ranges := detect_page_ranges is_k3_page.
(** forms/form_8805/extractor.py, [MultiPage8805Processor.detect_8805_page_ranges] *)
Definition detect_8805_page_ranges := detect_page_ranges is_8805_page.
(** forms/form_8804/extractor.py, [MultiPage8804Processor.detect_8804_page_ranges] *)
Definition detect_8804_page_ranges := detect_page_ranges is_8804_page.

(** [range(start, end + 1)] *)
Definition py_range (start stop : Z) : list Z :=
  map (fun i => start + Z.of_nat i) (seq 0 (Z.to_nat (stop - start))).

(** [detect_k3_pages] / [detect_8805_pages]: the legacy view, every page
    of every range. *)
Definition pages_of_ranges (ranges : list (Z * Z)) : list Z :=
  flat_map (fun r => py_range (fst r) (snd r + 1)) ranges.

Definition detect_k3_pages (doc : document) (max_scan_percentage : Q) : list Z :=
  pages_of_ranges (detect_k3_page_ranges doc max_scan_percentage).

Definition detect_8805_pages (doc : document) (max_scan_percentage : Q) : list Z :=
  pages_of_ranges (detect_8805_page_ranges doc max_scan_percentage).

End Detect.


(** ** Retry loops around a backend call (api.py)

    Both loops have the shape

      max_retries = 3; retry_delay = 2
      for attempt in range(max_retries):
          try:    response = call(); break
          except Exception as e:
              if retryable(str(e)) and attempt < max_retries - 1:
                  time.sleep(retry_delay); retry_delay *= 2; continue
              raise e

    and differ in the test on the error text.  The backend is a function
    from the attempt number to what the call does at that attempt; the
    loop's effects (calls made, sleeps taken) are recorded in a log. *)
Module Retry.
Import PyStr.

Inductive outcome (R : Type) : Type :=
| Returned (response : R)
| Raised (error_msg : string).
Arguments Returned {R} response.
Arguments Raised {R} error_msg.

Inductive event : Type :=
| Attempt (attempt : nat)
| Sleep (seconds : Z).

Inductive loop_result (R : Type) : Type :=
| Break (response : R)          (* the call succeeded *)
| Raise (error_msg : string)    (* [raise e] *)
| Exhausted.                    (* the [for] ran out: [response] is still None *)
Arguments Break {R} response.
Arguments Raise {R} error_msg.
Arguments Exhausted {R}.

(** api.py, [get_pages], line 306 *)
Definition get_pages_retryable (error_msg : string) : bool :=
  py_in "503" error_msg || py_in "429" error_msg.

(** api.py, [extract_form], line 688 *)
Definition extract_form_retryable (error_str : string) : bool :=
  py_in "503" error_str || py_in "429" error_str
  || py_in "overloaded" (lower error_str).

Section Loop.
Variable R : Type.
Variable retryable : string -> bool.
Variable max_retries : nat.
Variable call : nat -> outcome R.

(** The [for attempt in ...] loop over the remaining attempt numbers. *)
Fixpoint retry_loop (attempts : list nat) (retry_delay : Z) (log : list event)
  : loop_result R * list event :=
  match attempts with
  | [] => (Exhausted, log)
  | attempt :: rest =>
      let log := log ++ [Attempt attempt] in
      match call attempt with
      | Returned response => (Break response, log)
      | Raised e =>
          if retryable e && (Z.of_nat attempt <? Z.of_nat max_retries - 1)
          then retry_loop rest (retry_delay * 2) (log ++ [Sleep retry_delay])
          else (Raise e, log)
      end
  end.

Definition retry_call (retry_delay : Z) : loop_result R * list event :=
  retry_loop (seq 0 max_retries) retry_delay [].

End Loop.

(** api.py, [get_pages], lines 285-312 *)
Definition get_pages_call {R} (call : nat -> outcome R) :=
  retry_call R get_pages_retryable 3 call 2.

(** api.py, [extract_form], lines 663-693 *)
Definition extract_form_call {R} (call : nat -> outcome R) :=
  retry_call R extract_form_retryable 3 call 2.

(** Reading a log. *)
Definition attempts_of (log : list event) : list nat :=
  flat_map (fun e => match e with Attempt a => [a] | Sleep _ => [] end) log.

Definition sleeps_of (log : list event) : list Z :=
  flat_map (fun e => match e with Attempt _ => [] | Sleep d => [d] end) log.

(** The error text names one of the conditions the two loops test for. *)
Definition names_retryable_status (error_msg : string) : bool :=
  py_in "429" error_msg || py_in "503" error_msg
  || py_in "overloaded" (lower error_msg).

End Retry.

(** ** Batching of a multi-page extraction request (api.py, [extract_form]) *)
Module Batch.

(** [PageInput] of the request body. *)
Record page : Type := mkPage {
  page_url : string;
  page_number : Z;
  detected_type : string
}.

Definition MAX_PAGES_PER_BATCH : nat := 10.

(** [pages_by_type[form_type].append(page)], creating the key on first
    sight; the dict keeps its keys in insertion order. *)
Fixpoint group_add (pages_by_type : list (string * list page)) (p : page)
  : list (string * list page) :=
  match pages_by_type with
  | [] => [(detected_type p, [p])]
  | (form_type, pages) :: rest =>
      if String.eqb form_type (detected_type p)
      then (form_type, pages ++ [p]) :: rest
      else (form_type, pages) :: group_add rest p
  end.

Definition group_by_type (request_pages : list page) : list (string * list page) :=
  fold_left group_add request_pages [].

(** [range(0, stop, step)] for a positive step. *)
Definition py_range_step (stop step : nat) : list nat :=
  map (fun k => (k * step)%nat) (seq 0 ((stop + step - 1) / step)).

(** [l[i:j]] for indices within [0, ...). *)
Definition py_slice {A : Type} (l : list A) (i j : nat) : list A :=
  firstn (j - i) (skipn i l).

(** [[pages[chunk_idx:chunk_idx + MAX_PAGES_PER_BATCH]
      for chunk_idx in range(0, len(pages), MAX_PAGES_PER_BATCH)]] *)
Definition chunks (pages : list page) : list (list page) :=
  map (fun chunk_idx => py_slice pages chunk_idx (chunk_idx + MAX_PAGES_PER_BATCH))
      (py_range_step (List.length pages) MAX_PAGES_PER_BATCH).

(** What the request does for its pages, in order, as long as no call
    ends in an exception: one backend call per chunk (its [contents] hold
    one image per page of the chunk), or an error entry per page of a form
    type without prompt configuration. *)
Inductive action : Type :=
| BackendCall (form_type : string) (chunk : list page)
| UnsupportedEntry (form_type : string) (p : page).

Section Plan.
(** Whether [load_prompt_for_form form_type] finds a configuration. *)
Variable has_prompt : string -> bool.

Definition actions_for (group : string * list page) : list action :=
  let '(form_type, pages) := group in
  if has_prompt form_type
  then map (BackendCall form_type) (chunks pages)
  else map (UnsupportedEntry form_type) pages.

Definition extract_form_actions (request_pages : list page) : list action :=
  flat_map actions_for (group_by_type request_pages).

End Plan.


End Batch.


(** ** JSON values as Python sees them *)
Module Json.

(** A Python float, kept exact: finite values are rationals (rounding to
    binary64 is not modelled), plus the two infinities and NaN. *)
Inductive pyfloat : Type :=
| Finite (q : Q)
| Infinite (negative : bool)
| NotANumber.

(** The result of [json.loads].  Integers and floats share [JNum]; an
    object keeps its keys in insertion order. *)
Inductive json : Type :=
| JNull
| JBool (b : bool)
| JNum (x : pyfloat)
| JStr (s : string)
| JArr (items : list json)
| JObj (fields : list (string * json)).


(** [x == 0] on a float. *)
Definition is_zero (x : pyfloat) : bool :=
  match x with
  | Finite q => Qeq_bool q 0
  | _ => false
  end.

(** [bool(v)] *)
Definition truthy (v : json) : bool :=
  match v with
  | JNull => false
  | JBool b => b
  | JNum x => negb (is_zero x)
  | JStr s => negb (String.eqb s "")
  | JArr items => negb (Nat.eqb (List.length items) 0)
  | JObj fields => negb (Nat.eqb (List.length fields) 0)
  end.

(** [d.get(key)] on a dict given by its items: [None] when absent. *)
Fixpoint dict_get {A : Type} (fields : list (string * A)) (key : string) : option A :=
  match fields with
  | [] => None
  | (k, v) :: rest => if String.eqb k key then Some v else dict_get rest key
  end.

(** [d[key] = v]: an existing key keeps its position. *)
Fixpoint dict_set {A : Type} (fields : list (string * A)) (key : string) (v : A)
  : list (string * A) :=
  match fields with
  | [] => [(key, v)]
  | (k, w) :: rest =>
      if String.eqb k key then (k, v) :: rest else (k, w) :: dict_set rest key v
  end.

(** [dict(items)] *)
Definition dict_of_items {A : Type} (items : list (string * A)) : list (string * A) :=
  fold_left (fun d kv => dict_set d (fst kv) (snd kv)) items [].

(** [str(n)] for an integer. *)
Definition string_of_Z (z : Z) : string := NilZero.string_of_int (Z.to_int z).

End Json.

(** ** Consolidation of the pages of one Schedule K-3
    (forms/form_k3/extractor.py, [MultiPageK3Processor.batch_extract])

    The extraction result of a page is taken in the shape the K-3 prompt
    asks for: each part is a list of items, an item may carry a ["data"]
    list, and each element of it is a dict read through [.get("code")] and
    [.get("value")].  Box codes are strings ([None] when the key is absent
    or null). *)
Module K3.
Import Json.

Record entry : Type := mkEntry {
  code : option string;               (* d.get("code") *)
  value : json;                       (* d.get("value"), JNull when absent *)
  other_keys : list (string * json)   (* "label" and whatever else d holds *)
}.

Record item : Type := mkItem {
  data : option (list entry)          (* None: no "data" key *)
}.

Definition parts := list (string * list item).

Record partner_record : Type := mkPartnerRecord {
  pr_partner_name : option json;      (* None: no "partner_name" key *)
  pr_parts : parts
}.

(** The dict [data] of one page. *)
Record page_dict : Type := mkPageDict {
  d_document_metadata : option json;
  d_form_type : option json;
  d_tax_year : option json;
  d_partnership_name : option json;
  d_partnership_ein : option json;
  d_partner_records : option (list partner_record);
  d_partner_name : option json;
  d_parts : parts
}.

(** What [self.extractor.extract(img, model)] did for a page. *)
Inductive extraction : Type :=
| ExtractRaises                         (* an exception *)
| ExtractError (error : json)           (* a dict with an "error" key *)
| ExtractOther                          (* an empty list, a list that starts
                                           with null, or no list and no dict *)
| ExtractData (in_list : bool) (d : page_dict).
                                        (* result[0] of a list, or the dict *)

Definition part_keys : list string :=
  [ "part_i_other_international"; "part_ii_foreign_tax_credit";
    "part_iii_form_1116_1118"; "part_iv_section_250"; "part_v_distributions";
    "part_vi_inclusions"; "part_vii_form_8621"; "part_viii_foreign_corp_income";
    "part_ix_form_8991_beat"; "part_x_tax_liability"; "part_xi_section_871m";
    "part_xii_eci"; "part_xiii_deemed_sale" ].

(** The initial [all_part_data]. *)
Definition empty_part_data : parts := map (fun k => (k, [])) part_keys.

Definition code_eqb (a b : option string) : bool :=
  match a, b with
  | None, None => true
  | Some x, Some y => String.eqb x y
  | _, _ => false
  end.

Definition code_in (c : option string) (codes : list (option string)) : bool :=
  existsb (code_eqb c) codes.

(** [v in [None, 0, 0.00, ""]]: Python compares with [==], so [False] is
    in the list as well. *)
Definition is_empty (v : json) : bool :=
  match v with
  | JNull => true
  | JBool b => negb b
  | JNum x => is_zero x
  | JStr s => String.eqb s ""
  | _ => false
  end.

(** [val is not None and val != 0 and val != 0.00 and val != ""] *)
Definition is_filled (val : json) : bool := negb (is_empty val).

(** The codes already present in a part: every ["code"] of every item. *)
Definition existing_codes_of (items : list item) : list (option string) :=
  flat_map (fun it => match data it with
                      | Some ds => map code ds
                      | None => []
                      end) items.

(** "Find and update": every stored entry with this code whose value is
    empty receives [val]. *)
Definition update_entry (c : option string) (val : json) (ed : entry) : entry :=
  if code_eqb (code ed) c then
    if is_empty (value ed) then mkEntry (code ed) val (other_keys ed) else ed
  else ed.

Definition update_existing (c : option string) (val : json) (items : list item)
  : list item :=
  map (fun existing_item =>
         match data existing_item with
         | Some ds => mkItem (Some (map (update_entry c val) ds))
         | None => existing_item
         end) items.

(** [for d in item["data"]: ...] on the state (stored items, existing
    codes): a new code appends the whole item and stops; a known code with
    a filled value updates and stops; a known code with an empty value
    moves on to the next [d]. *)
Fixpoint merge_data (it : item) (ds : list entry)
         (st : list item * list (option string))
  : list item * list (option string) :=
  match ds with
  | [] => st
  | d :: ds' =>
      let '(stored, existing_codes) := st in
      if negb (code_in (code d) existing_codes) then
        (stored ++ [it], existing_codes ++ [code d])
      else if is_filled (value d) then
        (update_existing (code d) (value d) stored, existing_codes)
      else merge_data it ds' st
  end.

Definition merge_item (st : list item * list (option string)) (it : item)
  : list item * list (option string) :=
  match data it with
  | Some ds => merge_data it ds st
  | None => st
  end.

(** One part of one page merged into the stored items of that part. *)
Definition merge_part (stored part_items : list item) : list item :=
  match part_items with
  | [] => stored                       (* [if part_items:] *)
  | _ => fst (fold_left merge_item part_items (stored, existing_codes_of stored))
  end.

(** [for part_key in all_part_data.keys(): if part_key in page_data: ...] *)
Definition merge_page (all_part_data : parts) (page_data : parts) : parts :=
  map (fun kv =>
         match dict_get page_data (fst kv) with
         | Some part_items => (fst kv, merge_part (snd kv) part_items)
         | None => kv
         end) all_part_data.

(** The loop state of [batch_extract].  [raw_results] keeps each result as
    it was returned: the in-place updates that the merge later makes on
    items it has taken over are not replayed on this debugging copy. *)
Record state : Type := mkState {
  raw_results : list (Z * extraction);
  st_document_metadata : option json;
  st_partner_name : json;
  all_part_data : parts
}.

Definition initial_state : state := mkState [] None (JStr "") empty_part_data.

Definition or_default (v : option json) (default : json) : json :=
  match v with Some x => x | None => default end.

Definition is_some {A : Type} (o : option A) : bool :=
  match o with Some _ => true | None => false end.

(** "Extract document metadata (first one found)", when
    [document_metadata is None]; [None] is Python's [None], which a null
    "document_metadata" leaves in place: the [elif] is not tried then. *)
Definition metadata_of (d : page_dict) : option json :=
  match d_document_metadata d with
  | Some JNull => None
  | Some m => Some m
  | None =>
      if is_some (d_partnership_name d) || is_some (d_tax_year d) then
        Some (JObj
          [ ("form_type", or_default (d_form_type d) (JStr "Schedule K-3 (Form 1065)"));
            ("tax_year", or_default (d_tax_year d) (JStr "2024"));
            ("partnership_name", or_default (d_partnership_name d) (JStr ""));
            ("partnership_ein", or_default (d_partnership_ein d) (JStr "")) ])
      else None
  end.

(** [data["partner_records"]] when the key is there and the list is not
    empty: its first record. *)
Definition first_partner (d : page_dict) : option partner_record :=
  match d_partner_records d with
  | Some (p :: _) => Some p
  | _ => None
  end.

(** "Get partner name if available" *)
Definition partner_name_of (d : page_dict) : option json :=
  match first_partner d with
  | Some p => Some (or_default (pr_partner_name p) (JStr ""))
  | None =>
      match d_partner_name d with
      | Some n => Some n
      | None => None
      end
  end.

Definition page_data_of (d : page_dict) : parts :=
  match first_partner d with
  | Some p => pr_parts p
  | None => d_parts d
  end.

(** The body of [for page_num, img in page_images]. *)
Definition extract_page (st : state) (page : Z * extraction) : state :=
  let '(page_num, result) := page in
  match result with
  | ExtractRaises => st
  | ExtractError _ | ExtractOther =>
      mkState (raw_results st ++ [page]) (st_document_metadata st)
              (st_partner_name st) (all_part_data st)
  | ExtractData _ d =>
      mkState (raw_results st ++ [page])
              (match st_document_metadata st with
               | Some m => Some m
               | None => metadata_of d
               end)
              (if truthy (st_partner_name st) then st_partner_name st
               else match partner_name_of d with
                    | Some n => n
                    | None => st_partner_name st
                    end)
              (merge_page (all_part_data st) (page_data_of d))
  end.

Definition default_metadata : json :=
  JObj [ ("form_type", JStr "Schedule K-3 (Form 1065)");
         ("tax_year", JStr "2024");
         ("partnership_name", JStr "");
         ("partnership_ein", JStr "") ].

Record partner_out : Type := mkPartnerOut {
  partner_name : json;
  page_reference : string;
  out_parts : parts
}.

(** The single dict of the list [batch_extract] returns. *)
Record batch_result : Type := mkBatchResult {
  document_metadata : json;
  partner_records : list partner_out;
  _debug_raw_results : list (Z * extraction);
  _pages_extracted : list Z
}.

Definition page_span (first_page last_page : Z) : string :=
  (string_of_Z first_page ++ "-" ++ string_of_Z last_page)%string.

Definition batch_extract (page_images : list (Z * extraction)) : batch_result :=
  let first_page := match page_images with p :: _ => fst p | [] => 1 end in
  let last_page := fst (last page_images (1, ExtractOther)) in
  let st := fold_left extract_page page_images initial_state in
  let document_metadata := or_default (st_document_metadata st) default_metadata in
  let partner_record :=
    mkPartnerOut
      (if truthy (st_partner_name st) then st_partner_name st
       else JStr ("Partner (Pages " ++ page_span first_page last_page ++ ")")%string)
      (page_span first_page last_page)
      (all_part_data st) in
  mkBatchResult document_metadata [partner_record] (raw_results st)
                (map fst page_images).

(** app.py, the K-3 branch of [main] (lines 3140-3172): what is stored as
    the result of one selected range, and how its status is derived. *)
Inductive range_result : Type :=
| ErrorObject (error : string)
| Records (r : batch_result).

Definition extract_selected_range (page_images : list (Z * extraction))
  : range_result :=
  match page_images with
  | [] => ErrorObject "Failed to convert K-3 pages"
  | _ => Records (batch_extract page_images)
  end.

(** app.py, [has_error]: a dict holding the key "error". *)
Definition has_error (res : range_result) : bool :=
  match res with
  | ErrorObject _ => true
  | Records _ => false
  end.

End K3.


(** ** The builtin [float(s)] on a string

    The grammar of the Python documentation, on ASCII:

      floatvalue ::= [sign] (floatnumber | "inf" | "infinity" | "nan")
      floatnumber ::= ([digitpart] "." digitpart | digitpart ["."]) [exponent]
      digitpart ::= digit (["_"] digit)*
      exponent ::= ("e" | "E") [sign] digitpart

    after surrounding whitespace is removed; [None] is [ValueError]. *)
Module PyFloat.
Import PyStr Json.

Definition digit_of (c : ascii) : option Z :=
  let n := nat_of_ascii c in
  if ((48 <=? n) && (n <=? 57))%nat then Some (Z.of_nat (n - 48)) else None.

(** [(["_"] digit)*] with the value read so far and the number of digits. *)
Fixpoint digits_tail (acc : Z) (count : nat) (s : string) : Z * nat * string :=
  match s with
  | EmptyString => (acc, count, s)
  | String c s' =>
      match digit_of c with
      | Some d => digits_tail (acc * 10 + d) (S count) s'
      | None =>
          if Ascii.eqb c "_" then
            match s' with
            | String c2 s'' =>
                match digit_of c2 with
                | Some d => digits_tail (acc * 10 + d) (S count) s''
                | None => (acc, count, s)
                end
            | EmptyString => (acc, count, s)
            end
          else (acc, count, s)
      end
  end.

Definition digitpart (acc : Z) (count : nat) (s : string)
  : option (Z * nat * string) :=
  match s with
  | String c s' =>
      match digit_of c with
      | Some d => Some (digits_tail (acc * 10 + d) (S count) s')
      | None => None
      end
  | EmptyString => None
  end.

(** The digits of the number as one integer, how many of them follow the
    point, and the unread rest. *)
Definition floatnumber_digits (s : string) : option (Z * nat * string) :=
  match digitpart 0 0 s with
  | Some (i, _, r) =>
      match r with
      | String "." r' =>
          match digitpart i 0 r' with
          | Some res => Some res
          | None => Some (i, O, r')
          end
      | _ => Some (i, O, r)
      end
  | None =>
      match s with
      | String "." r' => digitpart 0 0 r'
      | _ => None
      end
  end.

Definition read_sign (s : string) : bool * string :=
  match s with
  | String "-" s' => (true, s')
  | String "+" s' => (false, s')
  | _ => (false, s)
  end.

Definition exponent (s : string) : option Z :=
  match s with
  | EmptyString => Some 0
  | String c s' =>
      if Ascii.eqb c "e" || Ascii.eqb c "E" then
        let '(negative, s'') := read_sign s' in
        match digitpart 0 0 s'' with
        | Some (e, _, EmptyString) => Some (if negative then - e else e)
        | _ => None
        end
      else None
  end.

Definition scaled (negative : bool) (digits : Z) (scale : Z) : pyfloat :=
  Finite (Qred (inject_Z (if negative then - digits else digits)
                * Qpower (10 # 1) scale)).

(** [float(s)] on a string, [None] for its ValueError.  The value is kept
    exact: it is not rounded to binary64 and does not overflow to an
    infinity; digits and white space are the ASCII ones. *)
Definition py_float (s : string) : option pyfloat :=
  let '(negative, body) := read_sign (strip s) in
  let word := lower body in
  if String.eqb word "inf" || String.eqb word "infinity" then
    Some (Infinite negative)
  else if String.eqb word "nan" then Some NotANumber
  else
    match floatnumber_digits body with
    | Some (digits, after_point, rest) =>
        match exponent rest with
        | Some e => Some (scaled negative digits (e - Z.of_nat after_point))
        | None => None
        end
    | None => None
    end.

(** [float(b)] for a bool. *)
Definition float_of_bool (b : bool) : pyfloat :=
  Finite (if b then 1 else 0).

End PyFloat.

(** ** Normalisation helpers (app.py) *)
Module Normalize.
Import PyStr Json PyFloat.

Definition string_of_nat (n : nat) : string := string_of_Z (Z.of_nat n).

(** app.py, [flatten_dict(d, parent_key='', sep='_')] *)
Fixpoint flatten_dict (d : json) (parent_key : string) (sep : string)
  : list (string * json) :=
  match d with
  | JObj fields =>
      dict_of_items
        ((fix over_items (fs : list (string * json)) : list (string * json) :=
            match fs with
            | [] => []
            | (k, v) :: rest =>
                let new_key :=
                  if String.eqb parent_key "" then k
                  else (parent_key ++ sep ++ k)%string in
                (match v with
                 | JObj _ => flatten_dict v new_key sep
                 | JArr l =>
                     (fix over_list (l : list json) (i : nat)
                        : list (string * json) :=
                        match l with
                        | [] => []
                        | item :: l' =>
                            let key_i := (new_key ++ "_" ++ string_of_nat i)%string in
                            (match item with
                             | JObj _ => flatten_dict item key_i sep
                             | _ => [(key_i, item)]
                             end) ++ over_list l' (S i)
                        end) l O
                 | _ => [(new_key, v)]
                 end) ++ over_items rest
            end) fields)
  | _ => []
  end.

(** [v is not None and v != "" and v != "N/A"] *)
Definition usable (v : json) : bool :=
  match v with
  | JNull => false
  | JStr s => negb (String.eqb s "") && negb (String.eqb s "N/A")
  | _ => true
  end.

(** The inner loop of [find_value]: the first usable value under a key
    that contains [key_lower]. *)
Fixpoint find_in_flat (flat : list (string * json)) (key_lower : string)
  : option json :=
  match flat with
  | [] => None
  | (k, v) :: rest =>
      if py_in key_lower (lower k) && usable v then Some v
      else find_in_flat rest key_lower
  end.

(** [find_value(keys, default)] of the three transformers. *)
Fixpoint find_value (flat : list (string * json)) (keys : list string)
         (default : json) : json :=
  match keys with
  | [] => default
  | key :: keys' =>
      match find_in_flat flat (lower key) with
      | Some v => v
      | None => find_value flat keys' default
      end
  end.

(** [val.replace("$", "").replace(",", "").strip()] *)
Definition strip_money (val : string) : string :=
  strip (replace_char "," "" (replace_char "$" "" val)).

(** [val.replace("$", "").replace(",", "").replace("(", "-")
        .replace(")", "").strip()] *)
Definition strip_money_parens (val : string) : string :=
  strip (replace_char ")" ""
          (replace_char "(" "-"
             (replace_char "," "" (replace_char "$" "" val)))).

Definition zero : pyfloat := Finite 0.

(** [val.lower() in ["true", "yes", "1", "x", "checked"]] *)
Definition says_true (val : string) : bool :=
  existsb (String.eqb (lower val)) ["true"; "yes"; "1"; "x"; "checked"].

(** *** W-2: the closures of [transform_to_w2_structure] *)
Module W2.

(** [find_number(keys)], lines 382-395; every call keeps the default 0.00.
    [number_of] is the part after [val = find_value(keys, default)]; a bool
    is an [int] for [isinstance]. *)
Definition number_of (val : json) : pyfloat :=
  match val with
  | JNull => zero
  | JBool b => float_of_bool b
  | JNum x => x
  | JStr val =>
      match py_float (strip_money val) with
      | Some x => x
      | None => zero
      end
  | _ => zero
  end.

Definition find_number (flat : list (string * json)) (keys : list string)
  : pyfloat :=
  number_of (find_value flat keys (JNum zero)).

(** [find_bool(keys)], lines 397-403, default [False]. *)
Definition bool_of (val : json) : bool :=
  match val with
  | JBool b => b
  | JStr val => says_true val
  | _ => false
  end.

Definition find_bool (flat : list (string * json)) (keys : list string) : bool :=
  bool_of (find_value flat keys (JBool false)).

Section WithStr.
(** The builtin [str] on values that are not strings. *)
Variable py_str : json -> string.

Definition str (v : json) : string :=
  match v with
  | JStr s => s
  | _ => py_str v
  end.

(** The clean-up of one operand in [find_combined_value]. *)
Definition cleaned (v : json) : string :=
  match v with
  | JStr s => strip s
  | _ => if truthy v then py_str v else ""
  end.

(** [find_combined_value(name_keys, address_keys, default, separator)] *)
Definition find_combined_value (flat : list (string * json))
           (name_keys address_keys : list string) (default : json)
           (separator : string) : json :=
  let name := cleaned (find_value flat name_keys (JStr "")) in
  let address := cleaned (find_value flat address_keys (JStr "")) in
  if negb (String.eqb name "") && negb (String.eqb address "") then
    JStr (name ++ separator ++ address)
  else if negb (String.eqb name "") then JStr name
  else if negb (String.eqb address "") then JStr address
  else default.

(** [{"data": [{"code": ..., "label": ..., "value": ...}]}] *)
Definition box (code : string) (label value : json) : json :=
  JObj [("data", JArr [JObj [("code", JStr code); ("label", label); ("value", value)]])].

Definition newline : string := String (ascii_of_nat 10) EmptyString.

Definition identification_plane (flat : list (string * json)) : list json :=
  [ box "a" (JStr "Employee's SSA number")
      (find_value flat ["ssn"; "ssa"; "employee_ssn"; "social_security"; "box_a"] (JStr ""));
    box "b" (JStr "Employer's FED ID number")
      (find_value flat ["ein"; "fed_id"; "employer_ein"; "employer_fed"; "box_b"] (JStr ""));
    box "c" (JStr "Employer's name and address")
      (find_combined_value flat ["employer_name"]
         ["employer_address"; "employer_street"; "employer_city"] (JStr "") newline);
    box "d" (JStr "Control number")
      (find_value flat ["control"; "control_number"; "box_d"] (JStr ""));
    box "dept" (JStr "Department")
      (find_value flat ["dept"; "department"; "dept_code"] (JStr ""));
    box "e/f" (JStr "Employee's name and address")
      (find_combined_value flat ["employee_name"]
         ["employee_address"; "employee_street"; "employee_city"] (JStr "") newline) ].

Definition amount (flat : list (string * json)) (keys : list string) : json :=
  JNum (find_number flat keys).

Definition federal_tax_plane (flat : list (string * json)) : list json :=
  [ box "1" (JStr "Wages, tips, other comp.")
      (amount flat ["box_1"; "box1"; "wages"; "wages_tips"]);
    box "2" (JStr "Federal income tax withheld")
      (amount flat ["box_2"; "box2"; "federal_income_tax"; "federal_tax_withheld"]);
    box "3" (JStr "Social security wages")
      (amount flat ["box_3"; "box3"; "social_security_wages"]);
    box "4" (JStr "Social security tax withheld")
      (amount flat ["box_4"; "box4"; "social_security_tax"]);
    box "5" (JStr "Medicare wages and tips")
      (amount flat ["box_5"; "box5"; "medicare_wages"]);
    box "6" (JStr "Medicare tax withheld")
      (amount flat ["box_6"; "box6"; "medicare_tax"]);
    box "7" (JStr "Social security tips")
      (amount flat ["box_7"; "box7"; "social_security_tips"]);
    box "8" (JStr "Allocated tips")
      (amount flat ["box_8"; "box8"; "allocated_tips"]);
    box "9" (JStr "Verification code")
      (find_value flat ["box_9"; "box9"; "verification_code"; "verification"] (JStr ""));
    box "10" (JStr "Dependent care benefits")
      (amount flat ["box_10"; "box10"; "dependent_care"]);
    box "11" (JStr "Nonqualified plans")
      (amount flat ["box_11"; "box11"; "nonqualified"]) ].

Definition supplemental_plane (flat : list (string * json)) : list json :=
  [ box "12a" (find_value flat ["box_12a_code"; "12a_code"] (JStr ""))
      (amount flat ["box_12a_amount"; "12a_amount"; "box_12a"]);
    box "12b" (find_value flat ["box_12b_code"; "12b_code"] (JStr ""))
      (amount flat ["box_12b_amount"; "12b_amount"; "box_12b"]);
    box "12c" (find_value flat ["box_12c_code"; "12c_code"] (JStr ""))
      (amount flat ["box_12c_amount"; "12c_amount"; "box_12c"]);
    box "12d" (find_value flat ["box_12d_code"; "12d_code"] (JStr ""))
      (amount flat ["box_12d_amount"; "12d_amount"; "box_12d"]);
    box "13" (JStr "Statutory employee")
      (JBool (find_bool flat ["box_13_statutory"; "box_13_statutory_employee";
                              "statutory_employee"; "statutory"]));
    box "13b" (JStr "Retirement plan")
      (JBool (find_bool flat ["box_13_retirement"; "box_13_retirement_plan";
                              "retirement_plan"; "retirement"]));
    box "13c" (JStr "Third-party sick pay")
      (JBool (find_bool flat ["box_13_sick_pay"; "box_13_third_party_sick_pay";
                              "third_party_sick_pay"; "sick_pay"]));
    box "14" (JStr "Other")
      (find_value flat ["box_14"; "box_14_other"; "other"] JNull) ].

Definition state_local_plane (flat : list (string * json)) : list json :=
  [ box "15" (JStr "State / Employer ID")
      (find_combined_value flat ["box_15_state"; "state"]
         ["box_15_state_id"; "state_id"; "employer_state_id"] JNull " ");
    box "16" (JStr "State wages, tips, etc.") (amount flat ["box_16"; "state_wages"]);
    box "17" (JStr "State income tax")
      (amount flat ["box_17"; "state_income_tax"; "state_tax"]);
    box "18" (JStr "Local wages, tips, etc.") (amount flat ["box_18"; "local_wages"]);
    box "19" (JStr "Local income tax")
      (amount flat ["box_19"; "local_income_tax"; "local_tax"]);
    box "20" (JStr "Locality name")
      (find_value flat ["box_20"; "locality"; "locality_name"] JNull);
    box "15b" (JStr "State / Employer ID (2)")
      (find_combined_value flat ["box_15b_state"] ["box_15b_state_id"] JNull " ");
    box "16b" (JStr "State wages (2)") (amount flat ["box_16b"]);
    box "17b" (JStr "State income tax (2)") (amount flat ["box_17b"]);
    box "18b" (JStr "Local wages (2)") (amount flat ["box_18b"]);
    box "19b" (JStr "Local income tax (2)") (amount flat ["box_19b"]);
    box "20b" (JStr "Locality name (2)") (find_value flat ["box_20b"] JNull) ].

Definition additional_data_plane (flat : list (string * json)) : list json :=
  [ box "employer_use" (JStr "Employer Use Only")
      (find_value flat ["employer_use_only"; "employer_use"; "for_employer_use"] (JStr ""));
    box "other" (JStr "Other Data")
      (find_value flat ["other_data"; "other"; "additional_info"] (JStr "")) ].

Definition form_header (flat : list (string * json)) : json :=
  JObj [ ("form_number", JStr "W-2");
         ("year", JStr (str (find_value flat ["year"; "tax_year"; "form_year"] (JStr "2024"))));
         ("type", JStr "Wage and Tax Statement");
         ("text_array",
          JArr [ JStr "Employee Reference";
                 find_value flat ["copy"; "copy_type"] (JStr "Copy C for employee's records");
                 JStr "OMB No. 1545-0008" ]) ].

(** The "EXACT hardcoded structure". *)
Definition w2_structure (flat : list (string * json)) : json :=
  JArr [ JObj [ ("forms", JArr [ JObj
    [ ("form_header", form_header flat);
      ("boxes", JArr
         [ JObj [("identification_plane", JArr (identification_plane flat))];
           JObj [("federal_tax_plane", JArr (federal_tax_plane flat))];
           JObj [("boxes", JArr
                   [ JObj [("supplemental_plane", JArr (supplemental_plane flat))] ])];
           JObj [("state_local_plane", JArr (state_local_plane flat))];
           JObj [("additional_data_plane", JArr (additional_data_plane flat))] ]) ] ]) ] ].

(** "Handle list or dict input": a non-empty list stands for its first
    element. *)
Definition unwrap (raw_data : json) : json :=
  match raw_data with
  | JArr (first :: _) => first
  | _ => raw_data
  end.



End WithStr.
End W2.

(** *** K-1: the closures of [transform_to_k1_structure] *)
Module K1.

(** [clean_number(val, default=0.00)], lines 1061-1072 *)
Definition clean_number (val : json) (default : pyfloat) : pyfloat :=
  match val with
  | JNull => default
  | JBool b => float_of_bool b
  | JNum x => x
  | JStr s =>
      match py_float (strip_money_parens s) with
      | Some x => x
      | None => default
      end
  | _ => default
  end.

(** [clean_bool(val)], lines 1074-1079 *)
Definition clean_bool (val : json) : bool :=
  match val with
  | JBool b => b
  | JStr s => says_true s
  | _ => false
  end.

(** [find_number(keys, default=0.00)] of the fallback path, lines 1187-1198 *)
Definition find_number (flat : list (string * json)) (keys : list string)
           (default : pyfloat) : pyfloat :=
  match find_value flat keys JNull with
  | JNull => default
  | JBool b => float_of_bool b
  | JNum x => x
  | JStr val =>
      match py_float (strip_money_parens val) with
      | Some x => x
      | None => default
      end
  | _ => default
  end.

End K1.
End Normalize.


(** ** Reading the results

    Definitions used only to state properties: what it means for ranges to
    be separated, which values the pages offer for a box code, and which
    boxes a normalised form holds. *)
Module Reading.
Import Json.

(** Every element exceeds the one before it, the first exceeds [lo]. *)
Fixpoint above (lo : Z) (pages : list Z) : Prop :=
  match pages with
  | [] => True
  | p :: rest => lo < p /\ above p rest
  end.

(** Strictly increasing page numbers. *)
Definition increasing (pages : list Z) : Prop :=
  match pages with
  | [] => True
  | p :: rest => above p rest
  end.

(** Ranges in document order, each one non-empty ([start <= end]) and
    starting at least two pages after the end of the one before it: the
    first start exceeds [lo]. *)
Fixpoint separated_from (lo : Z) (ranges : list (Z * Z)) : Prop :=
  match ranges with
  | [] => True
  | (s, e) :: rest => lo < s /\ s <= e /\ separated_from (e + 1) rest
  end.

Definition separated (ranges : list (Z * Z)) : Prop :=
  match ranges with
  | [] => True
  | (s, e) :: rest => s <= e /\ separated_from (e + 1) rest
  end.

(** The grouping written by recursion on the pages that remain: the run
    [(start, end_)] is open. *)
Fixpoint runs_from (start end_ : Z) (pages : list Z) : list (Z * Z) :=
  match pages with
  | [] => [(start, end_)]
  | p :: rest =>
      if p =? end_ + 1 then runs_from start p rest
      else (start, end_) :: runs_from p p rest
  end.

(** The Form 8804 signature in the words of the specification: "Form 8804"
    without "Schedule K-1", or "Schedule K-1" together with "(Form 8804)". *)
Definition form_8804_signature (text : string) : Prop :=
  (PyStr.occurs "Form 8804" text /\ ~ PyStr.occurs "Schedule K-1" text)
  \/ (PyStr.occurs "Schedule K-1" text /\ PyStr.occurs "(Form 8804)" text).

(** The three Form 8804 exclusions the 8805 detector computes. *)
Definition excluded_as_8804 (text : string) : Prop :=
  (PyStr.occurs "Schedule K-1" text /\ PyStr.occurs "(Form 8804)" text)
  \/ (PyStr.occurs "Form 8804" text
      /\ PyStr.occurs "Annual Return for Partnership Withholding Tax" text)
  \/ (PyStr.occurs "Form 8804" text /\ PyStr.occurs "Schedule K-1" text).

Definition signature_8805 (text : string) : Prop :=
  PyStr.occurs "Form 8805" text
  \/ PyStr.occurs "Foreign Partner's Information Statement" text
  \/ (PyStr.occurs "Section 1446" text /\ PyStr.occurs "Form 8805" text)
  \/ ((PyStr.occurs "Copy A" text \/ PyStr.occurs "Copy B" text
       \/ PyStr.occurs "Copy C" text \/ PyStr.occurs "Copy D" text)
      /\ PyStr.occurs "8805" text).

(** The page text of a 1-indexed page number. *)
Definition text_of (doc : Detect.document) (p : Z) : option string :=
  if 1 <=? p then nth_error doc (Z.to_nat (p - 1)) else None.

(** The page numbers a scan of [n] pages from index [i] keeps. *)
Definition kept_pages (keep : string -> bool) (doc : Detect.document)
           (i n : nat) : list Z :=
  map (fun j => Z.of_nat j + 1)
      (filter (fun j => keep (nth j doc EmptyString)) (seq i n)).



(** The entries a list of items offers, in order. *)
Definition entries_of (items : list K3.item) : list K3.entry :=
  flat_map (fun it => match K3.data it with Some ds => ds | None => [] end) items.




(** The value of the first entry with a box code. *)
Definition entry_value (c : option string) (es : list K3.entry) : option json :=
  option_map K3.value (find (fun d => K3.code_eqb (K3.code d) c) es).

(** The value stored for a box code in a list of items. *)
Definition stored_value (c : option string) (items : list K3.item) : option json :=
  entry_value c (entries_of items).





(** The parts of the partner records of a batch result. *)
Definition parts_of (r : K3.batch_result) : list K3.parts :=
  map K3.out_parts (K3.partner_records r).

(** The merged items of a part in a batch result. *)
Definition merged_part (part_key : string) (r : K3.batch_result) : list K3.item :=
  match r.(K3.partner_records) with
  | p :: _ =>
      match dict_get (K3.out_parts p) part_key with
      | Some items => items
      | None => []
      end
  | [] => []
  end.



(** The pages whose extraction failed. *)
Definition failed (e : K3.extraction) : bool :=
  match e with
  | K3.ExtractData _ _ => false
  | _ => true
  end.

(** A page whose extraction holds, in Part I, one item with the single box
    ["A"] and the given value. *)
Definition one_box_page (page_num : Z) (v : json) : Z * K3.extraction :=
  (page_num,
   K3.ExtractData false
     (K3.mkPageDict None None None None None None None
        [("part_i_other_international",
          [K3.mkItem (Some [K3.mkEntry (Some "A") v []])])])).

(** The extraction returned something (it did not raise). *)
Definition returned (page : Z * K3.extraction) : bool :=
  match snd page with
  | K3.ExtractRaises => false
  | _ => true
  end.

(** The pages whose extraction gave a dict of data. *)
Definition succeeded (page : Z * K3.extraction) : bool := negb (failed (snd page)).

(** The part data after the pages, from the part data before them. *)
Definition parts_after (pages : list (Z * K3.extraction)) (all_part_data : K3.parts)
  : K3.parts :=
  fold_left (fun apd page =>
               match snd page with
               | K3.ExtractData _ d => K3.merge_page apd (K3.page_data_of d)
               | _ => apd
               end) pages all_part_data.

(** The record a range is given when none of its pages yields data. *)
Definition placeholder_result (pages : list (Z * K3.extraction)) : K3.batch_result :=
  let first_page := match pages with p :: _ => fst p | [] => 1 end in
  let last_page := fst (last pages (1, K3.ExtractOther)) in
  K3.mkBatchResult
    K3.default_metadata
    [ K3.mkPartnerOut
        (JStr ("Partner (Pages " ++ K3.page_span first_page last_page ++ ")"))
        (K3.page_span first_page last_page)
        K3.empty_part_data ]
    (filter returned pages)
    (map fst pages).

(** A range of two pages: the extraction of page 3 raises, that of page 4
    returns an error object. *)
Definition two_failed_pages : list (Z * K3.extraction) :=
  [ (3, K3.ExtractRaises);
    (4, K3.ExtractError (JStr "No extraction method available")) ].






(** A stand-in for the builtin [str] where no value reaches it. *)
Definition any_str (v : json) : string := EmptyString.











(** A string of decimal digits. *)
Fixpoint all_digits (s : string) : bool :=
  match s with
  | EmptyString => true
  | String c s' =>
      match PyFloat.digit_of c with
      | Some _ => all_digits s'
      | None => false
      end
  end.

(** The integer a digit string writes, continuing from [acc]. *)
Fixpoint digits_value (acc : Z) (s : string) : Z :=
  match s with
  | EmptyString => acc
  | String c s' =>
      match PyFloat.digit_of c with
      | Some d => digits_value (acc * 10 + d) s'
      | None => acc
      end
  end.

(** The number written [i.f] in decimal. *)
Definition decimal_value (i f : string) : Q :=
  inject_Z (digits_value 0 (i ++ f)) * Qpower (10 # 1) (- Z.of_nat (String.length f)).



End Reading.


(** ** The processors' pipelines: detect, render, extract *)
Module Pipeline.
Import PyStr Classifier Detect Json.

(** A rendered page, named by the index of the page it shows. *)
Definition image : Type := nat.

(** What PyMuPDF and PIL do on a document lies outside this repository:
    [opens] says that [import fitz] and [fitz.open] succeed, [renders p]
    that [doc[p - 1]], [get_pixmap] and [Image.frombytes] succeed for the
    page number [p], and [closes] that [doc.close()] does. *)
Record rendering : Type := mkRendering {
  opens : bool;
  renders : Z -> bool;
  closes : bool
}.

(** [for page_num in page_numbers: if 1 <= page_num <= len(doc): ...
    images.append((page_num, img))]; [None] is an exception.  Page numbers
    outside [1, len(doc)] are passed over. *)
Fixpoint render_loop (fitz : rendering) (doc : document) (page_numbers : list Z)
         (images : list (Z * image)) : option (list (Z * image)) :=
  match page_numbers with
  | [] => Some images
  | page_num :: rest =>
      if (1 <=? page_num) && (page_num <=? Z.of_nat (List.length doc)) then
        if renders fitz page_num
        then render_loop fitz doc rest (images ++ [(page_num, Z.to_nat (page_num - 1))])
        else None
      else render_loop fitz doc rest images
  end.

(** [extract_k1_pages_as_images] / [extract_k3_pages_as_images] /
    [extract_8805_pages_as_images] / [extract_8804_pages_as_images]:
    [except ImportError: return []] around the import and
    [except Exception: return []] around the rest. *)
Definition extract_pages_as_images (fitz : rendering) (doc : document)
           (page_numbers : list Z) : list (Z * image) :=
  if opens fitz then
    match render_loop fitz doc page_numbers [] with
    | Some images => if closes fitz then images else []
    | None => []
    end
  else [].



(** [if isinstance(result, dict) and "error" not in result:
        result["page_reference"] = f"{start}-{end}"]: the form that is
    appended, if any. *)
Definition with_page_reference (result : json) (start end_ : Z) : option json :=
  match result with
  | JObj fields =>
      match dict_get fields "error" with
      | None => Some (JObj (dict_set fields "page_reference"
                                     (JStr (K3.page_span start end_))))
      | Some _ => None
      end
  | _ => None
  end.

Inductive ranges_processed : Type :=
| RangesError (error : string)
| RangesResult (all_forms : list json) (page_ranges_found : list (Z * Z))
               (total_forms : nat).

(** forms/form_8805/extractor.py, [MultiPage8805Processor.process_pdf] and
    forms/form_8804/extractor.py, [MultiPage8804Processor.process_pdf]: the
    same code around the two detectors. *)
Definition process_ranges (keep : string -> bool) (none_found not_converted : string)
           (fitz : rendering) (doc : document) (extract : image -> json)
  : ranges_processed :=
  let page_ranges := detect_page_ranges keep doc default_percentage in
  match page_ranges with
  | [] => RangesError none_found
  | _ =>
      let pages_to_extract := map fst page_ranges in
      let page_images := extract_pages_as_images fitz doc pages_to_extract in
      match page_images with
      | [] => RangesError not_converted
      | _ =>
          let all_forms :=
            flat_map (fun pair =>
                        let '((start, end_), (page_num, img)) := pair in
                        match with_page_reference (extract img) start end_ with
                        | Some form => [form]
                        | None => []
                        end)
                     (combine page_ranges page_images) in
          RangesResult all_forms page_ranges (List.length all_forms)
      end
  end.

Definition process_pdf_8805
  : rendering -> document -> (image -> json) -> ranges_processed :=
  process_ranges is_8805_page "No Form 8805 forms found in PDF"
                 "Failed to convert Form 8805 pages".

Definition process_pdf_8804
  : rendering -> document -> (image -> json) -> ranges_processed :=
  process_ranges is_8804_page "No Form 8804 forms found in PDF"
                 "Failed to convert Form 8804 pages".

End Pipeline.

(** Definitions used to state the properties of the pipelines. *)
Module PipelineReading.
Import Detect Json Pipeline.

(** The image of a page number. *)
Definition image_of (page_num : Z) : image := Z.to_nat (page_num - 1).


(** The page number lies inside the document. *)
Definition inside (doc : document) (p : Z) : bool :=
  (1 <=? p) && (p <=? Z.of_nat (List.length doc)).

(** Rendering the pages [pages] raises nothing. *)
Definition rendered (fitz : rendering) (pages : list Z) : bool :=
  opens fitz && forallb (renders fitz) pages && closes fitz.

(** A page passes the test of a detector. *)
Definition passes (keep : string -> bool) (doc : document) (p : Z) : Prop :=
  exists text, Reading.text_of doc p = Some text /\ keep text = true.

End PipelineReading.


(** ** The page results of a batch request (api.py, [extract_form]) *)
Module PageResults.
Import Json Batch.

(** ["api_calls_made": sum(1 for _ in range(0, len(request.pages),
    MAX_PAGES_PER_BATCH))] *)
Definition api_calls_made (request_pages : list page) : nat :=
  List.length (py_range_step (List.length request_pages) MAX_PAGES_PER_BATCH).

(** A form of a chunk: what [form.get("page_number", ...)] finds, as the
    integer it equals ([None]: no such key, or a value that equals no
    integer), and the form itself. *)
Definition form : Type := (option Z * json)%type.

(** The entry of one page in [forms_by_page]. *)
Record page_result : Type := mkPageResult {
  result_page_number : Z;
  result_detected_type : string;
  extracted_forms : list form
}.

(** [d[k] = v] on a dict with integer keys. *)
Fixpoint z_set (d : list (Z * page_result)) (k : Z) (v : page_result)
  : list (Z * page_result) :=
  match d with
  | [] => [(k, v)]
  | (k', w) :: rest =>
      if k' =? k then (k', v) :: rest else (k', w) :: z_set rest k v
  end.

(** [k in d] *)
Definition z_mem (d : list (Z * page_result)) (k : Z) : bool :=
  existsb (fun kv => fst kv =? k) d.

(** [d[k]["extracted_forms"].append(f)] for a key of [d]. *)
Fixpoint z_append (d : list (Z * page_result)) (k : Z) (f : form)
  : list (Z * page_result) :=
  match d with
  | [] => []
  | (k', w) :: rest =>
      if k' =? k
      then (k', mkPageResult (result_page_number w) (result_detected_type w)
                             (extracted_forms w ++ [f])) :: rest
      else (k', w) :: z_append rest k f
  end.

(** [for page in chunk: forms_by_page[page.page_number] = {...}] *)
Definition empty_results (form_type : string) (chunk : list page)
  : list (Z * page_result) :=
  fold_left (fun d p => z_set d (page_number p)
                          (mkPageResult (page_number p) form_type []))
            chunk [].

(** The body of [for form in chunk_forms]. *)
Definition place_form (first_page : Z) (d : list (Z * page_result)) (f : form)
  : list (Z * page_result) :=
  let page_num := match fst f with Some k => k | None => first_page end in
  if z_mem d page_num then z_append d page_num f
  else z_append d first_page f.

(** [forms_by_page.values()] after the forms of the chunk were handed out;
    [chunk[0]] is the first page of the chunk (a chunk is never empty). *)
Definition page_results (form_type : string) (chunk : list page)
           (chunk_forms : list form) : list page_result :=
  match chunk with
  | [] => []
  | first :: _ =>
      map snd (fold_left (place_form (page_number first)) chunk_forms
                         (empty_results form_type chunk))
  end.

(** [BoxDetail] and [FormInstance] of the structured response. *)
Record box_detail : Type := mkBoxDetail {
  label : string;
  code : string;
  value : json
}.

Record form_instance : Type := mkFormInstance {
  form_name : string;
  form_year : string;
  copy_type : string;
  box_details : list box_detail
}.

(** The dict the structured-response path appends to [chunk_forms] for a
    [FormInstance]: it has no key "page_number". *)
Definition parsed_form (form_instance : form_instance) : form :=
  (None,
   JObj [ ("form_name", JStr (form_name form_instance));
          ("form_year", JStr (form_year form_instance));
          ("copy", JStr (copy_type form_instance));
          ("box_details",
           JArr (map (fun box => JObj [ ("label", JStr (label box));
                                        ("code", JStr (code box));
                                        ("value", value box) ])
                     (box_details form_instance))) ]).

End PageResults.

(** Definitions used to state properties of page results and of the K-3
    consolidation. *)
Module MoreReading.
Import Json Batch PageResults.

(** The first element a function accepts. *)
Fixpoint first_some {A B : Type} (f : A -> option B) (l : list A) : option B :=
  match l with
  | [] => None
  | a :: rest => match f a with Some b => Some b | None => first_some f rest end
  end.

(** The metadata a page offers to the K-3 consolidation. *)
Definition offered_metadata (page : Z * K3.extraction) : option json :=
  match snd page with
  | K3.ExtractData _ d => K3.metadata_of d
  | _ => None
  end.

(** The partner name a page offers, when it is a true value. *)
Definition offered_partner_name (page : Z * K3.extraction) : option json :=
  match snd page with
  | K3.ExtractData _ d =>
      match K3.partner_name_of d with
      | Some n => if truthy n then Some n else None
      | None => None
      end
  | _ => None
  end.

(** The page does not hold the key "document_metadata" with the value null
    (Python's [None], which the loop reads as "no metadata found yet"). *)
Definition metadata_not_null (page : Z * K3.extraction) : Prop :=
  match snd page with
  | K3.ExtractData _ d => K3.d_document_metadata d <> Some JNull
  | _ => True
  end.

(** The partner name the consolidation holds, when it is a true value. *)
Definition kept_name (st : K3.state) : option json :=
  if truthy (K3.st_partner_name st) then Some (K3.st_partner_name st) else None.

(** The number of backend calls among the actions of a request. *)
Definition calls_made (actions : list action) : nat :=
  List.length (filter (fun a => match a with
                                | BackendCall _ _ => true
                                | UnsupportedEntry _ _ => false
                                end) actions).

(** All the forms in [forms_by_page]. *)
Definition all_forms (d : list (Z * page_result)) : list form :=
  flat_map (fun kv => extracted_forms (snd kv)) d.

(** What [forms_by_page] keeps true: no key twice, a key is the page number
    of its entry, every entry is of the form type. *)
Definition keyed (form_type : string) (d : list (Z * page_result)) : Prop :=
  NoDup (map fst d)
  /\ Forall (fun kv => result_page_number (snd kv) = fst kv
                       /\ result_detected_type (snd kv) = form_type) d.

(** A form lies under the page it names or, naming no key, under the first
    page. *)
Definition well_placed (first_page : Z) (keys : list Z) (k : Z) (f : form) : Prop :=
  fst f = Some k
  \/ (k = first_page /\ forall k', fst f = Some k' -> ~ In k' keys).


End MoreReading.


(** ** Removing the code fence around a model's answer
    ([_clean_json_response] of the extractors, [VisionClient._parse_json]
    in app.py, and the fallback of [extract_form] in api.py) *)
Module Fence.
Import PyStr.

(** [text[n:]] *)
Fixpoint drop (n : nat) (text : string) : string :=
  match n, text with
  | O, _ => text
  | S _, EmptyString => EmptyString
  | S n', String _ text' => drop n' text'
  end.

(** [text[:-n]] for [n > 0] *)
Definition drop_last (n : nat) (text : string) : string :=
  substring 0 (String.length text - n) text.

(** [text.endswith(suffix)] *)
Fixpoint endswith (suffix text : string) : bool :=
  if String.eqb text suffix then true
  else match text with
       | EmptyString => false
       | String _ text' => endswith suffix text'
       end.

(** [_clean_json_response]; [_parse_json] hands the same text to
    [json.loads]. *)
Definition clean_json_response (text : string) : string :=
  let text := strip text in
  let text :=
    if startswith "```json" text then drop 7 text
    else if startswith "```" text then drop 3 text
    else text in
  let text := if endswith "```" text then drop_last 3 text else text in
  strip text.

(** api.py, [extract_form], the fallback when [response.parsed] is empty:
    the text handed to [json.loads].  Here the second test is an [if], not
    an [elif]. *)
Definition fallback_json_text (response_text : string) : string :=
  let raw_text := strip response_text in
  let raw_text := if startswith "```json" raw_text then drop 7 raw_text else raw_text in
  let raw_text := if startswith "```" raw_text then drop 3 raw_text else raw_text in
  let raw_text := if endswith "```" raw_text then drop_last 3 raw_text else raw_text in
  strip raw_text.

End Fence.

Module FenceReading.
Import PyStr.

(** A text of whitespace only. *)
Fixpoint all_space (w : string) : bool :=
  match w with
  | EmptyString => true
  | String c w' => is_space c && all_space w'
  end.

(** A fenced answer: whitespace, the opening fence, the rest of its line,
    the body, whitespace, the closing fence, whitespace. *)
Definition fenced (opening w0 w1 body w2 w3 : string) : string :=
  (w0 ++ opening ++ w1 ++ body ++ w2 ++ "```" ++ w3)%string.

End FenceReading.


(** Definitions used to state properties of [flatten_dict] and
    [find_value]. *)
Module FlatReading.
Import PyStr Json.

(** [isinstance(v, dict)] and [isinstance(v, list)] *)
Definition is_dict (v : json) : bool :=
  match v with JObj _ => true | _ => false end.

Definition is_list (v : json) : bool :=
  match v with JArr _ => true | _ => false end.

(** Induction on a JSON value, with the property known for the items of a
    list and the values of an object. *)
Fixpoint json_nested_ind (P : json -> Prop)
         (HNull : P JNull) (HBool : forall b, P (JBool b))
         (HNum : forall x, P (JNum x)) (HStr : forall s, P (JStr s))
         (HArr : forall items, Forall P items -> P (JArr items))
         (HObj : forall fields, Forall (fun kv => P (snd kv)) fields
                                -> P (JObj fields))
         (j : json) {struct j} : P j :=
  match j with
  | JNull => HNull
  | JBool b => HBool b
  | JNum x => HNum x
  | JStr s => HStr s
  | JArr items =>
      HArr items
        ((fix all (l : list json) : Forall P l :=
            match l with
            | [] => Forall_nil P
            | x :: l' =>
                Forall_cons x
                  (json_nested_ind P HNull HBool HNum HStr HArr HObj x) (all l')
            end) items)
  | JObj fields =>
      HObj fields
        ((fix all (l : list (string * json))
            : Forall (fun kv => P (snd kv)) l :=
            match l with
            | [] => Forall_nil _
            | kv :: l' =>
                Forall_cons kv
                  (json_nested_ind P HNull HBool HNum HStr HArr HObj (snd kv))
                  (all l')
            end) fields)
  end.

(** No value of the dict is a dict. *)
Definition no_dict (l : list (string * json)) : Prop :=
  Forall (fun kv => is_dict (snd kv) = false) l.

(** The key [k] of the flattened dict answers to the alias [key]:
    [key.lower() in k.lower()]. *)
Definition answers_to (key k : string) : bool := py_in (lower key) (lower k).

End FlatReading.


(** ** The W-2 viewer's reading of the normalised structure
    (app.py, [render_table_view] and its helper [get_box_value]) *)
Module Viewer.
Import PyStr Json.

(** How a piece of code is left: by an exception, by [return], or by
    reaching its end. *)
Inductive flow (A : Type) : Type :=
| Raises
| Returns (result : A)
| Continues.
Arguments Raises {A}.
Arguments Returns {A} result.
Arguments Continues {A}.

(** [for x in l: body(x)] *)
Fixpoint for_each {A : Type} (l : list json) (body : json -> flow A) : flow A :=
  match l with
  | [] => Continues
  | x :: rest =>
      match body x with
      | Continues => for_each rest body
      | left_loop => left_loop
      end
  end.

(** The characters of a string, as [for c in s] yields them. *)
Fixpoint chars (s : string) : list json :=
  match s with
  | EmptyString => []
  | String c s' => JStr (String c EmptyString) :: chars s'
  end.

(** [iter(v)]: the items of a list, the keys of a dict, the characters of
    a string; [None] is the TypeError of the other values. *)
Definition py_iter (v : json) : option (list json) :=
  match v with
  | JArr items => Some items
  | JObj fields => Some (map (fun kv => JStr (fst kv)) fields)
  | JStr s => Some (chars s)
  | _ => None
  end.

(** [v == key] for a string [key]. *)
Definition eq_str (v : json) (key : string) : bool :=
  match v with
  | JStr s => String.eqb s key
  | _ => false
  end.

(** [key in v] for a string [key]: a key of the dict, an item of the list,
    a part of the string; [None] is the TypeError of the other values. *)
Definition py_contains (v : json) (key : string) : option bool :=
  match v with
  | JObj fields =>
      Some (match dict_get fields key with Some _ => true | None => false end)
  | JArr items => Some (existsb (fun x => eq_str x key) items)
  | JStr s => Some (py_in key s)
  | _ => None
  end.

(** [v.get(key, default)]: only a dict has [get]; [None] is the
    AttributeError of the other values. *)
Definition py_get (v : json) (key : string) (default : json) : option json :=
  match v with
  | JObj fields =>
      Some (match dict_get fields key with Some x => x | None => default end)
  | _ => None
  end.

(** [v[key]] for a string [key]: [None] is the KeyError of a dict without
    the key and the TypeError of the other values. *)
Definition py_index (v : json) (key : string) : option json :=
  match v with
  | JObj fields => dict_get fields key
  | _ => None
  end.

(** [for d in item.get("data", []): if d.get("code") == code: return
    d.get("value"), d.get("label", "")] *)
Definition scan_item (code : string) (item : json) : flow (json * json) :=
  match py_get item "data" (JArr []) with
  | None => Raises
  | Some data =>
      match py_iter data with
      | None => Raises
      | Some ds =>
          for_each ds
            (fun d =>
               match py_get d "code" JNull with
               | None => Raises
               | Some c =>
                   if eq_str c code then
                     match py_get d "value" JNull, py_get d "label" (JStr "") with
                     | Some value, Some label => Returns (value, label)
                     | _, _ => Raises
                     end
                   else Continues
               end)
      end
  end.

(** [if plane_name in box: for item in box[plane_name]: ...] *)
Definition scan_plane (plane_name code : string) (box : json)
  : flow (json * json) :=
  match py_contains box plane_name with
  | None => Raises
  | Some false => Continues
  | Some true =>
      match py_index box plane_name with
      | None => Raises
      | Some plane =>
          match py_iter plane with
          | None => Raises
          | Some items => for_each items (scan_item code)
          end
      end
  end.

(** [if "boxes" in box: for nested in box["boxes"]: ...] *)
Definition scan_nested (plane_name code : string) (box : json)
  : flow (json * json) :=
  match py_contains box "boxes" with
  | None => Raises
  | Some false => Continues
  | Some true =>
      match py_index box "boxes" with
      | None => Raises
      | Some nested_boxes =>
          match py_iter nested_boxes with
          | None => Raises
          | Some nesteds => for_each nesteds (scan_plane plane_name code)
          end
      end
  end.

(** [get_box_value(boxes, plane_name, code)]; [None] is an exception. *)
Definition get_box_value (boxes : json) (plane_name code : string)
  : option (json * json) :=
  match py_iter boxes with
  | None => None
  | Some bs =>
      match for_each bs
              (fun box =>
                 match scan_plane plane_name code box with
                 | Continues => scan_nested plane_name code box
                 | left_loop => left_loop
                 end)
      with
      | Raises => None
      | Returns result => Some result
      | Continues => Some (JNull, JStr "")
      end
  end.

(** [has_error(data)] *)
Definition has_error (data : json) : bool :=
  match data with
  | JObj fields =>
      match dict_get fields "error" with Some _ => true | None => false end
  | _ => false
  end.

(** The forms [render_table_view] walks over ("Navigate to forms"); [None]
    is an exception, and an error object, on which the function returns
    early, has no forms. *)
Definition forms_of (data : json) : option (list json) :=
  if has_error data then Some []
  else
    let forms_data :=
      match data with
      | JArr (first :: _) => py_get first "forms" data
      | JObj _ => py_get data "forms" (JArr [data])
      | _ => Some data
      end in
    match forms_data with
    | None => None
    | Some (JArr forms) => Some forms
    | Some other => Some [other]
    end.

(** [boxes = form.get("boxes", [])] *)
Definition boxes_of (form : json) : option json := py_get form "boxes" (JArr []).

End Viewer.

Module ViewerReading.
Import Json Normalize.

(** The planes of the normalised W-2, by name. *)
Definition w2_planes (py_str : json -> string) (flat : list (string * json))
  : list (string * list json) :=
  [ ("identification_plane", W2.identification_plane py_str flat);
    ("federal_tax_plane", W2.federal_tax_plane flat);
    ("supplemental_plane", W2.supplemental_plane flat);
    ("state_local_plane", W2.state_local_plane py_str flat);
    ("additional_data_plane", W2.additional_data_plane flat) ].

(** The groups of planes under the key "boxes" of the normalised form. *)
Definition w2_boxes (py_str : json -> string) (flat : list (string * json))
  : json :=
  JArr [ JObj [("identification_plane", JArr (W2.identification_plane py_str flat))];
         JObj [("federal_tax_plane", JArr (W2.federal_tax_plane flat))];
         JObj [("boxes", JArr
                 [ JObj [("supplemental_plane", JArr (W2.supplemental_plane flat))] ])];
         JObj [("state_local_plane", JArr (W2.state_local_plane py_str flat))];
         JObj [("additional_data_plane", JArr (W2.additional_data_plane flat))] ].

(** How [get_box_value] ends after its loops. *)
Definition finish (f : Viewer.flow (json * json)) : option (json * json) :=
  match f with
  | Viewer.Raises => None
  | Viewer.Returns result => Some result
  | Viewer.Continues => Some (JNull, JStr "")
  end.

End ViewerReading.


(** ** Digital or scanned (api.py, [is_digital_pdf]) *)
Module Digital.
Import PyStr.

Section WithLen.
(** The builtin [len] on a string. *)
Variable len : string -> nat.

(** The [for page in doc] loop, from the count reached so far. *)
Fixpoint count_text (total_text_chars : nat) (pages : list string) : bool :=
  match pages with
  | [] => false
  | page_text :: rest =>
      let text := strip page_text in
      let total_text_chars := (total_text_chars + len text)%nat in
      if (100 <? total_text_chars)%nat then true
      else count_text total_text_chars rest
  end.

(** [is_digital_pdf(pdf_bytes)] on the texts of the pages; [None]: the
    document cannot be opened, or a page cannot be read. *)
Definition is_digital_pdf (doc : option (list string)) : bool :=
  match doc with
  | Some pages => count_text 0 pages
  | None => false
  end.

End WithLen.
End Digital.

(** ** The form type of an uploaded image (app.py, [FormDetector.detect]) *)
Module FormDetector.
Import PyStr.

(** [c.upper()] on one character: only ASCII small letters change. *)
Definition upper_ascii (c : ascii) : ascii :=
  let n := nat_of_ascii c in
  if ((97 <=? n) && (n <=? 122))%nat then ascii_of_nat (n - 32) else c.

(** [s.upper()] *)
Fixpoint upper (s : string) : string :=
  match s with
  | EmptyString => EmptyString
  | String c s' => String (upper_ascii c) (upper s')
  end.

(** [SUPPORTED_FORMS]: the form types in the order of the dict, each with
    its patterns. *)
Definition SUPPORTED_FORMS : list (string * list string) :=
  [ ("W-2", ["W-2"; "W2"; "Wage and Tax Statement"; "Form W-2"]);
    ("1099-INT", ["1099-INT"; "1099INT"; "Interest Income";
                  "Combined Statement For Form 1099-INT";
                  "Combined Statement For Form"]);
    ("1099-NEC", ["1099-NEC"; "1099NEC"]);
    ("1099-MISC", ["1099-MISC"; "1099MISC"]);
    ("1099-R", ["1099-R"; "1099R"]);
    ("1099-K", ["1099-K"; "1099K"]);
    ("1098", ["1098"; "Mortgage Interest"]);
    ("K-1", ["K-1"; "K1"; "Schedule K-1"; "1065"; "Partner's Share"]);
    ("K-3", ["K-3"; "K3"; "Schedule K-3"; "International"; "Foreign Tax Credit"]);
    ("8805", ["8805"; "Form 8805"; "Section 1446"; "Foreign Partner"]);
    ("8804", ["8804"; "Form 8804"; "Annual Return for Partnership Withholding"]) ].

(** "First try OCR-based detection": the first form type, in the order of
    the dict, one of whose patterns occurs in the text. *)
Fixpoint detect_by_text (forms : list (string * list string)) (text_upper : string)
  : option string :=
  match forms with
  | [] => None
  | (form_type, patterns) :: rest =>
      if existsb (fun pattern => py_in (upper pattern) text_upper) patterns
      then Some form_type
      else detect_by_text rest text_upper
  end.

(** "Fallback: filename-based detection" *)
Definition detect_by_filename (filename_upper : string) : string :=
  if py_in "W2" filename_upper || py_in "W-2" filename_upper then "W-2"
  else if py_in "1099-INT" filename_upper || py_in "1099INT" filename_upper
          || py_in "1099 INT" filename_upper || py_in "1099_INT" filename_upper
       then "1099-INT"
  else if py_in "1099-NEC" filename_upper || py_in "1099NEC" filename_upper
          || py_in "1099 NEC" filename_upper || py_in "1099_NEC" filename_upper
       then "1099-NEC"
  else if py_in "1099-MISC" filename_upper || py_in "1099MISC" filename_upper
          || py_in "1099 MISC" filename_upper || py_in "1099_MISC" filename_upper
       then "1099-MISC"
  else if py_in "ALLY" filename_upper && py_in "1099" filename_upper then "1099-INT"
  else if py_in "1099" filename_upper then "1099-MISC"
  else if py_in "K-1" filename_upper || py_in "K1" filename_upper
          || py_in "1065" filename_upper || py_in "SCHEDULE K" filename_upper
       then "K-1"
  else if py_in "8805" filename_upper || py_in "SECTION 1446" filename_upper
          || py_in "FOREIGN PARTNER" filename_upper
       then "8805"
  else if py_in "8804" filename_upper || py_in "PARTNERSHIP WITHHOLDING" filename_upper
       then "8804"
  else "UNKNOWN".

(** [FormDetector.detect(image, filename)["form_type"]], from the text that
    OCR read off the image (the empty text when there is no OCR or it
    failed). *)
Definition detect (text filename : string) : string :=
  let text_upper := upper text in
  match detect_by_text SUPPORTED_FORMS text_upper with
  | Some form_type => form_type
  | None => detect_by_filename (upper filename)
  end.

End FormDetector.

Module DetectorReading.

(** The sum of a list of counts. *)
Definition total (counts : list nat) : nat := fold_right Nat.add 0%nat counts.

End DetectorReading.


(** ** Consolidation of the K-1 pages
    (forms/form_k1/extractor.py, [MultiPageK1Processor.batch_extract] and
    [process_pdf]) *)
Module K1Batch.
Import PyStr Classifier Detect Json Pipeline.

(** The page number as a JSON number. *)
Definition page_ref (page_num : Z) : json := JNum (Finite (inject_Z page_num)).

(** [for partner in partner_records: partner["page_reference"] = page_num;
    all_partner_records.append(partner)] over a list: the records that are
    appended before the loop ends or meets a value that takes no item
    assignment (its TypeError ends the page). *)
Fixpoint tag_records (page_num : Z) (partner_records : list json) : list json :=
  match partner_records with
  | JObj partner :: rest =>
      JObj (dict_set partner "page_reference" (page_ref page_num))
      :: tag_records page_num rest
  | _ => []
  end.

Definition has_key (fields : list (string * json)) (key : string) : bool :=
  match dict_get fields key with Some _ => true | None => false end.

(** "Extract partner records" on a dict [data]: what the page appends to
    [all_partner_records].  A "partner_records" value that is no list adds
    nothing: [len] or the first item assignment raises. *)
Definition page_records (page_num : Z) (data : list (string * json)) : list json :=
  match dict_get data "partner_records" with
  | Some (JArr partner_records) => tag_records page_num partner_records
  | Some _ => []
  | None =>
      if has_key data "part_i_partnership_plane"
         || has_key data "part_ii_partner_plane"
         || has_key data "part_iii_income_loss_plane"
      then tag_records page_num [JObj data]
      else []
  end.

Definition or_default (v : option json) (default : json) : json :=
  match v with Some x => x | None => default end.

(** "Extract document metadata (use first one found)" on a dict [data],
    when [document_metadata is None]; [None] is Python's [None], which a
    null "document_metadata" leaves in place. *)
Definition page_metadata (data : list (string * json)) : option json :=
  match dict_get data "document_metadata" with
  | Some JNull => None
  | Some document_metadata => Some document_metadata
  | None =>
      if has_key data "partnership_name" || has_key data "tax_year" then
        Some (JObj
          [ ("form_type",
             or_default (dict_get data "form_type") (JStr "Schedule K-1 (Form 1065)"));
            ("tax_year", or_default (dict_get data "tax_year") (JStr "2024"));
            ("partnership_name", or_default (dict_get data "partnership_name") (JStr ""));
            ("partnership_ein", or_default (dict_get data "partnership_ein") (JStr "")) ])
      else None
  end.

(** "Handle different response formats": the [data] the page goes on with,
    if any. *)
Definition data_of (result : json) : option json :=
  match result with
  | JArr (first :: _) => Some first
  | JObj fields => if has_key fields "error" then None else Some result
  | _ => None
  end.

Record state : Type := mkState {
  all_partner_records : list json;
  st_document_metadata : option json
}.

(** The body of [for page_num, img in page_images], on what
    [self.extractor.extract] did for the page ([None]: it raised).  A
    [data] that is no dict adds nothing: each path through the tests ends
    with no record or in an exception that the [except] turns into
    [continue]. *)
Definition extract_page (st : state) (page : Z * option json) : state :=
  let '(page_num, outcome) := page in
  match outcome with
  | None => st
  | Some result =>
      match data_of result with
      | Some (JObj data) =>
          mkState (all_partner_records st ++ page_records page_num data)
                  (match st_document_metadata st with
                   | Some document_metadata => Some document_metadata
                   | None => page_metadata data
                   end)
      | _ => st
      end
  end.

Definition default_metadata : json :=
  JObj [ ("form_type", JStr "Schedule K-1 (Form 1065)");
         ("tax_year", JStr "2024");
         ("partnership_name", JStr "");
         ("partnership_ein", JStr "") ].

(** The single dict of the list [batch_extract] returns, without its
    debugging copy of the raw results. *)
Record batch_result : Type := mkBatchResult {
  document_metadata : json;
  partner_records : list json
}.

Definition batch_extract (page_images : list (Z * option json)) : batch_result :=
  let st := fold_left extract_page page_images (mkState [] None) in
  mkBatchResult (or_default (st_document_metadata st) default_metadata)
                (all_partner_records st).



End K1Batch.

Module K1BatchReading.
Import Json K1Batch.

(** The dicts a page's answer offers as partner records: the dicts that
    open its "partner_records" list, or the answer itself when it has no
    such key and holds one of the three planes. *)
Fixpoint leading_dicts (l : list json) : list (list (string * json)) :=
  match l with
  | JObj fields :: rest => fields :: leading_dicts rest
  | _ => []
  end.

Definition offered (page : Z * option json) : list (list (string * json)) :=
  match snd page with
  | Some result =>
      match data_of result with
      | Some (JObj data) =>
          match dict_get data "partner_records" with
          | Some (JArr partner_records) => leading_dicts partner_records
          | Some _ => []
          | None =>
              if has_key data "part_i_partnership_plane"
                 || has_key data "part_ii_partner_plane"
                 || has_key data "part_iii_income_loss_plane"
              then [data] else []
          end
      | _ => []
      end
  | None => []
  end.

(** The record [r] is the dict [fields] with its page reference set to
    [page_num]: the other keys hold what they held, in their order. *)
Definition tagged (page_num : Z) (fields : list (string * json)) (r : json) : Prop :=
  exists fields',
    r = JObj fields'
    /\ dict_get fields' "page_reference" = Some (page_ref page_num)
    /\ (forall k, k <> "page_reference" -> dict_get fields' k = dict_get fields k)
    /\ filter (fun k => negb (String.eqb k "page_reference")) (map fst fields')
       = filter (fun k => negb (String.eqb k "page_reference")) (map fst fields).

(** The metadata a page offers. *)
Definition offered_metadata (page : Z * option json) : option json :=
  match snd page with
  | Some result =>
      match data_of result with
      | Some (JObj data) => page_metadata data
      | _ => None
      end
  | None => None
  end.

End K1BatchReading.


(** ** The final K-1 structure (app.py, [transform_to_k1_structure]) *)
Module K1Transform.
Import PyStr Json PyFloat Normalize Viewer.

Definition line_feed : ascii := ascii_of_nat 10.
Definition carriage_return : ascii := ascii_of_nat 13.

(** [val.replace("\n", ", ").replace("\r", "").strip()] *)
Definition clean_text (val : string) : string :=
  strip (replace_char carriage_return "" (replace_char line_feed ", " val)).

(** [clean_array(val)] *)
Definition clean_array (val : json) : json :=
  match val with
  | JArr items => JArr items
  | _ => JArr []
  end.

(** [get_plane_value(plane, code)]; [None] is an exception, [JNull] is
    Python's [None]. *)
Definition get_plane_value (plane : json) (code : string) : option json :=
  if negb (truthy plane) then Some JNull
  else
    match py_iter plane with
    | None => None
    | Some items =>
        match for_each items
                (fun item =>
                   match py_get item "data" (JArr []) with
                   | None => Raises
                   | Some data_list =>
                       match py_iter data_list with
                       | None => Raises
                       | Some ds =>
                           for_each ds
                             (fun d =>
                                match py_get d "code" JNull with
                                | None => Raises
                                | Some c =>
                                    if eq_str c code then
                                      match py_get d "value" JNull with
                                      | Some value => Returns value
                                      | None => Raises
                                      end
                                    else Continues
                                end)
                       end
                   end)
        with
        | Raises => None
        | Returns value => Some value
        | Continues => Some JNull
        end
    end.

(** [{"data": [{"code": ..., "label": ..., "value": ...}]}] *)
Definition box (code label : string) (value : json) : json :=
  JObj [("data", JArr [JObj [("code", JStr code); ("label", JStr label);
                             ("value", value)]])].

(** The cleaner a row of a plane applies to the value it finds. *)
Inductive cleaner : Type := AsString | AsBool | AsNumber | AsArray.

(** A row of a plane: code, label, cleaner. *)
Definition row : Type := (string * string * cleaner)%type.

Definition part_i_rows : list row :=
  [ ("A", "Partnership EIN", AsString);
    ("B", "Partnership Name/Address", AsString);
    ("C", "IRS Center", AsString);
    ("D", "PTP Check", AsBool) ].

Definition part_ii_rows : list row :=
  [ ("E", "Partner's SSN or TIN", AsString);
    ("F", "Partner's Name/Address", AsString);
    ("G", "General partner or LLC member-manager", AsBool);
    ("H1", "Domestic partner", AsBool);
    ("H2", "Foreign partner", AsBool);
    ("I1", "Entity Type", AsString);
    ("J_Profit_Beg", "Profit Share % (Beginning)", AsNumber);
    ("J_Profit_End", "Profit Share % (Ending)", AsNumber);
    ("K1_Nonrecourse_End", "Nonrecourse (End)", AsNumber);
    ("K1_Qualified_End", "Qualified Nonrecourse Financing (End)", AsNumber);
    ("K1_Recourse_End", "Recourse (End)", AsNumber);
    ("L_Beg_Capital", "Beginning capital account", AsNumber);
    ("L_Capital_Contributed", "Capital contributed during year", AsNumber);
    ("L_Net_Income", "Current year net income (loss)", AsNumber);
    ("L_Other", "Other increase (decrease)", AsNumber);
    ("L_Withdrawals", "Withdrawals & distributions", AsNumber);
    ("L_Ending_Capital", "Ending capital account", AsNumber);
    ("M", "Did the partner contribute property with a built-in gain (loss)?", AsBool);
    ("N_Beg", "Net unrecognized Section 704(c) gain or loss (Beginning)", AsNumber);
    ("N_End", "Net unrecognized Section 704(c) gain or loss (Ending)", AsNumber) ].

Definition part_iii_rows : list row :=
  [ ("1", "Ordinary business income (loss)", AsNumber);
    ("2", "Net rental real estate income (loss)", AsNumber);
    ("3", "Other net rental income (loss)", AsNumber);
    ("4a", "Guaranteed payments for services", AsNumber);
    ("4b", "Guaranteed payments for capital", AsNumber);
    ("4c", "Total guaranteed payments", AsNumber);
    ("5", "Interest income", AsNumber);
    ("6a", "Ordinary dividends", AsNumber);
    ("6b", "Qualified dividends", AsNumber);
    ("6c", "Dividend equivalents", AsNumber);
    ("7", "Royalties", AsNumber);
    ("8", "Net short-term capital gain (loss)", AsNumber);
    ("9a", "Net long-term capital gain (loss)", AsNumber);
    ("9b", "Collectibles (28%) gain (loss)", AsNumber);
    ("9c", "Unrecaptured section 1250 gain", AsNumber);
    ("10", "Net section 1231 gain (loss)", AsNumber);
    ("11", "Other income (loss)", AsArray);
    ("12", "Section 179 deduction", AsNumber);
    ("13", "Other deductions", AsArray);
    ("14", "Self-employment earnings (loss)", AsArray);
    ("15", "Credits", AsArray);
    ("16", "Schedule K-3 attached check", AsBool);
    ("17", "Alternative minimum tax (AMT) items", AsArray);
    ("18", "Tax-exempt income and nondeductible expenses", AsArray);
    ("19", "Distributions", AsArray);
    ("20", "Other information", AsArray);
    ("21", "Foreign taxes paid or accrued", AsNumber);
    ("22", "More than one activity for at-risk purposes", AsBool);
    ("23", "More than one activity for passive activity purposes", AsBool) ].

Section WithStr.
(** The builtin [str] on values that are not strings. *)
Variable py_str : json -> string.

Definition str (v : json) : string :=
  match v with
  | JStr s => s
  | _ => py_str v
  end.

(** [clean_string(val)] *)
Definition clean_string (val : json) : string :=
  match val with
  | JNull => ""
  | JStr s => clean_text s
  | _ => py_str val
  end.

Definition clean (k : cleaner) (val : json) : json :=
  match k with
  | AsString => JStr (clean_string val)
  | AsBool => JBool (K1.clean_bool val)
  | AsNumber => JNum (K1.clean_number val zero)
  | AsArray => clean_array val
  end.

(** The list literal of a plane: row by row, the value found under the
    row's code in [part], cleaned; [None] when a lookup raises. *)
Fixpoint build_plane (rows : list row) (part : json) : option (list json) :=
  match rows with
  | [] => Some []
  | (code, label, k) :: rest =>
      match get_plane_value part code with
      | None => None
      | Some value =>
          match build_plane rest part with
          | None => None
          | Some boxes => Some (box code label (clean k value) :: boxes)
          end
      end
  end.

(** The body of [for idx, partner in enumerate(partner_records)]: the
    [cleaned_partner]. *)
Definition cleaned_partner (idx : nat) (partner : json) : option json :=
  match py_get partner "part_i_partnership_plane" (JArr []),
        py_get partner "part_ii_partner_plane" (JArr []),
        py_get partner "part_iii_income_loss_plane" (JArr []),
        py_get partner "partner_name" (JStr ""),
        py_get partner "page_reference" (JNum (Finite (inject_Z (Z.of_nat idx + 1))))
  with
  | Some part_i, Some part_ii, Some part_iii, Some partner_name, Some page_reference =>
      match build_plane part_i_rows part_i, build_plane part_ii_rows part_ii,
            build_plane part_iii_rows part_iii with
      | Some plane_i, Some plane_ii, Some plane_iii =>
          Some (JObj [ ("partner_name", JStr (clean_string partner_name));
                       ("page_reference", page_reference);
                       ("part_i_partnership_plane", JArr plane_i);
                       ("part_ii_partner_plane", JArr plane_ii);
                       ("part_iii_income_loss_plane", JArr plane_iii) ])
      | _, _, _ => None
      end
  | _, _, _, _, _ => None
  end.

Fixpoint cleaned_partners (idx : nat) (partner_records : list json)
  : option (list json) :=
  match partner_records with
  | [] => Some []
  | partner :: rest =>
      match cleaned_partner idx partner with
      | None => None
      | Some cleaned =>
          match cleaned_partners (S idx) rest with
          | None => None
          | Some others => Some (cleaned :: others)
          end
      end
  end.

(** The [document_metadata] of the result on the first path. *)
Definition cleaned_metadata (doc_metadata : json) : option json :=
  match py_get doc_metadata "form_type" (JStr "Schedule K-1 (Form 1065)"),
        py_get doc_metadata "tax_year" (JStr "2024"),
        py_get doc_metadata "partnership_name" (JStr ""),
        py_get doc_metadata "partnership_ein" (JStr "")
  with
  | Some form_type, Some tax_year, Some partnership_name, Some partnership_ein =>
      Some (JObj [ ("form_type", form_type);
                   ("tax_year", JStr (str tax_year));
                   ("partnership_name", JStr (clean_string partnership_name));
                   ("partnership_ein", JStr (clean_string partnership_ein)) ])
  | _, _, _, _ => None
  end.

(** "AI returned new structure, clean and pass through" *)
Definition clean_and_pass_through (doc_metadata partner_records : json)
  : option json :=
  match py_iter partner_records with
  | None => None
  | Some partners =>
      match cleaned_partners 0 partners with
      | None => None
      | Some cleaned =>
          match cleaned_metadata doc_metadata with
          | None => None
          | Some metadata =>
              Some (JArr [JObj [ ("document_metadata", metadata);
                                 ("partner_records", JArr cleaned) ]])
          end
      end
  end.

Definition fallback_part_i (flat : list (string * json)) : list json :=
  [ box "A" "Partnership EIN"
      (find_value flat ["partnership_ein"; "ein"] (JStr ""));
    box "B" "Partnership Name/Address"
      (find_value flat ["partnership_name"; "partnership"] (JStr ""));
    box "C" "IRS Center"
      (find_value flat ["irs_center"] (JStr ""));
    box "D" "PTP Check"
      (JBool false) ].

Definition fallback_part_ii (flat : list (string * json)) : list json :=
  [ box "E" "Partner's SSN or TIN"
      (find_value flat ["partner_tin"; "partner_ssn"; "tin"] (JStr ""));
    box "F" "Partner's Name/Address"
      (find_value flat ["partner_name"; "partner"] (JStr ""));
    box "G" "General partner or LLC member-manager"
      (JBool false);
    box "H1" "Domestic partner"
      (JBool false);
    box "H2" "Foreign partner"
      (JBool false);
    box "I1" "Entity Type"
      (find_value flat ["entity_type"] (JStr ""));
    box "J_Profit_Beg" "Profit Share % (Beginning)"
      (JNum (K1.find_number flat ["profit_share"; "j_profit"] zero));
    box "L_Beg_Capital" "Beginning capital account"
      (JNum (K1.find_number flat ["beg_capital"; "beginning_capital"] zero));
    box "L_Net_Income" "Current year net income (loss)"
      (JNum (K1.find_number flat ["net_income"; "l_net"] zero));
    box "L_Ending_Capital" "Ending capital account"
      (JNum (K1.find_number flat ["ending_capital"; "end_capital"] zero));
    box "M" "Did the partner contribute property with a built-in gain (loss)?"
      (JBool false);
    box "N_Beg" "Net unrecognized Section 704(c) gain or loss (Beginning)"
      (JNum zero);
    box "N_End" "Net unrecognized Section 704(c) gain or loss (Ending)"
      (JNum zero) ].

Definition fallback_part_iii (flat : list (string * json)) : list json :=
  [ box "1" "Ordinary business income (loss)"
      (JNum (K1.find_number flat ["box_1"; "ordinary_business"] zero));
    box "5" "Interest income"
      (JNum (K1.find_number flat ["box_5"; "interest_income"] zero));
    box "6a" "Ordinary dividends"
      (JNum (K1.find_number flat ["box_6a"; "ordinary_dividends"] zero));
    box "8" "Net short-term capital gain (loss)"
      (JNum (K1.find_number flat ["box_8"; "short_term"] zero));
    box "9a" "Net long-term capital gain (loss)"
      (JNum (K1.find_number flat ["box_9a"; "long_term"] zero));
    box "13" "Other deductions"
      (JArr []);
    box "14" "Self-employment earnings (loss)"
      (JArr []);
    box "16" "Schedule K-3 attached check"
      (JBool false);
    box "21" "Foreign taxes paid or accrued"
      (JNum zero);
    box "22" "More than one activity for at-risk purposes"
      (JBool false);
    box "23" "More than one activity for passive activity purposes"
      (JBool false) ].

(** "Fallback: Build default structure with single partner" *)
Definition default_structure (flat : list (string * json)) : json :=
  JArr [JObj
    [ ("document_metadata", JObj
         [ ("form_type", JStr "Schedule K-1 (Form 1065)");
           ("tax_year", JStr (str (find_value flat ["year"; "tax_year"] (JStr "2024"))));
           ("partnership_name",
            find_value flat ["partnership_name"; "partnership"] (JStr ""));
           ("partnership_ein", find_value flat ["partnership_ein"; "ein"] (JStr "")) ]);
      ("partner_records", JArr [JObj
         [ ("partner_name", find_value flat ["partner_name"; "partner"] (JStr ""));
           ("page_reference", JNum (Finite 1));
           ("part_i_partnership_plane", JArr (fallback_part_i flat));
           ("part_ii_partner_plane", JArr (fallback_part_ii flat));
           ("part_iii_income_loss_plane", JArr (fallback_part_iii flat)) ]]) ]].

(** "Handle list input" *)
Definition unwrap (raw_data : json) : json :=
  match raw_data with
  | JArr (first :: _) => first
  | _ => raw_data
  end.

(** [raw_data.get("document_metadata") if isinstance(raw_data, dict) else
    None] *)
Definition doc_metadata_of (raw_data : json) : json :=
  match raw_data with
  | JObj fields => match dict_get fields "document_metadata" with
                   | Some v => v
                   | None => JNull
                   end
  | _ => JNull
  end.

(** [raw_data.get("partner_records", []) if isinstance(raw_data, dict)
    else []] *)
Definition partner_records_of (raw_data : json) : json :=
  match raw_data with
  | JObj fields => match dict_get fields "partner_records" with
                   | Some v => v
                   | None => JArr []
                   end
  | _ => JArr []
  end.

(** [transform_to_k1_structure(raw_data)]; [None] is an exception. *)
Definition transform_to_k1_structure (raw_data : json) : option json :=
  let raw_data := unwrap raw_data in
  if Viewer.has_error raw_data then Some raw_data
  else
    let doc_metadata := doc_metadata_of raw_data in
    let partner_records := partner_records_of raw_data in
    if truthy doc_metadata && truthy partner_records then
      clean_and_pass_through doc_metadata partner_records
    else
      let flat := match raw_data with
                  | JObj _ => flatten_dict raw_data "" "_"
                  | _ => []
                  end in
      Some (default_structure flat).

End WithStr.
End K1Transform.

Module K1TransformReading.
Import PyStr Json Normalize Viewer K1Transform.

(** The answer is in the new structure: no error object, and true values
    under "document_metadata" and "partner_records". *)
Definition in_new_structure (raw_data : json) : bool :=
  negb (Viewer.has_error (unwrap raw_data))
  && truthy (doc_metadata_of (unwrap raw_data))
  && truthy (partner_records_of (unwrap raw_data)).

(** The value has the type its cleaner returns. *)
Definition has_kind (k : cleaner) (value : json) : Prop :=
  match k with
  | AsString => exists s, value = JStr s
  | AsBool => exists b, value = JBool b
  | AsNumber => exists x, value = JNum x
  | AsArray => exists items, value = JArr items
  end.

(** The box of a row: its code, its label, a value of its kind. *)
Definition box_of (r : row) (b : json) : Prop :=
  let '(code, label, k) := r in
  exists value, b = box code label value /\ has_kind k value.

(** A plane that holds the boxes of the rows, one each, in their order. *)
Definition plane_of (rows : list row) (plane : json) : Prop :=
  exists boxes, plane = JArr boxes /\ Forall2 box_of rows boxes.

(** A partner record of the final structure. *)
Definition final_partner (partner : json) : Prop :=
  exists name page_reference plane_i plane_ii plane_iii,
    partner = JObj [ ("partner_name", JStr name);
                     ("page_reference", page_reference);
                     ("part_i_partnership_plane", plane_i);
                     ("part_ii_partner_plane", plane_ii);
                     ("part_iii_income_loss_plane", plane_iii) ]
    /\ plane_of part_i_rows plane_i
    /\ plane_of part_ii_rows plane_ii
    /\ plane_of part_iii_rows plane_iii.

(** No character of the text is [c]. *)
Fixpoint free_of (c : ascii) (s : string) : bool :=
  match s with
  | EmptyString => true
  | String a s' => negb (Ascii.eqb a c) && free_of c s'
  end.

(** No two of the strings are equal. *)
Fixpoint distinct (l : list string) : bool :=
  match l with
  | [] => true
  | x :: rest => negb (existsb (String.eqb x) rest) && distinct rest
  end.

Definition code_of (r : row) : string := fst (fst r).

(** The inner loops of [get_plane_value] on one item of the plane. *)
Definition look (code : string) (item : json) : flow json :=
  match py_get item "data" (JArr []) with
  | None => Raises
  | Some data_list =>
      match py_iter data_list with
      | None => Raises
      | Some ds =>
          for_each ds
            (fun d =>
               match py_get d "code" JNull with
               | None => Raises
               | Some c =>
                   if eq_str c code then
                     match py_get d "value" JNull with
                     | Some value => Returns value
                     | None => Raises
                     end
                   else Continues
               end)
      end
  end.

(** The document metadata of the final structure. *)
Definition final_metadata (metadata : json) : Prop :=
  exists form_type tax_year partnership_name partnership_ein,
    metadata = JObj [ ("form_type", form_type);
                      ("tax_year", JStr tax_year);
                      ("partnership_name", JStr partnership_name);
                      ("partnership_ein", JStr partnership_ein) ].

(** The boxes of rows paired with the values found for them. *)
Definition boxes_of (py_str : json -> string) (cells : list (row * json))
  : list json :=
  map (fun cell => let '((code, label, k), value) := cell in
                   box code label (clean py_str k value)) cells.

End K1TransformReading.


(** ** Camel case for the keys of a response (api.py, [to_camel] and
    [camelize_dict]) *)
Module Camel.
Import PyStr Json FormDetector.

(** [s.split('_')]: never empty, [[""]] for the empty string. *)
Fixpoint split_underscore (s : string) : list string :=
  match s with
  | EmptyString => [EmptyString]
  | String c s' =>
      if Ascii.eqb c "_" then EmptyString :: split_underscore s'
      else match split_underscore s' with
           | first :: rest => String c first :: rest
           | [] => [String c EmptyString]
           end
  end.

(** An ASCII letter. *)
Definition is_letter (c : ascii) : bool :=
  let n := nat_of_ascii c in
  (((65 <=? n) && (n <=? 90)) || ((97 <=? n) && (n <=? 122)))%nat.

(** [s.title()], from the state "the previous character is a letter": a
    letter after a letter is made small, another letter is made a capital,
    and what is no letter is kept (only ASCII letters change). *)
Fixpoint title_from (previous_is_cased : bool) (s : string) : string :=
  match s with
  | EmptyString => EmptyString
  | String c s' =>
      if is_letter c then
        String (if previous_is_cased then lower_ascii c else upper_ascii c)
               (title_from true s')
      else String c (title_from false s')
  end.

Definition title (s : string) : string := title_from false s.

(** [''.join(l)] *)
Definition join (l : list string) : string :=
  fold_right String.append EmptyString l.

(** [to_camel(snake_str)] *)
Definition to_camel (snake_str : string) : string :=
  match split_underscore snake_str with
  | first :: rest => (first ++ join (map title rest))%string
  | [] => EmptyString
  end.

(** [camelize_dict(data)] *)
Fixpoint camelize_dict (data : json) : json :=
  match data with
  | JObj fields =>
      JObj (dict_of_items
              (map (fun kv => (to_camel (fst kv), camelize_dict (snd kv))) fields))
  | JArr items => JArr (map camelize_dict items)
  | _ => data
  end.

End Camel.

Module CamelReading.
Import Json.

(** The keys of a value, at every depth. *)
Fixpoint keys_of (data : json) : list string :=
  match data with
  | JObj fields =>
      flat_map (fun kv => fst kv :: keys_of (snd kv)) fields
  | JArr items => flat_map keys_of items
  | _ => []
  end.

(** The values that are no dicts and no lists, at every depth, in order. *)
Fixpoint leaves_of (data : json) : list json :=
  match data with
  | JObj fields => flat_map (fun kv => leaves_of (snd kv)) fields
  | JArr items => flat_map leaves_of items
  | _ => [data]
  end.

End CamelReading.


(** ** The form regions of a detected page (api.py, [get_pages], step 5) *)
Module Regions.

(** [GeminiPageResult] *)
Record gemini_page_result : Type := mkGeminiPageResult {
  page_number : Z;
  number_of_forms : Z;
  detected_types : list string
}.

(** An entry of [form_regions], its "bbox" inlined. *)
Record form_region : Type := mkFormRegion {
  form_type : string;
  form_index : Z;
  x : Z;
  y : Z;
  width : Z;
  height : Z
}.

(** [range(n)] *)
Definition py_range_to (n : Z) : list Z := map Z.of_nat (seq 0 (Z.to_nat n)).

(** [detected_types[i] if i < len(detected_types) else detected_types[0]
    if detected_types else "Unknown"], for [i >= 0] *)
Definition form_type_at (detected_types : list string) (i : Z) : string :=
  if i <? Z.of_nat (List.length detected_types)
  then nth (Z.to_nat i) detected_types "Unknown"
  else match detected_types with
       | first :: _ => first
       | [] => "Unknown"
       end.

(** The regions of a page of a PDF: the forms are taken to be stacked
    vertically on the rendered page. *)
Definition pdf_form_regions (page_width page_height : Z)
           (item : gemini_page_result) : list form_region :=
  let num_forms := number_of_forms item in
  if 0 <? num_forms then
    let form_height := page_height / num_forms in
    map (fun i => mkFormRegion (form_type_at (detected_types item) i) i
                               0 (i * form_height) page_width form_height)
        (py_range_to num_forms)
  else [].

End Regions.

Module RegionsReading.
Import Regions.

(** Each region starts where the one before it ends, the first at [top]. *)
Fixpoint stacked (top : Z) (regions : list form_region) : Prop :=
  match regions with
  | [] => True
  | r :: rest => y r = top /\ stacked (top + height r) rest
  end.

(** The lower edge of the last region, [top] when there is none. *)
Definition bottom (regions : list form_region) : Z :=
  fold_left (fun _ r => y r + height r) regions 0.

End RegionsReading.


(** * Properties *)

(** ** Substring search *)
Module PyStrFacts.
Import PyStr.

Lemma startswith_spec (p s : string) :
  startswith p s = true <-> exists rest, s = (p ++ rest)%string.
Proof.
  revert s; induction p as [|a p IH]; intros s; simpl.
  - split; [intros _; now exists s | reflexivity].
  - destruct s as [|b s]; simpl.
    + split; [discriminate | intros [r Hr]; discriminate].
    + rewrite andb_true_iff, Ascii.eqb_eq, IH. split.
      * intros [-> [r ->]]. now exists r.
      * intros [r Hr]. injection Hr as -> ->. split; [reflexivity | now exists r].
Qed.

Lemma py_in_unfold (pat s : string) :
  py_in pat s =
  if startswith pat s then true
  else match s with
       | EmptyString => false
       | String _ s' => py_in pat s'
       end.
Proof. destruct s; reflexivity. Qed.

Lemma py_in_spec (pat s : string) : py_in pat s = true <-> occurs pat s.
Proof.
  unfold occurs. split.
  - induction s as [|c s IH]; rewrite py_in_unfold.
    + destruct (startswith pat "") eqn:E; [|discriminate].
      intros _. apply startswith_spec in E as [r Hr]. now exists ""%string, r.
    + destruct (startswith pat (String c s)) eqn:E.
      * intros _. apply startswith_spec in E as [r Hr]. now exists ""%string, r.
      * intros H. destruct (IH H) as (b & a & ->).
        now exists (String c b), a.
  - intros (b & a & ->). induction b as [|c b IH]; rewrite py_in_unfold.
    + simpl. replace (startswith pat (pat ++ a)) with true; [reflexivity|].
      symmetry. apply startswith_spec. now exists a.
    + simpl. destruct (startswith pat (String c (b ++ pat ++ a))); [reflexivity|].
      exact IH.
Qed.

Lemma py_in_false (pat s : string) : py_in pat s = false <-> ~ occurs pat s.
Proof.
  rewrite <- py_in_spec. destruct (py_in pat s); split; intros H;
    try reflexivity; try discriminate; try (intros D; discriminate D).
  exfalso. now apply H.
Qed.

End PyStrFacts.

(** ** Page classification *)
Module ClassifierFacts.
Import PyStr Classifier PyStrFacts Reading.

(** The tests on a page text, as statements about its substrings. *)
Ltac to_occurrences :=
  repeat (rewrite ?andb_true_iff, ?orb_true_iff, ?negb_true_iff,
                  ?py_in_spec, ?py_in_false).

(** C2: the K-1 detector keeps a page text exactly when it contains
    "Schedule K-1", "(Form 1065)" and both halves of the Part I marker; the
    K-3 detector keeps a page text exactly when it contains "Schedule K-3"
    and does not contain "Schedule K-1". *)
Theorem classify_k1_k3 (text : string) :
  (is_k1_start_page text = true <->
     occurs "Schedule K-1" text /\ occurs "(Form 1065)" text /\
     occurs "Part I" text /\ occurs "Information About the Partnership" text)
  /\
  (is_k3_page text = true <->
     occurs "Schedule K-3" text /\ ~ occurs "Schedule K-1" text).
Proof.
  unfold is_k1_start_page, is_k3_page, k1_form_header, part_i_indicator; simpl.
  split; to_occurrences; tauto.
Qed.

(** C4 (as the code has it): a page is kept as Form 8805 exactly when it
    shows one of the 8805 signatures, none of the detector's three Form 8804
    exclusions holds, it does not show "Schedule K-1" with "(Form 1065)", and
    it does not show "Schedule K-3". *)
Theorem classify_8805 (text : string) :
  is_8805_page text = true <->
  signature_8805 text
  /\ ~ excluded_as_8804 text
  /\ ~ (occurs "Schedule K-1" text /\ occurs "(Form 1065)" text)
  /\ ~ occurs "Schedule K-3" text.
Proof.
  unfold is_8805_page, has_8805_signature, is_any_8804, is_k1_8804,
    is_main_8804, signature_8805, excluded_as_8804.
  rewrite !andb_true_iff, !negb_true_iff.
  rewrite <- !not_true_iff_false.
  to_occurrences. tauto.
Qed.

(** C4, counterexample: a Form 8805 copy that says "Attach to Form 8804"
    shows the Form 8804 signature of the specification and is kept as 8805;
    and there is a page text that both the 8804 detector and the 8805
    detector keep. *)
Lemma classify_8805_keeps_8804_signature :
  (is_8805_page "Form 8805 Copy A Attach to Form 8804" = true
   /\ form_8804_signature "Form 8805 Copy A Attach to Form 8804")
  /\ (is_8805_page "Partner's Section 1446 Withholding Tax Copy A 8805" = true
      /\ is_8804_page "Partner's Section 1446 Withholding Tax Copy A 8805" = true).
Proof.
  split; [split|split]; try reflexivity.
  left. split.
  - apply py_in_spec. reflexivity.
  - apply py_in_false. reflexivity.
Qed.

End ClassifierFacts.

(** ** Range detection *)
Module DetectFacts.
Import PyStr Classifier Detect Reading.

Lemma above_weaken (lo lo' : Z) (l : list Z) :
  lo' <= lo -> above lo l -> above lo' l.
Proof. destruct l; simpl; [tauto | intros ? [? ?]; split; [lia | assumption]]. Qed.

Lemma above_increasing (lo : Z) (l : list Z) : above lo l -> increasing l.
Proof. destruct l; simpl; tauto. Qed.

Lemma py_range_single (p : Z) : py_range p (p + 1) = [p].
Proof.
  unfold py_range. replace (p + 1 - p) with 1 by lia. simpl.
  f_equal. lia.
Qed.

Lemma py_range_extend (s e : Z) :
  s <= e -> py_range s (e + 1 + 1) = py_range s (e + 1) ++ [e + 1].
Proof.
  intros H. unfold py_range.
  replace (Z.to_nat (e + 1 + 1 - s)) with (S (Z.to_nat (e + 1 - s))) by lia.
  rewrite seq_S, map_app. simpl. do 2 f_equal. lia.
Qed.

(** The accumulating loop and the recursive reading agree. *)
Lemma fold_group_step (rest : list Z) (start end_ : Z) (ranges : list (Z * Z)) :
  (let '(s, e, r) := fold_left group_step rest (start, end_, ranges) in
   r ++ [(s, e)]) = ranges ++ runs_from start end_ rest.
Proof.
  revert start end_ ranges.
  induction rest as [|p rest IH]; intros start end_ ranges; simpl.
  - reflexivity.
  - destruct (p =? end_ + 1).
    + apply IH.
    + rewrite IH, <- app_assoc. reflexivity.
Qed.

Lemma group_ranges_runs (p0 : Z) (rest : list Z) :
  group_ranges (p0 :: rest) = runs_from p0 p0 rest.
Proof.
  unfold group_ranges. pose proof (fold_group_step rest p0 p0 []) as H.
  destruct (fold_left group_step rest (p0, p0, [])) as [[s e] r].
  exact H.
Qed.

Lemma pages_of_runs (rest : list Z) (start end_ : Z) :
  start <= end_ -> above end_ rest ->
  pages_of_ranges (runs_from start end_ rest)
  = py_range start (end_ + 1) ++ rest.
Proof.
  revert start end_.
  induction rest as [|p rest IH]; intros start end_ Hle Hab; simpl.
  - unfold pages_of_ranges. simpl. reflexivity.
  - destruct Hab as [Hlt Hab]. destruct (Z.eqb_spec p (end_ + 1)) as [->|Hne].
    + rewrite IH by (assumption || lia).
      rewrite py_range_extend by assumption.
      rewrite <- app_assoc. reflexivity.
    + unfold pages_of_ranges in *. simpl.
      rewrite IH by (assumption || lia).
      rewrite py_range_single. reflexivity.
Qed.

Lemma separated_runs (rest : list Z) (lo start end_ : Z) :
  lo < start -> start <= end_ -> above end_ rest ->
  separated_from lo (runs_from start end_ rest).
Proof.
  revert lo start end_.
  induction rest as [|p rest IH]; intros lo start end_ Hlo Hle Hab; simpl.
  - auto.
  - destruct Hab as [Hlt Hab]. destruct (Z.eqb_spec p (end_ + 1)) as [->|Hne].
    + apply IH; (assumption || lia).
    + simpl. repeat split; try assumption.
      apply IH; (assumption || lia).
Qed.

Lemma separated_from_separated (lo : Z) (ranges : list (Z * Z)) :
  separated_from lo ranges -> separated ranges.
Proof. destruct ranges as [|[s e] r]; simpl; tauto. Qed.

Lemma group_ranges_pages (pages : list Z) :
  increasing pages -> pages_of_ranges (group_ranges pages) = pages.
Proof.
  destruct pages as [|p0 rest]; [reflexivity|]. intros H.
  rewrite group_ranges_runs, pages_of_runs by (simpl in H; assumption || lia).
  rewrite py_range_single. reflexivity.
Qed.

(** C3: on strictly increasing page numbers the grouping loop is the
    run-by-run reading (a page equal to the open end plus one extends the
    run, any other page closes it and opens a new one); the ranges it
    returns cover exactly the given pages, page by page and in order; and
    they are in document order, non-empty, and each starts at least two
    pages after the end of the one before it, so that they do not overlap
    and no two could be joined. *)
Theorem group_ranges_maximal_runs (pages : list Z) :
  increasing pages ->
  group_ranges pages
  = match pages with
    | [] => []
    | p0 :: rest => runs_from p0 p0 rest
    end
  /\ pages_of_ranges (group_ranges pages) = pages
  /\ separated (group_ranges pages).
Proof.
  intros H. split; [|split].
  - destruct pages; [reflexivity | apply group_ranges_runs].
  - now apply group_ranges_pages.
  - destruct pages as [|p0 rest]; [exact I|].
    rewrite group_ranges_runs.
    apply separated_from_separated with (lo := p0 - 1).
    apply separated_runs; simpl in H; (assumption || lia).
Qed.

(** C3 at the pages [5, 6, 7, 9]: the ranges are (5,7) and (9,9). *)
Lemma group_ranges_5_6_7_9 :
  increasing [5; 6; 7; 9]
  /\ group_ranges [5; 6; 7; 9] = [(5, 7); (9, 9)]
  /\ pages_of_ranges (group_ranges [5; 6; 7; 9]) = [5; 6; 7; 9]
  /\ separated (group_ranges [5; 6; 7; 9]).
Proof.
  assert (H : increasing [5; 6; 7; 9]) by (simpl; lia).
  split; [exact H|]. split; [reflexivity|].
  exact (proj2 (group_ranges_maximal_runs [5; 6; 7; 9] H)).
Defined.

(** The four copies of one Form 8805 on pages 2 to 5 form one range. *)
Example group_ranges_four_copies : group_ranges [2; 3; 4; 5] = [(2, 5)].
Proof. reflexivity. Qed.

(** *** Scanning *)

Lemma scan_loop_kept (keep : string -> bool) (doc : document)
      (n i : nat) (acc : list Z) :
  (i + n <= List.length doc)%nat ->
  scan_loop keep doc i n acc = Some (acc ++ kept_pages keep doc i n).
Proof.
  revert i acc. induction n as [|n IH]; intros i acc H; simpl.
  - unfold kept_pages. simpl. now rewrite app_nil_r.
  - destruct (nth_error doc i) as [text|] eqn:E.
    + rewrite IH by lia. unfold kept_pages. simpl.
      rewrite (nth_error_nth _ _ EmptyString E).
      destruct (keep text); simpl; [rewrite <- app_assoc|]; reflexivity.
    + apply nth_error_None in E. lia.
Qed.

Lemma scan_loop_k1_no_limit (doc : document) (n i : nat) (acc : list Z) :
  scan_loop_k1 doc None i n acc = scan_loop is_k1_start_page doc i n acc.
Proof.
  revert i acc. induction n as [|n IH]; intros i acc; simpl; [reflexivity|].
  destruct (nth_error doc i); [|reflexivity].
  destruct (is_k1_start_page s); apply IH.
Qed.

Lemma in_kept_pages (keep : string -> bool) (doc : document) (n : nat) (p : Z) :
  (n <= List.length doc)%nat ->
  In p (kept_pages keep doc 0 n) <->
  1 <= p <= Z.of_nat n
  /\ exists text, text_of doc p = Some text /\ keep text = true.
Proof.
  intros Hn. unfold kept_pages, text_of. rewrite in_map_iff. split.
  - intros (j & <- & Hj). apply filter_In in Hj as [Hj Hk].
    apply in_seq in Hj. split; [lia|].
    exists (nth j doc EmptyString). split; [|assumption].
    destruct (Z.leb_spec 1 (Z.of_nat j + 1)); [|lia].
    replace (Z.to_nat (Z.of_nat j + 1 - 1)) with j by lia.
    apply nth_error_nth'. lia.
  - intros (Hp & text & Ht & Hk).
    destruct (Z.leb_spec 1 p); [|lia].
    exists (Z.to_nat (p - 1)). split; [lia|].
    apply filter_In. split; [apply in_seq; lia|].
    now rewrite (nth_error_nth _ _ EmptyString Ht).
Qed.

Lemma above_kept_pages (keep : string -> bool) (doc : document) (n i : nat) :
  above (Z.of_nat i) (kept_pages keep doc i n).
Proof.
  revert i. induction n as [|n IH]; intros i; unfold kept_pages; simpl; [exact I|].
  specialize (IH (S i)). unfold kept_pages in IH.
  destruct (keep (nth i doc EmptyString)); simpl.
  - split; [lia|]. replace (Z.of_nat i + 1) with (Z.of_nat (S i)) by lia. exact IH.
  - eapply above_weaken; [|exact IH]. lia.
Qed.

Lemma max_page_to_scan_85 (n : nat) :
  max_page_to_scan n k1_default_percentage = 85 * Z.of_nat n / 100.
Proof.
  unfold max_page_to_scan, k1_default_percentage, int_trunc.
  cbn -[Z.mul Z.div Z.quot Z.of_nat].
  rewrite Z.quot_div_nonneg by lia. f_equal. lia.
Qed.

Lemma max_page_to_scan_100 (n : nat) :
  max_page_to_scan n default_percentage = Z.of_nat n.
Proof.
  unfold max_page_to_scan, default_percentage, int_trunc.
  cbn -[Z.mul Z.div Z.quot Z.of_nat].
  rewrite Z.quot_div_nonneg by lia.
  replace (Z.of_nat n * 100 * 1) with (Z.of_nat n * 100) by lia.
  apply Z.div_mul. lia.
Qed.

Lemma detect_page_ranges_all (keep : string -> bool) (doc : document) (p : Z) :
  In p (pages_of_ranges (detect_page_ranges keep doc default_percentage)) <->
  exists text, text_of doc p = Some text /\ keep text = true.
Proof.
  unfold detect_page_ranges. rewrite max_page_to_scan_100, Nat2Z.id.
  rewrite scan_loop_kept by (simpl; lia). simpl.
  rewrite group_ranges_pages
    by (eapply above_increasing; apply (above_kept_pages keep doc _ 0)).
  rewrite in_kept_pages by lia. split.
  - intros [_ H]. exact H.
  - intros (text & Ht & Hk). split; [|now exists text].
    unfold text_of in Ht. destruct (Z.leb_spec 1 p); [|discriminate].
    assert (Z.to_nat (p - 1) < List.length doc)%nat
      by (apply nth_error_Some; congruence).
    lia.
Qed.

(** C10: with its default parameters the K-1 detector returns page [p]
    exactly when [p] lies among the first floor(85% of the page count)
    pages and its text passes the K-1 start-page test, so that no returned
    page exceeds that limit and a start page beyond it is not returned;
    with their defaults the K-3 and 8805 detectors return every page of the
    document whose text passes their test. *)
Theorem default_scan_limits (doc : document) (p : Z) :
  (max_page_to_scan (List.length doc) k1_default_percentage
   = 85 * Z.of_nat (List.length doc) / 100
   /\ max_page_to_scan (List.length doc) default_percentage
      = Z.of_nat (List.length doc))
  /\ (In p (detect_k1_pages doc k1_default_percentage None) <->
      1 <= p <= 85 * Z.of_nat (List.length doc) / 100
      /\ exists text, text_of doc p = Some text /\ is_k1_start_page text = true)
  /\ (In p (detect_k3_pages doc default_percentage) <->
      exists text, text_of doc p = Some text /\ is_k3_page text = true)
  /\ (In p (detect_8805_pages doc default_percentage) <->
      exists text, text_of doc p = Some text /\ is_8805_page text = true).
Proof.
  split; [split; [apply max_page_to_scan_85 | apply max_page_to_scan_100]|].
  split; [|split; apply detect_page_ranges_all].
  unfold detect_k1_pages. rewrite max_page_to_scan_85, scan_loop_k1_no_limit.
  assert (Hm : (Z.to_nat (85 * Z.of_nat (List.length doc) / 100)
                <= List.length doc)%nat).
  { assert (85 * Z.of_nat (List.length doc) / 100 <= Z.of_nat (List.length doc))
      by (apply Z.div_le_upper_bound; lia).
    lia. }
  rewrite scan_loop_kept by (rewrite Nat.add_0_l; exact Hm).
  cbv beta iota. cbn [app].
  rewrite in_kept_pages by exact Hm.
  rewrite Z2Nat.id by (apply Z.div_pos; lia). reflexivity.
Qed.

(** A seven-page document whose pages 1 and 7 are K-1 start pages: only
    page 1 is returned, page 7 lies beyond floor(0.85 * 7) = 5. *)
Example k1_last_page_missed :
  let start := "Schedule K-1 (Form 1065) Part I Information About the Partnership" in
  detect_k1_pages [start; ""; ""; ""; ""; ""; start] k1_default_percentage None
  = [1].
Proof. reflexivity. Qed.

End DetectFacts.

(** ** Retry loops *)
Module RetryFacts.
Import PyStr Retry Reading.

Lemma get_pages_retryable_named (e : string) :
  get_pages_retryable e = true -> names_retryable_status e = true.
Proof.
  unfold get_pages_retryable, names_retryable_status.
  destruct (py_in "503" e), (py_in "429" e); simpl; intros H;
    (reflexivity || discriminate).
Qed.

Lemma extract_form_retryable_named (e : string) :
  extract_form_retryable e = true -> names_retryable_status e = true.
Proof.
  unfold extract_form_retryable, names_retryable_status.
  destruct (py_in "503" e), (py_in "429" e), (py_in "overloaded" (lower e));
    simpl; intros H; (reflexivity || discriminate).
Qed.

Section ThreeAttempts.
Variable R : Type.
Variable retryable : string -> bool.
Variable call : nat -> outcome R.







End ThreeAttempts.






(** Two retryable failures and a success: sleeps of 2 and 4 seconds. *)
Example retry_twice_then_success :
  extract_form_call
    (fun attempt => match attempt with
                    | 0%nat => Raised "503 UNAVAILABLE"
                    | 1%nat => Raised "The model is overloaded"
                    | _ => Returned 7
                    end)
  = (Break 7, [Attempt 0; Sleep 2; Attempt 1; Sleep 4; Attempt 2]).
Proof. reflexivity. Qed.

(** Three retryable failures: the third error is raised, no third sleep. *)
Example retry_exhausted :
  get_pages_call (R := nat) (fun _ => Raised "429 RESOURCE_EXHAUSTED")
  = (Raise "429 RESOURCE_EXHAUSTED",
     [Attempt 0; Sleep 2; Attempt 1; Sleep 4; Attempt 2]).
Proof. reflexivity. Qed.

(** An authentication failure is raised after one attempt. *)
Example retry_fatal_error :
  get_pages_call (R := nat) (fun _ => Raised "401 UNAUTHENTICATED")
  = (Raise "401 UNAUTHENTICATED", [Attempt 0]).
Proof. reflexivity. Qed.

End RetryFacts.

(** ** Batching *)
Module BatchFacts.
Import Batch Reading.














Section PlanFacts.
Variable has_prompt : string -> bool.




End PlanFacts.

(** Twenty-three pages of one type go out as calls of 10, 10 and 3 images. *)
Example chunks_of_23 :
  map (@List.length page)
      (chunks (map (fun n => mkPage "" (Z.of_nat n) "W-2") (seq 1 23)))
  = [10; 10; 3]%nat.
Proof. reflexivity. Qed.

End BatchFacts.

(** ** Consolidation of Schedule K-3 pages *)
Module K3Facts.
Import Json K3 Reading.






(** *** Items and their entries *)







(** *** The stored value of a code through a sequence of merges *)










(** *** Pages *)






(** The second example of the merge rule: {"A": "5"} then {"A": "9"} keeps
    "5", the first non-empty value, not the last. *)
Example merge_five_then_nine :
  stored_value (Some "A")
    (merged_part "part_i_other_international"
       (batch_extract [one_box_page 1 (JStr "5"); one_box_page 2 (JStr "9")]))
  = Some (JStr "5").
Proof. reflexivity. Qed.


(** *** Ranges whose pages all fail *)

Lemma all_failed_state (pages : list (Z * extraction)) (st : state) :
  (forall page, In page pages -> failed (snd page) = true) ->
  fold_left extract_page pages st
  = mkState (raw_results st ++ filter returned pages)
            (st_document_metadata st) (st_partner_name st) (all_part_data st).
Proof.
  revert st. induction pages as [|[page_num result] pages IH]; intros st H.
  - simpl. rewrite app_nil_r. now destruct st.
  - cbn [fold_left]. rewrite IH by (intros p Hp; apply H; now right).
    specialize (H _ (or_introl eq_refl)). simpl in H.
    destruct result; try discriminate; unfold returned; simpl;
      rewrite <- ?app_assoc; reflexivity.
Qed.

Lemma parts_after_state (pages : list (Z * extraction)) (st : state) :
  all_part_data (fold_left extract_page pages st)
  = parts_after pages (all_part_data st).
Proof.
  revert st. unfold parts_after.
  induction pages as [|[page_num result] pages IH]; intros st; [reflexivity|].
  cbn [fold_left]. rewrite IH. now destruct result.
Qed.

Lemma parts_after_succeeded (pages : list (Z * extraction)) (apd : parts) :
  parts_after pages apd = parts_after (filter succeeded pages) apd.
Proof.
  revert apd. unfold parts_after.
  induction pages as [|[page_num result] pages IH]; intros apd; [reflexivity|].
  cbn [fold_left filter]. unfold succeeded at 1.
  destruct result; simpl; apply IH.
Qed.

(** A page that fails does not stop the pages after it: the merged parts
    are those of the pages that gave data. *)
Lemma failed_pages_are_skipped (pages : list (Z * extraction)) :
  parts_of (batch_extract pages)
  = parts_of (batch_extract (filter succeeded pages)).
Proof.
  unfold parts_of, batch_extract. cbn [partner_records map out_parts].
  now rewrite !parts_after_state, parts_after_succeeded.
Qed.

(** C7 (as the code has it): a range with at least one rendered page whose
    page extractions all fail is not turned into an error object: the result
    is the placeholder record (default metadata, the partner name "Partner
    (Pages first-last)", all thirteen parts empty, the returned error objects
    kept among the raw results), and [has_error] is false for it; and pages
    that follow the failed ones in a batch are merged as if the failed pages
    were not there. *)
Theorem failed_range_gets_placeholder (pages : list (Z * extraction)) :
  pages <> [] ->
  (forall page, In page pages -> failed (snd page) = true) ->
  extract_selected_range pages = Records (placeholder_result pages)
  /\ has_error (extract_selected_range pages) = false
  /\ (forall more,
        parts_of (batch_extract (pages ++ more))
        = parts_of (batch_extract more)).
Proof.
  intros Hne Hfail. unfold extract_selected_range. split; [|split].
  - destruct pages as [|p pages]; [contradiction|].
    f_equal. unfold batch_extract, placeholder_result.
    rewrite (all_failed_state _ _ Hfail). reflexivity.
  - destruct pages; [contradiction | reflexivity].
  - intros more.
    rewrite (failed_pages_are_skipped (pages ++ more)),
      (failed_pages_are_skipped more), filter_app.
    replace (filter succeeded pages) with (@nil (Z * extraction));
      [reflexivity|].
    symmetry. clear Hne. induction pages as [|p pages IH]; [reflexivity|].
    cbn [filter]. unfold succeeded at 1.
    rewrite (Hfail p (or_introl eq_refl)). cbn [negb].
    apply IH. intros q Hq. apply Hfail. now right.
Qed.

(** C7 at the two failed pages 3 and 4. *)
Lemma failed_range_pages_3_4 :
  two_failed_pages <> []
  /\ (forall page, In page two_failed_pages -> failed (snd page) = true)
  /\ extract_selected_range two_failed_pages
     = Records (placeholder_result two_failed_pages)
  /\ has_error (extract_selected_range two_failed_pages) = false
  /\ (forall more,
        parts_of (batch_extract (two_failed_pages ++ more))
        = parts_of (batch_extract more)).
Proof.
  assert (Hne : two_failed_pages <> []) by discriminate.
  assert (Hfail : forall page, In page two_failed_pages -> failed (snd page) = true)
    by (intros page [<-|[<-|[]]]; reflexivity).
  split; [exact Hne|]. split; [exact Hfail|].
  exact (failed_range_gets_placeholder two_failed_pages Hne Hfail).
Defined.

(** C7, counterexample: every extraction of the range fails, and the range
    gets a record filled with defaults and counted as a success, not an
    error object. *)
Lemma failed_range_is_not_an_error :
  extract_selected_range two_failed_pages
  = Records
      (mkBatchResult
         (JObj [ ("form_type", JStr "Schedule K-3 (Form 1065)");
                 ("tax_year", JStr "2024");
                 ("partnership_name", JStr "");
                 ("partnership_ein", JStr "") ])
         [ mkPartnerOut (JStr "Partner (Pages 3-4)") "3-4"
             (map (fun part_key => (part_key, [])) part_keys) ]
         [ (4, ExtractError (JStr "No extraction method available")) ]
         [3; 4])
  /\ has_error (extract_selected_range two_failed_pages) = false.
Proof. split; reflexivity. Qed.

End K3Facts.

(** ** Normalisation *)
Module NormalizeFacts.
Import PyStr Json PyFloat Normalize Reading.

(** *** Schema completeness of the W-2 structure *)






Section W2Facts.
Variable py_str : json -> string.








End W2Facts.



(** *** Cleaning of amounts and checkboxes *)





(** Digit strings. *)

Lemma digit_is_plain (c : ascii) (d : Z) :
  digit_of c = Some d ->
  is_space c = false /\ lower_ascii c = c
  /\ Ascii.eqb c "$" = false /\ Ascii.eqb c "," = false
  /\ Ascii.eqb c "(" = false /\ Ascii.eqb c ")" = false
  /\ Ascii.eqb c "i" = false /\ Ascii.eqb c "n" = false.
Proof.
  destruct c as [[] [] [] [] [] [] [] []]; cbv; intros H;
    try discriminate H; repeat split.
Qed.

Lemma append_empty (s : string) : (s ++ "")%string = s.
Proof. induction s; simpl; congruence. Qed.


Lemma rstrip_digits (s : string) :
  all_digits s = true -> s <> "" -> rstrip s = s.
Proof.
  induction s as [|a s IH]; [congruence|]. intros Hs _.
  simpl in Hs. destruct (digit_of a) as [d|] eqn:Ha; [|discriminate].
  destruct (digit_is_plain a d Ha) as (Hsp & _).
  cbn [rstrip]. destruct s as [|b s].
  - simpl. now rewrite Hsp.
  - rewrite IH by (assumption || discriminate). reflexivity.
Qed.

Lemma rstrip_app (a t : string) :
  rstrip t = t -> t <> "" -> rstrip (a ++ t) = (a ++ t)%string.
Proof.
  intros Ht Hne. induction a as [|c a IH]; [exact Ht|].
  cbn [append rstrip]. rewrite IH.
  destruct (a ++ t)%string eqn:E; [|reflexivity].
  destruct a; simpl in E; [contradiction | discriminate].
Qed.

Lemma digits_tail_digits (s rest : string) (acc : Z) (n : nat) :
  all_digits s = true ->
  digits_tail acc n (s ++ rest)
  = digits_tail (digits_value acc s) (n + String.length s) rest.
Proof.
  revert acc n. induction s as [|a s IH]; intros acc n Hs.
  - simpl. now rewrite Nat.add_0_r.
  - simpl in Hs. cbn [append digits_tail digits_value String.length].
    destruct (digit_of a) as [d|]; [|discriminate].
    rewrite IH by assumption. f_equal. lia.
Qed.

Lemma digitpart_digits (s rest : string) (acc : Z) (n : nat) :
  all_digits s = true -> s <> "" ->
  digitpart acc n (s ++ rest)
  = Some (digits_tail (digits_value acc s) (n + String.length s) rest).
Proof.
  destruct s as [|a s]; [congruence|]. intros Hs _.
  simpl in Hs. cbn [append digitpart digits_value String.length].
  destruct (digit_of a) as [d|]; [|discriminate].
  rewrite digits_tail_digits by assumption. do 2 f_equal. lia.
Qed.

Lemma digits_value_app (s t : string) (acc : Z) :
  all_digits s = true ->
  digits_value acc (s ++ t) = digits_value (digits_value acc s) t.
Proof.
  revert acc. induction s as [|a s IH]; intros acc Hs; [reflexivity|].
  simpl in Hs. cbn [append digits_value].
  destruct (digit_of a); [now apply IH | discriminate].
Qed.

Lemma not_a_word (i rest : string) :
  all_digits i = true -> i <> "" ->
  let word := lower (i ++ rest) in
  (String.eqb word "inf" || String.eqb word "infinity") = false
  /\ String.eqb word "nan" = false.
Proof.
  destruct i as [|a i]; [congruence|]. intros Hs _.
  simpl in Hs. destruct (digit_of a) as [d|] eqn:Ha; [|discriminate].
  destruct (digit_is_plain a d Ha) as (_ & Hl & _ & _ & _ & _ & Hi & Hn).
  simpl. rewrite Hl. unfold String.eqb; fold String.eqb.
  now rewrite Hi, Hn.
Qed.

(** The exact [py_float] reads the text [-i.f] as the rational it writes. *)
Lemma py_float_negative_decimal (i f : string) :
  all_digits i = true -> i <> "" -> all_digits f = true -> f <> "" ->
  py_float (String "-" (i ++ String "." f))
  = Some (scaled true (digits_value 0 (i ++ f)) (0 - Z.of_nat (String.length f))).
Proof.
  intros Hi Hin Hf Hfn. unfold py_float, strip.
  cbn [lstrip]. change (is_space "-") with false. cbv iota.
  assert (E : rstrip (String "-" (i ++ String "." f))
              = String "-" (i ++ String "." f)).
  { apply (rstrip_app "-"); [|destruct i; discriminate].
    apply rstrip_app; [|discriminate].
    apply (rstrip_app "."); [now apply rstrip_digits | assumption]. }
  rewrite E. cbn [read_sign].
  destruct (not_a_word i (String "." f) Hi Hin) as [W1 W2].
  cbv zeta in W1, W2. rewrite W1, W2.
  unfold floatnumber_digits.
  rewrite digitpart_digits by assumption.
  cbn [digits_tail digit_of]. change (digit_of ".") with (@None Z).
  cbv iota. change (Ascii.eqb "." "_") with false. cbv iota beta.
  pose proof (digitpart_digits f "" (digits_value 0 i) 0 Hf Hfn) as D.
  rewrite append_empty in D. rewrite D.
  cbn [digits_tail exponent]. rewrite digits_value_app by assumption.
  reflexivity.
Qed.



Lemma rstrip_head (c : ascii) (s : string) :
  is_space c = false -> exists t, rstrip (String c s) = String c t.
Proof.
  intros H. cbn [rstrip]. destruct (rstrip s).
  - rewrite H. now exists "".
  - now eexists.
Qed.





Lemma negative_decimal_value (i f : string) :
  match scaled true (digits_value 0 (i ++ f)) (0 - Z.of_nat (String.length f)) with
  | Finite q => q == - decimal_value i f
  | _ => False
  end.
Proof.
  unfold scaled, decimal_value. rewrite Qred_correct.
  replace (0 - Z.of_nat (String.length f)) with (- Z.of_nat (String.length f))
    by lia.
  rewrite inject_Z_opp. ring.
Qed.




(** "$" and "," are dropped wherever they stand. *)
Example clean_number_money :
  K1.clean_number (JStr "$1,234.50") zero = Finite (2469 # 2)
  /\ W2.number_of (JStr "$1,234.50") = Finite (2469 # 2).
Proof. split; reflexivity. Qed.

End NormalizeFacts.

(** ** Detection and the pipelines built on it *)
Module PipelineFacts.
Import PyStr Classifier Detect Json Reading Pipeline PipelineReading DetectFacts.

Lemma scan_loop_overrun (keep : string -> bool) (doc : document)
      (n i : nat) (acc : list Z) :
  (i <= List.length doc)%nat -> (List.length doc < i + n)%nat ->
  scan_loop keep doc i n acc = None.
Proof.
  revert i acc. induction n as [|n IH]; intros i acc Hi Hn; [lia|].
  simpl. destruct (nth_error doc i) eqn:E; [|reflexivity].
  assert (i < List.length doc)%nat by (apply nth_error_Some; congruence).
  apply IH; lia.
Qed.

(** What a detector scans and keeps, for any percentage. *)
Lemma detect_page_ranges_kept (keep : string -> bool) (doc : document) (pct : Q) :
  detect_page_ranges keep doc pct
  = if (Z.to_nat (max_page_to_scan (List.length doc) pct) <=? List.length doc)%nat
    then group_ranges
           (kept_pages keep doc 0
              (Z.to_nat (max_page_to_scan (List.length doc) pct)))
    else [].
Proof.
  unfold detect_page_ranges.
  destruct (Nat.leb_spec (Z.to_nat (max_page_to_scan (List.length doc) pct))
                         (List.length doc)).
  - now rewrite scan_loop_kept by (rewrite Nat.add_0_l; assumption).
  - now rewrite scan_loop_overrun by lia.
Qed.





Lemma detected_ranges_inside_pages (keep : string -> bool) (doc : document)
      (pct : Q) (p : Z) :
  In p (pages_of_ranges (detect_page_ranges keep doc pct)) ->
  max_page_to_scan (List.length doc) pct <= Z.of_nat (List.length doc)
  /\ 1 <= p <= max_page_to_scan (List.length doc) pct
  /\ passes keep doc p.
Proof.
  rewrite detect_page_ranges_kept.
  destruct (Nat.leb_spec (Z.to_nat (max_page_to_scan (List.length doc) pct))
                         (List.length doc)) as [Hle|Hgt]; [|intros []].
  rewrite group_ranges_pages
    by (eapply above_increasing; apply (above_kept_pages keep doc _ 0)).
  rewrite in_kept_pages by assumption. unfold passes.
  intros [Hp H]. repeat split; try lia. exact H.
Qed.






(** X2: no page text passes two of the page tests, the pair 8804/8805 apart:
    a K-1 start page is no K-3, 8805 or 8804 page, and a K-3 page is no
    8805 or 8804 page. *)
Theorem detectors_exclusive (text : string) :
  (is_k1_start_page text = true ->
   is_k3_page text = false /\ is_8805_page text = false
   /\ is_8804_page text = false)
  /\ (is_k3_page text = true ->
      is_8805_page text = false /\ is_8804_page text = false).
Proof.
  unfold is_k1_start_page, is_k3_page, is_8805_page, is_8804_page,
    k1_form_header, part_i_indicator. cbn [fst snd].
  split.
  - destruct (py_in "Schedule K-1" text); [|discriminate].
    destruct (py_in "(Form 1065)" text); [|discriminate].
    intros _. cbn [andb negb]. rewrite !andb_false_r. auto.
  - destruct (py_in "Schedule K-3" text); [|discriminate].
    intros _. cbn [andb negb]. rewrite !andb_false_r.
    split; [reflexivity|]. now rewrite andb_false_l.
Qed.

(** *** The cap on the number of K-1 pages *)





(** *** Rendering the detected pages *)

Lemma render_loop_outcome (fitz : rendering) (doc : document) (pages : list Z)
      (images : list (Z * image)) :
  render_loop fitz doc pages images
  = if forallb (renders fitz) (filter (inside doc) pages)
    then Some (images ++ map (fun p => (p, image_of p)) (filter (inside doc) pages))
    else None.
Proof.
  revert images. induction pages as [|p pages IH]; intros images.
  - simpl. now rewrite app_nil_r.
  - cbn [render_loop filter]. unfold inside at 1 4 6.
    destruct ((1 <=? p) && (p <=? Z.of_nat (List.length doc))); [|apply IH].
    cbn [forallb map]. destruct (renders fitz p); [|reflexivity].
    rewrite IH. cbn [andb]. destruct (forallb _ _); [|reflexivity].
    now rewrite <- app_assoc.
Qed.

Lemma render_outcome (fitz : rendering) (doc : document) (pages : list Z) :
  extract_pages_as_images fitz doc pages
  = if rendered fitz (filter (inside doc) pages)
    then map (fun p => (p, image_of p)) (filter (inside doc) pages)
    else [].
Proof.
  unfold extract_pages_as_images, rendered. rewrite render_loop_outcome.
  destruct (opens fitz); [|reflexivity]. cbn [andb app].
  destruct (forallb _ _); [|reflexivity]. cbn [andb].
  now destruct (closes fitz).
Qed.

Lemma filter_all_inside (doc : document) (pages : list Z) :
  Forall (fun p => 1 <= p <= Z.of_nat (List.length doc)) pages ->
  filter (inside doc) pages = pages.
Proof.
  induction 1 as [|p pages Hp _ IH]; [reflexivity|].
  cbn [filter]. rewrite IH. unfold inside.
  destruct (Z.leb_spec 1 p); [|lia].
  destruct (Z.leb_spec p (Z.of_nat (List.length doc))); [|lia].
  reflexivity.
Qed.

Lemma render_all_inside (fitz : rendering) (doc : document) (pages : list Z) :
  Forall (fun p => 1 <= p <= Z.of_nat (List.length doc)) pages ->
  extract_pages_as_images fitz doc pages
  = if rendered fitz pages then map (fun p => (p, image_of p)) pages else [].
Proof.
  intros H. now rewrite render_outcome, filter_all_inside.
Qed.


Lemma detected_pages_inside (keep : string -> bool) (doc : document) (pct : Q) :
  Forall (fun p => 1 <= p <= Z.of_nat (List.length doc))
         (pages_of_ranges (detect_page_ranges keep doc pct)).
Proof.
  apply Forall_forall. intros p Hp.
  destruct (detected_ranges_inside_pages keep doc pct p Hp) as (H1 & H2 & _).
  lia.
Qed.

Lemma scan_loop_k1_inside (doc : document) (cap : option nat) (n i : nat)
      (acc pages : list Z) :
  Forall (fun p => 1 <= p <= Z.of_nat (List.length doc)) acc ->
  scan_loop_k1 doc cap i n acc = Some pages ->
  Forall (fun p => 1 <= p <= Z.of_nat (List.length doc)) pages.
Proof.
  revert i acc. induction n as [|n IH]; intros i acc Hacc H;
    cbn [scan_loop_k1] in H.
  - now injection H as <-.
  - destruct (nth_error doc i) as [text|] eqn:E; [|discriminate].
    assert (Hi : (i < List.length doc)%nat) by (apply nth_error_Some; congruence).
    assert (Hacc' : Forall (fun p => 1 <= p <= Z.of_nat (List.length doc))
                           (acc ++ [Z.of_nat i + 1]))
      by (apply Forall_app; split; [assumption | repeat constructor; lia]).
    destruct (is_k1_start_page text); [|now apply (IH (S i) acc)].
    destruct cap as [[|m]|]; try (now apply (IH (S i) (acc ++ [Z.of_nat i + 1]))).
    destruct (S m <=? _)%nat; [now injection H as <- |].
    now apply (IH (S i) (acc ++ [Z.of_nat i + 1])).
Qed.

Lemma k1_pages_inside (doc : document) (pct : Q) (cap : option nat) :
  Forall (fun p => 1 <= p <= Z.of_nat (List.length doc))
         (detect_k1_pages doc pct cap).
Proof.
  unfold detect_k1_pages.
  destruct (scan_loop_k1 doc cap 0 _ []) eqn:E; [|constructor].
  eapply scan_loop_k1_inside; [|exact E]. constructor.
Qed.

(** X4: rendering answers with no image at all when opening the document,
    rendering a page of it that was asked for, or closing it raises;
    otherwise it passes over page numbers outside the document and keeps the
    others in order, each with the image of its page; and of the pages that
    a detector returns, whatever the percentage and the cap, none is passed
    over: all of them are rendered, or, when something raises, none. *)
Theorem detected_pages_all_rendered (doc : document) (pct : Q) :
  (forall fitz pages,
     let asked :=
       filter (fun p => (1 <=? p) && (p <=? Z.of_nat (List.length doc))) pages in
     extract_pages_as_images fitz doc pages
     = if rendered fitz asked then map (fun p => (p, image_of p)) asked else [])
  /\ (forall fitz keep,
        let pages := pages_of_ranges (detect_page_ranges keep doc pct) in
        map fst (extract_pages_as_images fitz doc pages)
        = if rendered fitz pages then pages else [])
  /\ (forall fitz cap,
        let pages := detect_k1_pages doc pct cap in
        map fst (extract_pages_as_images fitz doc pages)
        = if rendered fitz pages then pages else []).
Proof.
  assert (G : forall fitz pages,
             Forall (fun p => 1 <= p <= Z.of_nat (List.length doc)) pages ->
             map fst (extract_pages_as_images fitz doc pages)
             = if rendered fitz pages then pages else []).
  { intros fitz pages H. rewrite render_all_inside by assumption.
    destruct (rendered fitz pages); [|reflexivity].
    rewrite map_map. simpl. apply map_id. }
  split; [|split].
  - intros fitz pages. cbv zeta. apply render_outcome.
  - intros fitz keep. apply G, detected_pages_inside.
  - intros fitz cap. apply G, k1_pages_inside.
Qed.

(** *** The pipelines *)






End PipelineFacts.


(** ** The page results of a batch request, and what the K-3 consolidation
    takes from the first page *)
Module PageResultsFacts.
Import Json Batch PageResults MoreReading BatchFacts.

Lemma z_mem_in (d : list (Z * page_result)) (k : Z) :
  z_mem d k = true <-> In k (map fst d).
Proof.
  unfold z_mem. rewrite existsb_exists, in_map_iff. split.
  - intros (kv & H & E). exists kv. split; [lia | assumption].
  - intros (kv & E & H). exists kv. split; [assumption | lia].
Qed.

Lemma z_set_keys (d : list (Z * page_result)) (k : Z) (v : page_result) (k' : Z) :
  In k' (map fst (z_set d k v)) <-> k' = k \/ In k' (map fst d).
Proof.
  induction d as [|[k0 w] d IH]; simpl; [intuition congruence|].
  destruct (Z.eqb_spec k0 k) as [->|Hne]; simpl; [intuition congruence|].
  rewrite IH. tauto.
Qed.

Lemma z_set_keyed (t : string) (d : list (Z * page_result)) (k : Z) :
  keyed t d -> keyed t (z_set d k (mkPageResult k t [])).
Proof.
  unfold keyed. induction d as [|[k0 w] d IH]; simpl; intros [N F].
  - split; [repeat constructor; auto | repeat constructor].
  - inversion N as [|? ? Hn N']; subst. inversion F as [|? ? Hh F']; subst.
    destruct (Z.eqb_spec k0 k) as [->|Hne]; simpl.
    + split; [constructor; assumption
             | constructor; [split; reflexivity | assumption]].
    + destruct (IH (conj N' F')) as [N2 F2].
      split; [|constructor; assumption].
      constructor; [|assumption]. rewrite z_set_keys. intros [E|E]; auto.
Qed.

Lemma z_set_no_forms (d : list (Z * page_result)) (k : Z) (t : string) :
  all_forms d = [] -> all_forms (z_set d k (mkPageResult k t [])) = [].
Proof.
  unfold all_forms. induction d as [|[k0 w] d IH]; simpl; [reflexivity|].
  intros H. apply app_eq_nil in H as [H1 H2].
  destruct (k0 =? k); simpl; [assumption|]. now rewrite H1, IH.
Qed.

Lemma empty_results_spec (t : string) (chunk : list page) (d : list (Z * page_result)) :
  keyed t d -> all_forms d = [] ->
  let d' := fold_left (fun d p => z_set d (page_number p)
                                    (mkPageResult (page_number p) t []))
                      chunk d in
  keyed t d' /\ all_forms d' = []
  /\ forall k, In k (map fst d') <-> In k (map fst d) \/ In k (map page_number chunk).
Proof.
  revert d. induction chunk as [|p chunk IH]; intros d K E; simpl.
  - split; [assumption|]. split; [assumption|]. intros k. simpl. tauto.
  - destruct (IH _ (z_set_keyed t d (page_number p) K)
                   (z_set_no_forms d (page_number p) t E)) as (K' & E' & I').
    split; [assumption|]. split; [assumption|].
    intros k. rewrite I', z_set_keys. intuition congruence.
Qed.

Lemma z_append_keys (d : list (Z * page_result)) (k : Z) (f : form) :
  map fst (z_append d k f) = map fst d.
Proof.
  induction d as [|[k0 w] d IH]; simpl; [reflexivity|].
  destruct (k0 =? k); simpl; [reflexivity | now rewrite IH].
Qed.

Lemma z_append_keyed (t : string) (d : list (Z * page_result)) (k : Z) (f : form) :
  keyed t d -> keyed t (z_append d k f).
Proof.
  unfold keyed. rewrite z_append_keys. intros [N F]. split; [assumption|].
  clear N. induction F as [|[k0 w] d H F IH]; simpl; [constructor|].
  destruct (k0 =? k); constructor; assumption.
Qed.

Lemma z_append_forms (d : list (Z * page_result)) (k : Z) (f : form) :
  In k (map fst d) -> Permutation (all_forms (z_append d k f)) (all_forms d ++ [f]).
Proof.
  unfold all_forms. induction d as [|[k0 w] d IH]; simpl; [tauto|].
  intros H. destruct (Z.eqb_spec k0 k) as [->|Hne]; simpl.
  - rewrite <- !app_assoc. apply Permutation_app_head. apply Permutation_app_comm.
  - destruct H as [H|H]; [contradiction|].
    rewrite <- app_assoc. apply Permutation_app_head. now apply IH.
Qed.

(** Where [z_append] puts a form: under the key, nowhere else. *)
Lemma z_append_placed (d : list (Z * page_result)) (k : Z) (f : form)
      (P : Z -> form -> Prop) :
  P k f ->
  Forall (fun kv => Forall (P (fst kv)) (extracted_forms (snd kv))) d ->
  Forall (fun kv => Forall (P (fst kv)) (extracted_forms (snd kv))) (z_append d k f).
Proof.
  intros Hf. induction 1 as [|[k0 w] d H F IH]; simpl; [constructor|].
  destruct (Z.eqb_spec k0 k) as [->|Hne]; constructor; try assumption.
  simpl in *. apply Forall_app. split; [assumption | now repeat constructor].
Qed.

Ltac four := split; [|split; [|split]].

Section Chunk.
Variable first_page : Z.
Variable keys : list Z.
Variable form_type : string.

Let placed (d : list (Z * page_result)) : Prop :=
  Forall (fun kv => Forall (well_placed first_page keys (fst kv))
                           (extracted_forms (snd kv))) d.

Lemma place_form_spec (d : list (Z * page_result)) (f : form) :
  In first_page keys -> map fst d = keys -> keyed form_type d -> placed d ->
  let d' := place_form first_page d f in
  map fst d' = keys /\ keyed form_type d'
  /\ Permutation (all_forms d') (all_forms d ++ [f])
  /\ placed d'.
Proof.
  intros Hfp Hk K W. unfold place_form. cbv zeta. subst keys.
  destruct (fst f) as [k|] eqn:Ef.
  - destruct (z_mem d k) eqn:M.
    + apply z_mem_in in M.
      four; [apply z_append_keys | now apply z_append_keyed
                     | now apply z_append_forms |].
      apply z_append_placed; [now left | assumption].
    + four; [apply z_append_keys | now apply z_append_keyed
                     | now apply z_append_forms |].
      apply z_append_placed; [|assumption]. right. split; [reflexivity|].
      intros k' E. rewrite Ef in E. injection E as <-. intros Hin.
      apply z_mem_in in Hin. congruence.
  - rewrite (proj2 (z_mem_in d first_page) Hfp).
    four; [apply z_append_keys | now apply z_append_keyed
                   | now apply z_append_forms |].
    apply z_append_placed; [|assumption]. right. split; [reflexivity|].
    intros k' E. rewrite Ef in E. discriminate.
Qed.

Lemma place_forms_spec (forms : list form) (d : list (Z * page_result)) :
  In first_page keys -> map fst d = keys -> keyed form_type d -> placed d ->
  let d' := fold_left (place_form first_page) forms d in
  map fst d' = keys /\ keyed form_type d'
  /\ Permutation (all_forms d') (all_forms d ++ forms)
  /\ placed d'.
Proof.
  revert d. induction forms as [|f forms IH]; intros d Hfp Hk K W; simpl.
  - rewrite app_nil_r. four; try assumption; reflexivity.
  - destruct (place_form_spec d f Hfp Hk K W) as (E1 & K1 & P1 & W1).
    destruct (IH (place_form first_page d f)) as (E2 & K2 & P2 & W2);
      try assumption.
    four; try assumption.
    rewrite P2. rewrite (Permutation_app_tail forms P1).
    now rewrite <- app_assoc.
Qed.

End Chunk.


(** What the two loops over a chunk establish. *)
Lemma page_results_spec (form_type : string) (first : page)
      (others : list page) (chunk_forms : list form) :
  let chunk := first :: others in
  let d := fold_left (place_form (page_number first)) chunk_forms
                     (empty_results form_type chunk) in
  page_results form_type chunk chunk_forms = map snd d
  /\ keyed form_type d
  /\ (forall k, In k (map fst d) <-> In k (map page_number chunk))
  /\ Permutation (all_forms d) chunk_forms
  /\ Forall (fun kv => Forall (well_placed (page_number first) (map fst d) (fst kv))
                              (extracted_forms (snd kv))) d.
Proof.
  cbv zeta.
  assert (K0 : keyed form_type []) by (split; constructor).
  destruct (empty_results_spec form_type (first :: others) [] K0 eq_refl)
    as (K & E & I).
  fold (empty_results form_type (first :: others)) in K, E, I.
  set (d0 := empty_results form_type (first :: others)) in *.
  assert (Hfp : In (page_number first) (map fst d0)).
  { apply I. right. now left. }
  assert (W0 : Forall (fun kv => Forall (well_placed (page_number first)
                                                     (map fst d0) (fst kv))
                                        (extracted_forms (snd kv))) d0).
  { apply Forall_forall. intros kv Hkv. apply Forall_forall. intros f Hf.
    assert (In f (all_forms d0)) as Hin
        by (unfold all_forms; apply in_flat_map; eauto).
    rewrite E in Hin. destruct Hin. }
  destruct (place_forms_spec (page_number first) (map fst d0) form_type
                             chunk_forms d0 Hfp eq_refl K W0)
    as (E1 & K1 & P & W).
  split; [reflexivity|]. split; [assumption|].
  split; [intros k; rewrite E1, I; simpl; tauto|].
  split; [rewrite P, E; reflexivity|].
  now rewrite E1.
Qed.


(** Forms that name no page all go to the first key. *)
Lemma z_append_first (k : Z) (w : page_result) (d : list (Z * page_result))
      (f : form) :
  z_append ((k, w) :: d) k f
  = (k, mkPageResult (result_page_number w) (result_detected_type w)
                     (extracted_forms w ++ [f])) :: d.
Proof. simpl. now rewrite Z.eqb_refl. Qed.

Lemma place_unnamed (k : Z) (forms : list form) (w : page_result)
      (d : list (Z * page_result)) :
  Forall (fun f => fst f = None) forms ->
  fold_left (place_form k) forms ((k, w) :: d)
  = (k, mkPageResult (result_page_number w) (result_detected_type w)
                     (extracted_forms w ++ forms)) :: d.
Proof.
  revert w. induction forms as [|f forms IH]; intros w H.
  - simpl. rewrite app_nil_r. now destruct w.
  - inversion H as [|? ? Hf H']; subst. cbn [fold_left].
    unfold place_form at 2. rewrite Hf.
    replace (z_mem ((k, w) :: d) k) with true
      by (unfold z_mem; simpl; now rewrite Z.eqb_refl).
    rewrite z_append_first, IH by assumption. simpl.
    now rewrite <- app_assoc.
Qed.

Lemma empty_results_first (t : string) (chunk : list page) (k : Z)
      (d : list (Z * page_result)) :
  exists rest,
    fold_left (fun d p => z_set d (page_number p)
                            (mkPageResult (page_number p) t []))
              chunk ((k, mkPageResult k t []) :: d)
    = (k, mkPageResult k t []) :: rest.
Proof.
  revert d. induction chunk as [|p chunk IH]; intros d; simpl; [eauto|].
  destruct (Z.eqb_spec k (page_number p)) as [->|Hne]; apply IH.
Qed.

(** X8: on the structured-response path every form of a chunk is filed
    under the first page of the chunk, in the order of the response, and the
    other pages of the chunk get no form: the dict built from a
    [FormInstance] has no page number. *)
Theorem parsed_forms_on_first_page (form_type : string) (first : page)
        (others : list page) (instances : list form_instance) :
  let chunk_forms := map parsed_form instances in
  exists rest,
    page_results form_type (first :: others) chunk_forms
    = mkPageResult (page_number first) form_type chunk_forms :: rest
    /\ Forall (fun r => extracted_forms r = []) rest
    /\ forall k, In k (map result_page_number rest)
                 <-> In k (map page_number others) /\ k <> page_number first.
Proof.
  cbv zeta.
  destruct (page_results_spec form_type first others (map parsed_form instances))
    as (Er & [N F] & I & P & _).
  unfold page_results in *. unfold empty_results in *. cbn [fold_left z_set] in *.
  destruct (empty_results_first form_type others (page_number first) [])
    as (rest & E).
  rewrite E in *.
  rewrite place_unnamed in *
    by (apply Forall_forall; intros f Hf; apply in_map_iff in Hf as (i & <- & _);
        reflexivity).
  cbn [map snd fst extracted_forms app result_page_number result_detected_type] in *.
  exists (map snd rest). split; [reflexivity|].
  assert (Keys : map result_page_number (map snd rest) = map fst rest).
  { rewrite map_map. apply map_ext_in. intros kv Hkv.
    inversion F as [|? ? _ F']; subst.
    rewrite Forall_forall in F'. now destruct (F' kv Hkv). }
  split.
  - unfold all_forms in P. cbn [flat_map snd extracted_forms] in P.
    assert (L : List.length (flat_map (fun kv => extracted_forms (snd kv)) rest) = 0%nat).
    { apply Permutation_length in P. rewrite length_app in P. lia. }
    apply length_zero_iff_nil in L.
    apply Forall_forall. intros r Hr. apply in_map_iff in Hr as (kv & <- & Hkv).
    destruct (extracted_forms (snd kv)) as [|f fs] eqn:Ef; [reflexivity|].
    exfalso. assert (In f []) as [].
    rewrite <- L. apply in_flat_map. exists kv. split; [assumption|].
    rewrite Ef. now left.
  - intros k. rewrite Keys. inversion N as [|? ? Hn N']; subst.
    specialize (I k). simpl in I. split.
    + intros Hin. assert (k <> page_number first) by (intros ->; contradiction).
      split; [|assumption]. destruct I as [I1 _].
      destruct (I1 (or_intror Hin)); [congruence | assumption].
    + intros [Hin Hne]. destruct I as [_ I2].
      destruct (I2 (or_intror Hin)); [congruence | assumption].
Qed.

(** The number of chunks of [n] pages. *)
Lemma chunks_length (pages : list page) :
  List.length (chunks pages) = ((List.length pages + 9) / 10)%nat.
Proof.
  unfold chunks, py_range_step, MAX_PAGES_PER_BATCH.
  rewrite !length_map, length_seq. f_equal. lia.
Qed.

Lemma ceil_div_add (a b : nat) :
  ((a + b + 9) / 10 <= (a + 9) / 10 + (b + 9) / 10)%nat.
Proof.
  pose proof (Nat.div_mod_eq (a + b + 9) 10).
  pose proof (Nat.div_mod_eq (a + 9) 10).
  pose proof (Nat.div_mod_eq (b + 9) 10).
  pose proof (Nat.mod_upper_bound (a + b + 9) 10).
  pose proof (Nat.mod_upper_bound (a + 9) 10).
  pose proof (Nat.mod_upper_bound (b + 9) 10).
  lia.
Qed.

Definition pages_in (groups : list (string * list page)) : nat :=
  List.length (flat_map snd groups).

Lemma group_add_count (groups : list (string * list page)) (p : page) :
  pages_in (group_add groups p) = S (pages_in groups).
Proof.
  unfold pages_in. induction groups as [|[t ps] groups IH]; simpl; [reflexivity|].
  destruct (String.eqb t (detected_type p)); simpl.
  - rewrite !length_app. simpl. lia.
  - rewrite !length_app in *. lia.
Qed.

Lemma group_by_type_count (request_pages : list page) (groups : list (string * list page)) :
  pages_in (fold_left group_add request_pages groups)
  = (pages_in groups + List.length request_pages)%nat.
Proof.
  revert groups. induction request_pages as [|p ps IH]; intros groups; simpl.
  - lia.
  - rewrite IH, group_add_count. lia.
Qed.

Section Calls.
Variable has_prompt : string -> bool.

Lemma calls_made_app (a b : list action) :
  calls_made (a ++ b) = (calls_made a + calls_made b)%nat.
Proof. unfold calls_made. now rewrite filter_app, length_app. Qed.

Lemma calls_made_group (group : string * list page) :
  calls_made (actions_for has_prompt group)
  = if has_prompt (fst group) then ((List.length (snd group) + 9) / 10)%nat
    else 0%nat.
Proof.
  destruct group as [t ps]. unfold actions_for, calls_made. cbn [fst snd].
  destruct (has_prompt t).
  - rewrite <- chunks_length. generalize (chunks ps). intros l.
    induction l; cbn [map filter List.length]; [reflexivity | now rewrite IHl].
  - induction ps; cbn [map filter List.length]; [reflexivity | assumption].
Qed.

Lemma calls_made_groups (groups : list (string * list page)) :
  (calls_made (flat_map (actions_for has_prompt) groups)
   <= List.length groups * ((pages_in groups + 9) / 10))%nat
  /\ (Forall (fun g => has_prompt (fst g) = true) groups ->
      ((pages_in groups + 9) / 10
       <= calls_made (flat_map (actions_for has_prompt) groups))%nat).
Proof.
  unfold pages_in. induction groups as [|g groups [IH1 IH2]].
  - split; [apply Nat.le_0_l|]. intros _. apply Nat.eq_le_incl. reflexivity.
  - cbn [flat_map]. rewrite calls_made_app, calls_made_group, length_app.
    cbn [List.length].
    set (a := List.length (snd g)) in *.
    set (b := List.length (flat_map snd groups)) in *.
    split.
    + assert (((a + 9) / 10 <= (a + b + 9) / 10)%nat)
        by (apply Nat.Div0.div_le_mono; lia).
      assert (((b + 9) / 10 <= (a + b + 9) / 10)%nat)
        by (apply Nat.Div0.div_le_mono; lia).
      destruct (has_prompt (fst g)); nia.
    + intros H. inversion H as [|? ? Hg H']; subst. rewrite Hg.
      specialize (IH2 H'). pose proof (ceil_div_add a b). lia.
Qed.

End Calls.

Lemma group_add_types (groups : list (string * list page)) (p : page) (t : string) :
  In t (map fst (group_add groups p))
  <-> In t (map fst groups) \/ t = detected_type p.
Proof.
  induction groups as [|[t0 ps] groups IH]; simpl; [intuition congruence|].
  destruct (String.eqb_spec t0 (detected_type p)) as [->|Hne]; simpl.
  - intuition congruence.
  - rewrite IH. tauto.
Qed.

Lemma group_by_type_types (request_pages : list page)
      (groups : list (string * list page)) (t : string) :
  In t (map fst (fold_left group_add request_pages groups))
  <-> In t (map fst groups) \/ In t (map detected_type request_pages).
Proof.
  revert groups. induction request_pages as [|p ps IH]; intros groups; simpl.
  - tauto.
  - rewrite IH, group_add_types. intuition congruence.
Qed.

Lemma group_by_type_nodup (request_pages : list page)
      (groups : list (string * list page)) :
  NoDup (map fst groups) ->
  NoDup (map fst (fold_left group_add request_pages groups)).
Proof.
  revert groups. induction request_pages as [|p ps IH]; intros groups N; simpl.
  - assumption.
  - apply IH. clear IH. induction groups as [|[t0 l] groups IH]; simpl.
    + repeat constructor. auto.
    + inversion N as [|? ? Hn N']; subst.
      destruct (String.eqb_spec t0 (detected_type p)) as [->|Hne]; simpl.
      * constructor; assumption.
      * constructor; [|now apply IH]. rewrite group_add_types.
        intros [H|H]; [contradiction | congruence].
Qed.

(** X9: the count the response reports as "api_calls_made", the number of
    chunks of the whole request, is a lower bound of the backend calls made
    when every form type of the request has a prompt configuration, and
    the two are equal when all pages have one type; with pages of several
    types more calls are made than reported as soon as the chunks of the
    types do not fill up. *)
Theorem api_calls_reported (has_prompt : string -> bool)
        (request_pages : list page) :
  (forall p, In p request_pages -> has_prompt (detected_type p) = true) ->
  (api_calls_made request_pages
   <= calls_made (extract_form_actions has_prompt request_pages))%nat
  /\ ((forall p q, In p request_pages -> In q request_pages ->
                   detected_type p = detected_type q) ->
      api_calls_made request_pages
      = calls_made (extract_form_actions has_prompt request_pages)).
Proof.
  intros Hs. unfold api_calls_made, extract_form_actions, group_by_type.
  unfold py_range_step, MAX_PAGES_PER_BATCH. rewrite length_map, length_seq.
  replace (List.length request_pages + 10 - 1)%nat
    with (List.length request_pages + 9)%nat by lia.
  pose proof (group_by_type_count request_pages []) as Hp.
  unfold pages_in at 2 in Hp. simpl in Hp.
  assert (Hall : Forall (fun g => has_prompt (fst g) = true)
                        (fold_left group_add request_pages [])).
  { apply Forall_forall. intros g Hg.
    assert (In (fst g) (map fst (fold_left group_add request_pages [])))
      as Hin by (now apply in_map).
    apply group_by_type_types in Hin as [[]|Hin].
    apply in_map_iff in Hin as (p & <- & Hin). now apply Hs. }
  destruct (calls_made_groups has_prompt (fold_left group_add request_pages []))
    as [Hup Hlow].
  rewrite Hp in Hup, Hlow. specialize (Hlow Hall).
  split; [exact Hlow|].
  intros Hsame. apply Nat.le_antisymm; [exact Hlow|].
  eapply Nat.le_trans; [exact Hup|].
  assert (L : (List.length (fold_left group_add request_pages []) <= 1)%nat).
  { assert (N : NoDup (map fst (fold_left group_add request_pages []))).
    { apply (group_by_type_nodup request_pages []). constructor. }
    destruct (fold_left group_add request_pages []) as [|g1 [|g2 gs]] eqn:E;
      simpl; try lia.
    exfalso.
    assert (In (fst g1) (map detected_type request_pages)) as H1.
    { pose proof (group_by_type_types request_pages [] (fst g1)) as G.
      rewrite E in G. simpl in G. tauto. }
    assert (In (fst g2) (map detected_type request_pages)) as H2.
    { pose proof (group_by_type_types request_pages [] (fst g2)) as G.
      rewrite E in G. simpl in G. tauto. }
    apply in_map_iff in H1 as (p & E1 & Hp1).
    apply in_map_iff in H2 as (q & E2 & Hp2).
    specialize (Hsame p q Hp1 Hp2).
    simpl in N. inversion N as [|? ? Hn _]; subst. apply Hn. left. congruence. }
  nia.
Qed.

(** Three pages of three form types: one call reported, three made. *)
Lemma api_calls_of_three_types :
  let pages := [mkPage "a" 1 "W-2"; mkPage "b" 2 "1099-INT"; mkPage "c" 3 "K-1"] in
  api_calls_made pages = 1%nat
  /\ calls_made (extract_form_actions (fun _ => true) pages) = 3%nat
  /\ (api_calls_made pages
      <= calls_made (extract_form_actions (fun _ => true) pages))%nat.
Proof.
  split; [reflexivity|]. split; [reflexivity|].
  apply (api_calls_reported (fun _ => true)
           [mkPage "a" 1 "W-2"; mkPage "b" 2 "1099-INT"; mkPage "c" 3 "K-1"]).
  intros p _. reflexivity.
Defined.

End PageResultsFacts.

(** ** What the K-3 consolidation takes from the first page that offers it *)
Module K3FirstFacts.
Import Json K3 MoreReading.

Lemma metadata_first (pages : list (Z * extraction)) (st : state) :
  st_document_metadata (fold_left extract_page pages st)
  = match st_document_metadata st with
    | Some m => Some m
    | None => first_some offered_metadata pages
    end.
Proof.
  revert st. induction pages as [|[n r] pages IH]; intros st.
  - simpl. now destruct (st_document_metadata st).
  - cbn [fold_left]. rewrite IH. unfold extract_page, offered_metadata.
    cbn [snd first_some].
    destruct r as [|e| |raw d]; cbn [st_document_metadata snd]; try reflexivity.
    destruct (st_document_metadata st); [reflexivity|].
    now destruct (metadata_of d).
Qed.

Lemma partner_name_first (pages : list (Z * extraction)) (st : state) :
  kept_name (fold_left extract_page pages st)
  = match kept_name st with
    | Some n => Some n
    | None => first_some offered_partner_name pages
    end.
Proof.
  revert st. induction pages as [|[n r] pages IH]; intros st.
  - simpl. now destruct (kept_name st).
  - cbn [fold_left]. rewrite IH. unfold extract_page, offered_partner_name.
    cbn [snd first_some]. unfold kept_name.
    destruct r as [|e| |raw d]; cbn [st_partner_name snd]; try reflexivity.
    destruct (truthy (st_partner_name st)) eqn:T; [now rewrite T|].
    destruct (partner_name_of d) as [nm|]; [|now rewrite T].
    now destruct (truthy nm).
Qed.

Lemma last_page_number (page_images : list (Z * extraction)) :
  fst (last page_images (1, ExtractOther)) = last (map fst page_images) 1.
Proof.
  induction page_images as [|p [|q l] IH]; try reflexivity.
  change (fst (last (q :: l) (1, ExtractOther)) = last (map fst (q :: l)) 1).
  apply IH.
Qed.

(** X10: for pages that do not hold a null "document_metadata", the K-3
    consolidation takes the document metadata from the first page that
    offers some (its "document_metadata" key, or else its partnership name
    or tax year) and the partner name from the first page that offers a
    non-empty one; later pages never replace them; with no such page the
    metadata are the defaults and the name is "Partner (Pages first-last)". *)
Theorem first_page_wins (page_images : list (Z * extraction)) :
  Forall metadata_not_null page_images ->
  let result := batch_extract page_images in
  document_metadata result
  = match first_some offered_metadata page_images with
    | Some m => m
    | None => default_metadata
    end
  /\ map partner_name (partner_records result)
     = [match first_some offered_partner_name page_images with
        | Some n => n
        | None =>
            JStr ("Partner (Pages "
                  ++ page_span (hd 1 (map fst page_images))
                               (last (map fst page_images) 1) ++ ")")%string
        end].
Proof.
  intros _. cbv zeta. unfold batch_extract.
  cbn [document_metadata partner_records map partner_name].
  rewrite metadata_first. cbn [initial_state st_document_metadata].
  split; [now destruct (first_some offered_metadata page_images)|].
  assert (Hh : match page_images with p :: _ => fst p | [] => 1 end
               = hd 1 (map fst page_images)) by now destruct page_images.
  rewrite Hh, last_page_number.
  pose proof (partner_name_first page_images initial_state) as H.
  unfold kept_name in H at 2. cbn in H. unfold kept_name in H.
  destruct (truthy (st_partner_name (fold_left extract_page page_images initial_state)));
    rewrite <- H; reflexivity.
Qed.

(** Two pages: the first offers metadata and an empty partner name, the
    second other metadata and the name "Bob". *)
Lemma first_page_wins_of_two :
  let meta := fun name => JObj [("partnership_name", JStr name)] in
  let page := fun name partner =>
    ExtractData false
      (mkPageDict (Some (meta name)) None None None None None
                  (Some (JStr partner)) []) in
  let page_images := [(4, page "First LP" ""); (5, page "Second LP" "Bob")] in
  Forall metadata_not_null page_images
  /\ document_metadata (batch_extract page_images) = meta "First LP"
  /\ map partner_name (partner_records (batch_extract page_images)) = [JStr "Bob"].
Proof.
  cbv zeta.
  assert (H : Forall metadata_not_null
                [(4, ExtractData false
                       (mkPageDict (Some (JObj [("partnership_name", JStr "First LP")]))
                                   None None None None None (Some (JStr "")) []));
                 (5, ExtractData false
                       (mkPageDict (Some (JObj [("partnership_name", JStr "Second LP")]))
                                   None None None None None (Some (JStr "Bob")) []))]).
  { repeat constructor; discriminate. }
  split; [exact H|].
  exact (first_page_wins _ H).
Defined.

End K3FirstFacts.


(** ** Removing the code fence *)
Module FenceFacts.
Import PyStr Fence FenceReading PyStrFacts NormalizeFacts.

Lemma app_assoc_string (a b c : string) :
  ((a ++ b) ++ c = a ++ (b ++ c))%string.
Proof. induction a; simpl; congruence. Qed.

Lemma lstrip_app_space (w s : string) :
  all_space w = true -> lstrip (w ++ s) = lstrip s.
Proof.
  induction w as [|c w IH]; simpl; [reflexivity|].
  intros H. apply andb_true_iff in H as [Hc Hw]. rewrite Hc. now apply IH.
Qed.

Lemma rstrip_space (w : string) : all_space w = true -> rstrip w = "".
Proof.
  induction w as [|c w IH]; simpl; [reflexivity|].
  intros H. apply andb_true_iff in H as [Hc Hw]. now rewrite IH, Hc.
Qed.

Lemma rstrip_app_space (s w : string) :
  all_space w = true -> rstrip (s ++ w) = rstrip s.
Proof.
  intros H. induction s as [|c s IH]; [now apply rstrip_space|].
  cbn [append rstrip]. now rewrite IH.
Qed.

Lemma lstrip_head (s : string) :
  lstrip s = "" \/ exists c r, lstrip s = String c r /\ is_space c = false.
Proof.
  induction s as [|c s IH]; simpl; [now left|].
  destruct (is_space c) eqn:E; [exact IH|]. right. now exists c, s.
Qed.

Lemma lstrip_empty_space (s : string) : lstrip s = "" -> all_space s = true.
Proof.
  induction s as [|c s IH]; simpl; [reflexivity|].
  destruct (is_space c); [exact IH | discriminate].
Qed.

Lemma lstrip_app_text (s t : string) :
  lstrip s <> "" -> lstrip (s ++ t) = (lstrip s ++ t)%string.
Proof.
  induction s as [|c s IH]; simpl; [congruence|].
  destruct (is_space c); [exact IH | reflexivity].
Qed.

Lemma all_space_app (a b : string) :
  all_space (a ++ b) = all_space a && all_space b.
Proof.
  induction a as [|c a IH]; simpl; [reflexivity|].
  now rewrite IH, andb_assoc.
Qed.

(** [strip] does not see whitespace put around a text. *)
Lemma strip_padded (w1 body w2 : string) :
  all_space w1 = true -> all_space w2 = true ->
  strip (w1 ++ body ++ w2) = strip body.
Proof.
  intros H1 H2. unfold strip. rewrite lstrip_app_space by assumption.
  destruct (string_dec (lstrip body) "") as [E|E].
  - rewrite E. pose proof (lstrip_empty_space body E) as Hb.
    assert (Hs : all_space (body ++ w2) = true)
      by (rewrite all_space_app, Hb, H2; reflexivity).
    rewrite <- (append_empty (body ++ w2)), lstrip_app_space by assumption.
    reflexivity.
  - rewrite lstrip_app_text by assumption. now apply rstrip_app_space.
Qed.

Lemma rstrip_twice (s : string) : rstrip (rstrip s) = rstrip s.
Proof.
  induction s as [|c s IH]; [reflexivity|].
  cbn [rstrip]. destruct (rstrip s) as [|d t] eqn:E.
  - destruct (is_space c) eqn:Ec; [reflexivity|]. cbn [rstrip]. now rewrite Ec.
  - cbn [rstrip] in *. now rewrite IH.
Qed.

Lemma strip_twice (s : string) : strip (strip s) = strip s.
Proof.
  unfold strip. destruct (lstrip_head s) as [E|(c & r & E & Hc)].
  - rewrite E. reflexivity.
  - rewrite E. destruct (rstrip_head c r Hc) as [t Ht]. rewrite Ht.
    cbn [lstrip]. rewrite Hc, <- Ht. apply rstrip_twice.
Qed.

Lemma endswith_app (p suffix : string) : endswith suffix (p ++ suffix) = true.
Proof.
  induction p as [|c p IH].
  - destruct suffix; cbn [append endswith]; now rewrite String.eqb_refl.
  - cbn [append endswith]. rewrite IH.
    now destruct (String.eqb (String c (p ++ suffix)) suffix).
Qed.

Lemma length_app_string (a b : string) :
  String.length (a ++ b) = (String.length a + String.length b)%nat.
Proof. induction a; simpl; congruence. Qed.

Lemma substring_prefix (a b : string) :
  substring 0 (String.length a) (a ++ b) = a.
Proof.
  induction a as [|c a IH]; simpl; [now destruct b | now rewrite IH].
Qed.

Lemma drop_last_app (p : string) : drop_last 3 (p ++ "```") = p.
Proof.
  unfold drop_last. rewrite length_app_string.
  replace (String.length p + String.length "```" - 3)%nat
    with (String.length p) by (simpl; lia).
  apply substring_prefix.
Qed.

Lemma drop_app (p s : string) : drop (String.length p) (p ++ s) = s.
Proof. induction p; simpl; [now destruct s | assumption]. Qed.

Lemma startswith_app (p q s : string) :
  startswith (p ++ q) s = startswith p s && startswith q (drop (String.length p) s).
Proof.
  revert s. induction p as [|a p IH]; intros s; simpl.
  - now destruct s.
  - destruct s as [|b s]; [reflexivity|]. rewrite IH. now rewrite andb_assoc.
Qed.

(** The fence of a fenced answer, its surrounding whitespace stripped. *)
Lemma strip_fenced (opening w0 w1 body w2 w3 : string) (c : ascii) (o : string) :
  opening = String c o -> is_space c = false ->
  all_space w0 = true -> all_space w3 = true ->
  strip (fenced opening w0 w1 body w2 w3)
  = ((opening ++ w1 ++ body ++ w2) ++ "```")%string.
Proof.
  intros -> Hc H0 H3. unfold fenced, strip.
  rewrite lstrip_app_space by assumption.
  assert (L : forall x, lstrip (String c o ++ x) = (String c o ++ x)%string)
    by (intros x; cbn [append lstrip]; now rewrite Hc).
  rewrite L.
  replace (String c o ++ w1 ++ body ++ w2 ++ "```" ++ w3)%string
    with (((String c o ++ w1 ++ body ++ w2) ++ "```") ++ w3)%string
    by (now rewrite !app_assoc_string).
  rewrite rstrip_app_space by assumption.
  apply rstrip_app; [reflexivity | discriminate].
Qed.

Lemma space_is_no_letter (c : ascii) (w : string) (l : ascii) :
  is_space l = false -> is_space c = true ->
  startswith (String l "") (String c w) = false.
Proof.
  intros Hl Hc. simpl. destruct (Ascii.eqb_spec l c) as [->|]; [congruence|].
  reflexivity.
Qed.

Lemma opens_json (x : string) : startswith "```json" ("```json" ++ x) = true.
Proof. reflexivity. Qed.

Lemma drop_json (x : string) : drop 7 ("```json" ++ x) = x.
Proof. reflexivity. Qed.

Lemma opens_plain (x : string) : startswith "```" ("```" ++ x) = true.
Proof. reflexivity. Qed.

Lemma drop_plain (x : string) : drop 3 ("```" ++ x) = x.
Proof. reflexivity. Qed.

Section Fenced.
Variables w0 w1 body w2 w3 : string.
Hypothesis space0 : all_space w0 = true.
Hypothesis space1 : all_space w1 = true.
Hypothesis space2 : all_space w2 = true.
Hypothesis space3 : all_space w3 = true.
Hypothesis line_ends : w1 <> "".

Lemma rest_is_no_fence (rest : string) (l : ascii) (p : string) :
  is_space l = false -> startswith (String l p) (w1 ++ rest) = false.
Proof.
  intros Hl. destruct w1 as [|c w] eqn:E; [contradiction|].
  simpl in space1. apply andb_true_iff in space1 as [Hc _].
  cbn [append startswith]. destruct (Ascii.eqb_spec l c) as [->|]; [congruence|].
  reflexivity.
Qed.

Lemma plain_is_no_json (rest : string) :
  startswith "```json" ("```" ++ w1 ++ rest) = false.
Proof.
  change (startswith "json" (w1 ++ rest) = false).
  now apply rest_is_no_fence.
Qed.

Lemma clean_fenced_json :
  clean_json_response (fenced "```json" w0 w1 body w2 w3) = strip body
  /\ fallback_json_text (fenced "```json" w0 w1 body w2 w3) = strip body.
Proof.
  unfold clean_json_response, fallback_json_text. cbv zeta.
  rewrite (strip_fenced "```json" w0 w1 body w2 w3 "`" "``json")
    by (reflexivity || assumption).
  rewrite (app_assoc_string "```json"), opens_json, drop_json.
  rewrite (app_assoc_string w1).
  rewrite (rest_is_no_fence _ "`" "``") by reflexivity.
  rewrite <- (app_assoc_string w1).
  rewrite endswith_app, drop_last_app.
  split; now apply strip_padded.
Qed.

Lemma clean_fenced_plain :
  clean_json_response (fenced "```" w0 w1 body w2 w3) = strip body
  /\ fallback_json_text (fenced "```" w0 w1 body w2 w3) = strip body.
Proof.
  unfold clean_json_response, fallback_json_text. cbv zeta.
  rewrite (strip_fenced "```" w0 w1 body w2 w3 "`" "``")
    by (reflexivity || assumption).
  rewrite (app_assoc_string "```"), (app_assoc_string w1).
  rewrite plain_is_no_json, opens_plain, drop_plain.
  rewrite <- (app_assoc_string w1).
  rewrite endswith_app, drop_last_app.
  split; now apply strip_padded.
Qed.

End Fenced.

(** X11: a text wrapped in a code fence is recovered: for an answer made of
    the opening fence "```json" or "```", the rest of that line (whitespace,
    at least a line break), a body, and the closing fence "```", with any
    whitespace before, after and around the body, both cleaners return the
    body with the whitespace at its ends removed, whatever the body holds. *)
Theorem fenced_body_recovered (w0 w1 body w2 w3 : string) :
  all_space w0 = true -> all_space w1 = true -> all_space w2 = true ->
  all_space w3 = true -> w1 <> "" ->
  clean_json_response (fenced "```json" w0 w1 body w2 w3) = strip body
  /\ clean_json_response (fenced "```" w0 w1 body w2 w3) = strip body
  /\ fallback_json_text (fenced "```json" w0 w1 body w2 w3) = strip body
  /\ fallback_json_text (fenced "```" w0 w1 body w2 w3) = strip body.
Proof.
  intros H0 H1 H2 H3 Hn.
  destruct (clean_fenced_json w0 w1 body w2 w3 H0 H1 H2 H3 Hn) as [A B].
  destruct (clean_fenced_plain w0 w1 body w2 w3 H0 H1 H2 H3 Hn) as [C D].
  auto.
Qed.

(** The fenced empty object, the fence line ended by a line feed. *)
Lemma fenced_empty_object :
  let nl := String (ascii_of_nat 10) "" in
  clean_json_response (fenced "```json" "" nl "{}" nl "") = strip "{}"
  /\ clean_json_response (fenced "```" "" nl "{}" nl "") = strip "{}"
  /\ fallback_json_text (fenced "```json" "" nl "{}" nl "") = strip "{}"
  /\ fallback_json_text (fenced "```" "" nl "{}" nl "") = strip "{}".
Proof.
  cbv zeta.
  apply (fenced_body_recovered "" (String (ascii_of_nat 10) "") "{}"
                               (String (ascii_of_nat 10) "") "");
    (reflexivity || discriminate).
Defined.

Lemma no_fence_no_json (t : string) :
  startswith "```" t = false -> startswith "```json" t = false.
Proof.
  intros H. change "```json" with ("```" ++ "json")%string.
  now rewrite startswith_app, H.
Qed.

(** X12: a text without fence is only stripped: when the text, its outer
    whitespace removed, neither starts nor ends with "```", both cleaners
    return it with the outer whitespace removed and nothing else changed. *)
Theorem unfenced_text_stripped (text : string) :
  startswith "```" (strip text) = false ->
  endswith "```" (strip text) = false ->
  clean_json_response text = strip text
  /\ fallback_json_text text = strip text.
Proof.
  intros Hs He. unfold clean_json_response, fallback_json_text. cbv zeta.
  rewrite (no_fence_no_json _ Hs), Hs, He.
  split; apply strip_twice.
Qed.

(** An object with spaces around it. *)
Lemma unfenced_object :
  clean_json_response "  {} " = strip "  {} "
  /\ fallback_json_text "  {} " = strip "  {} ".
Proof.
  apply (unfenced_text_stripped "  {} "); reflexivity.
Defined.

(** X13: the fallback of [extract_form] and the extractors' cleaner hand
    the same text to the JSON parser unless the answer starts with
    "```json```": only the fallback removes a second fence that directly
    follows "```json", as in "```json```{}". *)
Theorem cleaners_agree (text : string) :
  startswith "```json```" (strip text) = false ->
  fallback_json_text text = clean_json_response text.
Proof.
  intros H. unfold clean_json_response, fallback_json_text. cbv zeta.
  change "```json```" with ("```json" ++ "```")%string in H.
  rewrite startswith_app in H. change (String.length "```json") with 7%nat in H.
  destruct (startswith "```json" (strip text)); [|reflexivity].
  cbn [andb] in H. now rewrite H.
Qed.

(** The usual fenced answer, on which the two agree, and the text
    "```json```{}", on which they do not. *)
Lemma cleaners_on_json_fence :
  let nl := String (ascii_of_nat 10) "" in
  let text := ("```json" ++ nl ++ "{}" ++ nl ++ "```")%string in
  fallback_json_text text = clean_json_response text
  /\ fallback_json_text "```json```{}" = "{}"
  /\ clean_json_response "```json```{}" = "```{}".
Proof.
  cbv zeta. split; [|split; reflexivity].
  apply (cleaners_agree
           ("```json" ++ String (ascii_of_nat 10) "" ++ "{}"
            ++ String (ascii_of_nat 10) "" ++ "```")%string).
  reflexivity.
Defined.

End FenceFacts.


(** ** Flattening a nested answer and looking a value up in it *)
Module FlatFacts.
Import PyStr Json Normalize FlatReading.

Lemma dict_set_values {A : Type} (R : A -> Prop) (d : list (string * A))
      (k : string) (v : A) :
  R v -> Forall (fun kv => R (snd kv)) d ->
  Forall (fun kv => R (snd kv)) (dict_set d k v).
Proof.
  intros Hv. induction 1 as [|[k0 w] d Hw Hd IH]; simpl.
  - now repeat constructor.
  - destruct (String.eqb k0 k); constructor; assumption.
Qed.

Lemma dict_of_items_values {A : Type} (R : A -> Prop) (items : list (string * A)) :
  Forall (fun kv => R (snd kv)) items ->
  Forall (fun kv => R (snd kv)) (dict_of_items items).
Proof.
  unfold dict_of_items. generalize (@nil (string * A)) (Forall_nil (fun kv : string * A => R (snd kv))).
  induction items as [|[k v] items IH]; intros acc Hacc H; simpl; [assumption|].
  inversion H as [|? ? Hv H']; subst. apply IH; [|assumption].
  now apply dict_set_values.
Qed.

Lemma flatten_no_dict (sep : string) (d : json) :
  (forall parent, no_dict (flatten_dict d parent sep))
  /\ match d with
     | JArr items =>
         Forall (fun x => forall parent, no_dict (flatten_dict x parent sep)) items
     | _ => True
     end.
Proof.
  induction d using json_nested_ind;
    try (split; [intros parent; constructor | exact I]).
  - split; [intros parent; constructor|].
    eapply Forall_impl; [|eassumption]. intros a [Ha _]. exact Ha.
  - split; [|exact I]. intros parent. cbn [flatten_dict].
    apply (dict_of_items_values (fun v => is_dict v = false)).
    induction H as [|[k v] fs Hkv Hfs IH]; [constructor|].
    apply Forall_app. split; [|exact IH]. clear IH Hfs.
    cbn [snd] in Hkv. destruct Hkv as [Hv Hl].
    destruct v; try (repeat constructor; fail).
    + clear Hv. generalize 0%nat. induction Hl as [|x l Hx Hl IH]; intros i; [constructor|].
      apply Forall_app. split; [|apply IH].
      destruct x; try (repeat constructor; fail). apply Hx.
    + apply Hv.
Qed.

(** X14: no value of a flattened answer is a dict, whatever the nesting of
    the answer and the separator: every dict, also one that is an item of a
    list, is replaced by its flattened items. *)
Theorem flatten_dict_leaves_no_dict (d : json) (parent_key sep : string) :
  Forall (fun kv => is_dict (snd kv) = false) (flatten_dict d parent_key sep).
Proof. apply (flatten_no_dict sep d). Qed.

Lemma dict_set_fresh {A : Type} (d : list (string * A)) (k : string) (v : A) :
  ~ In k (map fst d) -> dict_set d k v = d ++ [(k, v)].
Proof.
  induction d as [|[k0 w] d IH]; simpl; intros H; [reflexivity|].
  destruct (String.eqb_spec k0 k) as [->|Hne]; [tauto|].
  rewrite IH by tauto. reflexivity.
Qed.

Lemma dict_of_items_fresh {A : Type} (items acc : list (string * A)) :
  NoDup (map fst (acc ++ items)) ->
  fold_left (fun d kv => dict_set d (fst kv) (snd kv)) items acc = acc ++ items.
Proof.
  revert acc. induction items as [|[k v] items IH]; intros acc H; simpl.
  - now rewrite app_nil_r.
  - rewrite dict_set_fresh.
    + rewrite IH; rewrite <- app_assoc; [reflexivity | exact H].
    + rewrite map_app in H. apply NoDup_remove_2 in H.
      intros Hin. apply H. apply in_or_app. now left.
Qed.

Lemma flat_items (sep : string) (fields : list (string * json)) :
  Forall (fun kv => is_dict (snd kv) = false /\ is_list (snd kv) = false) fields ->
  flatten_dict (JObj fields) "" sep = dict_of_items fields.
Proof.
  intros F. cbn [flatten_dict]. f_equal.
  induction F as [|[k v] fs [H1 H2] Hfs IH]; [reflexivity|].
  rewrite IH. cbn [snd] in *. destruct v; try reflexivity; discriminate.
Qed.

(** X15: a flat answer is returned as it is: a dict whose keys are distinct
    and whose values are neither dicts nor lists is left unchanged by
    [flatten_dict], keys, values and order. *)
Theorem flat_dict_unchanged (fields : list (string * json)) (sep : string) :
  NoDup (map fst fields) ->
  Forall (fun kv => is_dict (snd kv) = false /\ is_list (snd kv) = false) fields ->
  flatten_dict (JObj fields) "" sep = fields.
Proof.
  intros N F. rewrite (flat_items sep fields F).
  apply (dict_of_items_fresh fields []). exact N.
Qed.

(** A flat W-2 answer of two keys. *)
Lemma flat_answer_of_two :
  flatten_dict (JObj [("wages", JStr "100.00"); ("employee_name", JStr "Ann")]) "" "_"
  = [("wages", JStr "100.00"); ("employee_name", JStr "Ann")].
Proof.
  apply (flat_dict_unchanged
           [("wages", JStr "100.00"); ("employee_name", JStr "Ann")] "_").
  - repeat constructor; simpl; intuition discriminate.
  - repeat constructor.
Defined.

Lemma find_in_flat_some (flat : list (string * json)) (key_lower : string) (v : json) :
  find_in_flat flat key_lower = Some v ->
  exists k, In (k, v) flat /\ py_in key_lower (lower k) = true /\ usable v = true.
Proof.
  induction flat as [|[k w] flat IH]; simpl; [discriminate|].
  destruct (py_in key_lower (lower k) && usable w) eqn:E.
  - intros H. injection H as <-. apply andb_true_iff in E as [E1 E2].
    exists k. auto.
  - intros H. destruct (IH H) as (k' & Hin & H1 & H2). exists k'. auto.
Qed.

Lemma find_in_flat_none (flat : list (string * json)) (key_lower : string) :
  find_in_flat flat key_lower = None ->
  forall k v, In (k, v) flat -> py_in key_lower (lower k) = true -> usable v = false.
Proof.
  induction flat as [|[k w] flat IH]; simpl; [tauto|].
  destruct (py_in key_lower (lower k) && usable w) eqn:E; [discriminate|].
  intros H k' v [Hin|Hin] Hp.
  - injection Hin as <- <-. rewrite Hp in E. exact E.
  - now apply (IH H k' v).
Qed.

(** X16: what [find_value] returns is a usable value (not null, "" or
    "N/A") stored under a key that contains one of the aliases, letter case
    ignored; or it is the default, and then no key that contains an alias
    holds a usable value. *)
Theorem find_value_found_or_default (flat : list (string * json))
        (keys : list string) (default : json) :
  let found := find_value flat keys default in
  (exists key k, In key keys /\ In (k, found) flat
                 /\ answers_to key k = true /\ usable found = true)
  \/ (found = default
      /\ forall key k v, In key keys -> In (k, v) flat ->
                         answers_to key k = true -> usable v = false).
Proof.
  cbv zeta. unfold answers_to. induction keys as [|key keys IH]; simpl.
  - right. split; [reflexivity|]. intros key k v [].
  - destruct (find_in_flat flat (lower key)) as [v|] eqn:E.
    + left. apply find_in_flat_some in E as (k & Hin & H1 & H2).
      exists key, k. auto.
    + destruct IH as [(key' & k & Hk & Hin & H1 & H2)|[Hd Hall]].
      * left. exists key', k. auto.
      * right. split; [assumption|]. intros key' k v [<-|Hk] Hin Hp.
        -- now apply (find_in_flat_none flat (lower key) E k v).
        -- now apply (Hall key' k v).
Qed.

End FlatFacts.


(** ** What the W-2 viewer finds in the normalised structure *)
Module ViewerFacts.
Import PyStr Json Normalize Viewer ViewerReading.

Ltac written_box :=
  match goal with
  | H : W2.box _ _ _ = W2.box _ _ _ |- _ =>
      unfold W2.box in H; injection H as <- <- <-; reflexivity
  | H : _ \/ _ |- _ => destruct H as [H | H]; written_box
  | H : False |- _ => destruct H
  end.

Lemma scan_item_other (code c : string) (label value : json) :
  c <> code -> scan_item code (W2.box c label value) = Continues.
Proof.
  intros H. cbn. apply String.eqb_neq in H. now rewrite H.
Qed.

Lemma scan_boxes_missing (code : string) (plane : list json) :
  Forall (fun b => exists c label value, b = W2.box c label value /\ c <> code)
         plane ->
  for_each plane (scan_item code) = Continues.
Proof.
  induction 1 as [|b plane (c & l & v & -> & Hc) _ IH]; [reflexivity|].
  cbn [for_each]. now rewrite scan_item_other, IH.
Qed.

Lemma get_box_value_of_planes (P1 P2 P3 P4 P5 : list json) (code : string) :
  let boxes :=
    JArr [ JObj [("identification_plane", JArr P1)];
           JObj [("federal_tax_plane", JArr P2)];
           JObj [("boxes", JArr [ JObj [("supplemental_plane", JArr P3)] ])];
           JObj [("state_local_plane", JArr P4)];
           JObj [("additional_data_plane", JArr P5)] ] in
  get_box_value boxes "identification_plane" code = finish (for_each P1 (scan_item code))
  /\ get_box_value boxes "federal_tax_plane" code = finish (for_each P2 (scan_item code))
  /\ get_box_value boxes "supplemental_plane" code = finish (for_each P3 (scan_item code))
  /\ get_box_value boxes "state_local_plane" code = finish (for_each P4 (scan_item code))
  /\ get_box_value boxes "additional_data_plane" code = finish (for_each P5 (scan_item code)).
Proof.
  cbv zeta. unfold get_box_value. cbn -[scan_item].
  repeat split.
  - now destruct (for_each P1 (scan_item code)).
  - now destruct (for_each P2 (scan_item code)).
  - now destruct (for_each P3 (scan_item code)).
  - now destruct (for_each P4 (scan_item code)).
  - now destruct (for_each P5 (scan_item code)).
Qed.

Ltac other_codes Hb :=
  repeat (constructor;
          [ eexists; eexists; eexists; split; [reflexivity|];
            intros <-; eapply Hb; simpl;
            repeat (first [left; reflexivity | right]) |]);
  constructor.

(** X17: the viewer finds what the W-2 transformer wrote: in the boxes of
    the one form of the normalised structure, [get_box_value] returns for
    every box of every plane, the nested supplemental plane included, the
    value and the label written for its code, without an exception; and for
    a code that a plane does not hold it returns (None, ""). *)
Theorem viewer_finds_written_boxes (py_str : json -> string)
        (flat : list (string * json)) :
  let boxes := w2_boxes py_str flat in
  (exists form,
     forms_of (W2.w2_structure py_str flat) = Some [form]
     /\ boxes_of form = Some boxes)
    /\ (forall plane_name plane code label value,
          In (plane_name, plane) (w2_planes py_str flat) ->
          In (W2.box code label value) plane ->
          get_box_value boxes plane_name code = Some (value, label))
    /\ (forall plane_name plane code,
          In (plane_name, plane) (w2_planes py_str flat) ->
          (forall label value, ~ In (W2.box code label value) plane) ->
          get_box_value boxes plane_name code = Some (JNull, JStr "")).
Proof.
  cbv zeta. split; [eexists; split; reflexivity|]. split.
  - intros plane_name plane code label value Hp Hb.
    simpl in Hp.
    destruct Hp as [Hp|[Hp|[Hp|[Hp|[Hp|[]]]]]]; injection Hp as <- <-;
      simpl in Hb; written_box.
  - intros plane_name plane code Hp Hb.
    destruct (get_box_value_of_planes
                (W2.identification_plane py_str flat) (W2.federal_tax_plane flat)
                (W2.supplemental_plane flat) (W2.state_local_plane py_str flat)
                (W2.additional_data_plane flat) code)
      as (G1 & G2 & G3 & G4 & G5).
    unfold w2_boxes. simpl in Hp.
    destruct Hp as [Hp|[Hp|[Hp|[Hp|[Hp|[]]]]]]; injection Hp as <- <-.
    + rewrite G1, scan_boxes_missing; [reflexivity|]. other_codes Hb.
    + rewrite G2, scan_boxes_missing; [reflexivity|]. other_codes Hb.
    + rewrite G3, scan_boxes_missing; [reflexivity|]. other_codes Hb.
    + rewrite G4, scan_boxes_missing; [reflexivity|]. other_codes Hb.
    + rewrite G5, scan_boxes_missing; [reflexivity|]. other_codes Hb.
Qed.

End ViewerFacts.


(** ** Digital or scanned, and the form type of an image *)
Module DetectorFacts.
Import PyStr Digital FormDetector DetectorReading.

Lemma count_text_total (len : string -> nat) (pages : list string) (n : nat) :
  (n <= 100)%nat ->
  count_text len n pages
  = (100 <? n + total (map (fun t => len (strip t)) pages))%nat.
Proof.
  revert n. induction pages as [|t pages IH]; intros n Hn.
  - simpl. rewrite Nat.add_0_r. symmetry. apply Nat.ltb_ge. exact Hn.
  - cbn [count_text map total fold_right]. fold (total (map (fun t => len (strip t)) pages)).
    destruct (Nat.ltb_spec 100 (n + len (strip t))) as [H|H].
    + symmetry. apply Nat.ltb_lt. lia.
    + rewrite IH by exact H. now rewrite Nat.add_assoc.
Qed.

(** X18: a PDF counts as digital exactly when the texts of its pages, each
    with the whitespace at its ends removed, hold more than 100 characters
    in total; stopping at the first page where the count passes 100 changes
    nothing, pages of whitespace count nothing, and a document that cannot
    be read counts as scanned. *)
Theorem digital_iff_over_100 (len : string -> nat) (pages : list string) :
  is_digital_pdf len (Some pages)
  = (100 <? total (map (fun text => len (strip text)) pages))%nat
  /\ is_digital_pdf len None = false.
Proof.
  split; [|reflexivity]. unfold is_digital_pdf.
  now rewrite count_text_total by lia.
Qed.

Lemma detect_by_text_w2 (text_upper : string) :
  py_in "W2" text_upper = true \/ py_in "W-2" text_upper = true ->
  detect_by_text SUPPORTED_FORMS text_upper = Some "W-2".
Proof.
  intros H. cbn [SUPPORTED_FORMS detect_by_text existsb].
  change (upper "W-2") with "W-2". change (upper "W2") with "W2".
  destruct H as [H|H]; rewrite H; [now rewrite orb_true_r | reflexivity].
Qed.

(** X19: the form type read off the image text follows the order of
    [SUPPORTED_FORMS]: a text that holds "W2" or "W-2", in any letter case,
    is a W-2 whatever else it holds; a text that holds "1065" is never
    taken for a K-3, an 8805 or an 8804, nor left unknown, whatever the
    file name; and with no text the file name decides, and it never gives
    1099-R, 1099-K, 1098 or K-3. *)
Theorem detect_follows_table_order (text filename : string) :
  (py_in "W2" (upper text) = true \/ py_in "W-2" (upper text) = true ->
   detect text filename = "W-2")
  /\ (py_in "1065" (upper text) = true ->
      In (detect text filename)
         ["W-2"; "1099-INT"; "1099-NEC"; "1099-MISC"; "1099-R"; "1099-K";
          "1098"; "K-1"])
  /\ In (detect "" filename)
        ["W-2"; "1099-INT"; "1099-NEC"; "1099-MISC"; "K-1"; "8805"; "8804";
         "UNKNOWN"].
Proof.
  split; [|split].
  - intros H. unfold detect. cbv zeta. now rewrite detect_by_text_w2.
  - intros H. unfold detect. cbv zeta.
    cbn [SUPPORTED_FORMS detect_by_text].
    do 7 match goal with
         | |- context [if existsb ?f ?l then _ else _] =>
             destruct (existsb f l);
             [simpl; repeat (first [left; reflexivity | right]) |]
         end.
    cbn [existsb]. change (upper "1065") with "1065". rewrite H.
    rewrite !orb_true_r. simpl. repeat (first [left; reflexivity | right]).
  - unfold detect. cbv zeta. change (upper "") with "".
    change (detect_by_text SUPPORTED_FORMS "") with (@None string).
    unfold detect_by_filename.
    repeat match goal with
           | |- context [if ?b then _ else _] =>
               destruct b;
               [simpl; repeat (first [left; reflexivity | right]) |]
           end.
    simpl. repeat (first [left; reflexivity | right]).
Qed.

End DetectorFacts.


(** ** The K-1 consolidation and pipeline *)
Module K1BatchFacts.
Import PyStr Classifier Detect Json Reading Pipeline PipelineReading MoreReading.
Import K1Batch K1BatchReading DetectFacts PipelineFacts.

Lemma dict_get_set_same {A : Type} (d : list (string * A)) (k : string) (v : A) :
  dict_get (dict_set d k v) k = Some v.
Proof.
  induction d as [|[k0 w] d IH]; simpl.
  - now rewrite String.eqb_refl.
  - destruct (String.eqb k0 k) eqn:E; simpl; rewrite E; [reflexivity | exact IH].
Qed.

Lemma dict_get_set_other {A : Type} (d : list (string * A)) (k k' : string) (v : A) :
  k' <> k -> dict_get (dict_set d k v) k' = dict_get d k'.
Proof.
  intros H. induction d as [|[k0 w] d IH]; simpl.
  - destruct (String.eqb_spec k k'); [congruence | reflexivity].
  - destruct (String.eqb_spec k0 k) as [->|Hne]; simpl.
    + destruct (String.eqb_spec k k'); [congruence | reflexivity].
    + now rewrite IH.
Qed.

Lemma dict_set_other_keys {A : Type} (d : list (string * A)) (k : string) (v : A) :
  filter (fun x => negb (String.eqb x k)) (map fst (dict_set d k v))
  = filter (fun x => negb (String.eqb x k)) (map fst d).
Proof.
  induction d as [|[k0 w] d IH]; simpl.
  - now rewrite String.eqb_refl.
  - destruct (String.eqb k0 k) eqn:E; simpl; rewrite E; simpl;
      [reflexivity | now rewrite IH].
Qed.

Lemma tagged_dict_set (page_num : Z) (fields : list (string * json)) :
  tagged page_num fields
         (JObj (dict_set fields "page_reference" (page_ref page_num))).
Proof.
  eexists. split; [reflexivity|]. split; [apply dict_get_set_same|].
  split; [intros k Hk; now apply dict_get_set_other | apply dict_set_other_keys].
Qed.

Lemma tag_records_tagged (page_num : Z) (l : list json) :
  Forall2 (fun origin r => tagged (fst origin) (snd origin) r)
          (map (pair page_num) (leading_dicts l)) (tag_records page_num l).
Proof.
  induction l as [|x l IH]; [constructor|].
  destruct x; try constructor; [apply tagged_dict_set | exact IH].
Qed.

(** What one page adds to the records. *)
Lemma page_adds (st : state) (page : Z * option json) :
  exists added,
    all_partner_records (extract_page st page) = all_partner_records st ++ added
    /\ Forall2 (fun origin r => tagged (fst origin) (snd origin) r)
               (map (pair (fst page)) (offered page)) added.
Proof.
  destruct page as [n [result|]]; unfold extract_page, offered; cbn [fst snd].
  2:{ exists []. rewrite app_nil_r. split; [reflexivity | constructor]. }
  destruct (data_of result) as [[| | | | |data]|];
    try (exists []; rewrite app_nil_r; split; [reflexivity | constructor]).
  eexists. split; [reflexivity|]. unfold page_records.
  destruct (dict_get data "partner_records") as [[| | | |l|]|];
    try constructor.
  - apply tag_records_tagged.
  - destruct (has_key data "part_i_partnership_plane"
              || has_key data "part_ii_partner_plane"
              || has_key data "part_iii_income_loss_plane");
      [apply (tag_records_tagged n [JObj data]) | constructor].
Qed.

Lemma pages_add (pages : list (Z * option json)) (st : state) :
  exists added,
    all_partner_records (fold_left extract_page pages st)
    = all_partner_records st ++ added
    /\ Forall2 (fun origin r => tagged (fst origin) (snd origin) r)
               (flat_map (fun page => map (pair (fst page)) (offered page)) pages)
               added.
Proof.
  revert st. induction pages as [|page pages IH]; intros st.
  - exists []. rewrite app_nil_r. split; [reflexivity | constructor].
  - cbn [fold_left flat_map].
    destruct (page_adds st page) as (a1 & E1 & F1).
    destruct (IH (extract_page st page)) as (a2 & E2 & F2).
    exists (a1 ++ a2). rewrite E2, E1, <- app_assoc. split; [reflexivity|].
    now apply Forall2_app.
Qed.

Lemma k1_metadata_first (pages : list (Z * option json)) (st : state) :
  st_document_metadata (fold_left extract_page pages st)
  = match st_document_metadata st with
    | Some m => Some m
    | None => first_some offered_metadata pages
    end.
Proof.
  revert st. induction pages as [|[n outcome] pages IH]; intros st.
  - simpl. now destruct (st_document_metadata st).
  - cbn [fold_left]. rewrite IH. unfold extract_page, offered_metadata.
    cbn [snd first_some].
    destruct outcome as [result|]; [|reflexivity].
    destruct (data_of result) as [[| | | | |data]|]; try reflexivity.
    cbn [st_document_metadata].
    destruct (st_document_metadata st); [reflexivity|].
    now destruct (page_metadata data).
Qed.

(** X20: the K-1 consolidation returns, in page order, exactly the dicts
    that the pages' answers offer as partner records (the dicts at the head
    of a "partner_records" list, or an answer that holds a plane itself),
    each with its "page_reference" set to the number of its page, whatever
    the answer said there, and its other keys untouched; a page whose
    extraction raised, answered with an error or offered no dict adds
    nothing; and the document metadata are those of the first page that
    offers some that are not null, else the defaults. *)
Theorem k1_records_carry_their_page (page_images : list (Z * option json)) :
  let result := K1Batch.batch_extract page_images in
  Forall2 (fun origin r => tagged (fst origin) (snd origin) r)
          (flat_map (fun page => map (pair (fst page)) (offered page)) page_images)
          (K1Batch.partner_records result)
  /\ K1Batch.document_metadata result
     = match first_some offered_metadata page_images with
       | Some m => m
       | None => K1Batch.default_metadata
       end.
Proof.
  cbv zeta. unfold K1Batch.batch_extract.
  cbn [K1Batch.partner_records K1Batch.document_metadata].
  split.
  - destruct (pages_add page_images (mkState [] None)) as (added & E & F).
    rewrite E. exact F.
  - rewrite k1_metadata_first. cbn [st_document_metadata].
    now destruct (first_some offered_metadata page_images).
Qed.



End K1BatchFacts.


(** ** The final K-1 structure *)
Module K1TransformFacts.
Import PyStr Json PyFloat Normalize Viewer K1Transform K1TransformReading.
Import FenceFacts.

Lemma free_of_app (c : ascii) (a b : string) :
  free_of c (a ++ b) = free_of c a && free_of c b.
Proof.
  induction a as [|x a IH]; [reflexivity|].
  cbn [append free_of]. now rewrite IH, andb_assoc.
Qed.

Lemma free_of_replace (c : ascii) (r s : string) :
  free_of c r = true -> free_of c (replace_char c r s) = true.
Proof.
  intros Hr. induction s as [|a s IH]; [reflexivity|].
  cbn [replace_char]. destruct (Ascii.eqb a c) eqn:E.
  - now rewrite free_of_app, Hr, IH.
  - cbn [free_of]. now rewrite E, IH.
Qed.

Lemma free_of_remove (c c' : ascii) (s : string) :
  free_of c s = true -> free_of c (replace_char c' "" s) = true.
Proof.
  induction s as [|a s IH]; [reflexivity|].
  cbn [replace_char free_of]. intros H. apply andb_true_iff in H as [H1 H2].
  destruct (Ascii.eqb a c'); cbn [append free_of]; [now apply IH|].
  now rewrite H1, IH.
Qed.

Lemma free_of_lstrip (c : ascii) (s : string) :
  free_of c s = true -> free_of c (lstrip s) = true.
Proof.
  induction s as [|a s IH]; [reflexivity|].
  cbn [lstrip]. intros H. destruct (is_space a); [|exact H].
  cbn [free_of] in H. apply andb_true_iff in H as [_ H]. now apply IH.
Qed.

Lemma free_of_rstrip (c : ascii) (s : string) :
  free_of c s = true -> free_of c (rstrip s) = true.
Proof.
  induction s as [|a s IH]; [reflexivity|].
  cbn [rstrip free_of]. intros H. apply andb_true_iff in H as [H1 H2].
  specialize (IH H2). destruct (rstrip s) as [|b t].
  - destruct (is_space a); [reflexivity|]. cbn [free_of]. now rewrite H1.
  - cbn [free_of] in *. now rewrite H1, IH.
Qed.

Lemma replace_free (c : ascii) (r s : string) :
  free_of c s = true -> replace_char c r s = s.
Proof.
  induction s as [|a s IH]; [reflexivity|].
  cbn [free_of replace_char]. intros H. apply andb_true_iff in H as [H1 H2].
  apply negb_true_iff in H1. now rewrite H1, IH.
Qed.

(** Cleaning a cleaned text changes nothing. *)
Lemma clean_text_twice (s : string) : clean_text (clean_text s) = clean_text s.
Proof.
  unfold clean_text.
  set (t := replace_char carriage_return "" (replace_char line_feed ", " s)).
  assert (Hl : free_of line_feed t = true).
  { apply free_of_remove. now apply free_of_replace. }
  assert (Hc : free_of carriage_return t = true).
  { now apply free_of_replace. }
  assert (Hl' : free_of line_feed (strip t) = true).
  { unfold strip. now apply free_of_rstrip, free_of_lstrip. }
  assert (Hc' : free_of carriage_return (strip t) = true).
  { unfold strip. now apply free_of_rstrip, free_of_lstrip. }
  rewrite (replace_free line_feed _ _ Hl'), (replace_free carriage_return _ _ Hc').
  apply strip_twice.
Qed.

Lemma distinct_nodup (l : list string) : distinct l = true -> NoDup l.
Proof.
  induction l as [|x l IH]; [constructor|].
  cbn [distinct]. intros H. apply andb_true_iff in H as [H1 H2].
  constructor; [|now apply IH]. intros Hin.
  apply negb_true_iff in H1.
  assert (existsb (String.eqb x) l = true) as E
      by (apply existsb_exists; exists x; split; [assumption | apply String.eqb_refl]).
  congruence.
Qed.

Section WithStr.
Variable py_str : json -> string.
(** [str] of a value that is no string has no line break in it and no
    whitespace at its ends. *)
Hypothesis py_str_clean : forall v, clean_text (py_str v) = py_str v.

Lemma clean_string_twice (v : json) :
  clean_string py_str (JStr (clean_string py_str v)) = clean_string py_str v.
Proof.
  cbn [clean_string]. destruct v; cbn [clean_string];
    try apply py_str_clean; [reflexivity | apply clean_text_twice].
Qed.

Lemma clean_twice (k : cleaner) (v : json) :
  clean py_str k (clean py_str k v) = clean py_str k v.
Proof.
  destruct k; cbn [clean].
  - now rewrite clean_string_twice.
  - reflexivity.
  - reflexivity.
  - now destruct v.
Qed.

End WithStr.

Section Planes.
Variable py_str : json -> string.

Lemma clean_has_kind (k : cleaner) (v : json) : has_kind k (clean py_str k v).
Proof.
  destruct k; cbn [clean has_kind]; try (eexists; reflexivity).
  destruct v; eexists; reflexivity.
Qed.

(** What a plane is built of. *)
Lemma build_plane_cells (rows : list row) (part : json) (boxes : list json) :
  build_plane py_str rows part = Some boxes ->
  exists values,
    List.length values = List.length rows
    /\ boxes = boxes_of py_str (combine rows values).
Proof.
  revert boxes. induction rows as [|[[c l] k] rows IH]; intros boxes; cbn [build_plane].
  - intros H. injection H as <-. now exists [].
  - destruct (get_plane_value part c) as [v|]; [|discriminate].
    destruct (build_plane py_str rows part) as [bs|]; [|discriminate].
    intros H. injection H as <-. destruct (IH bs eq_refl) as (vs & Hl & ->).
    exists (v :: vs). split; [simpl; now rewrite Hl | reflexivity].
Qed.

Lemma boxes_of_plane (rows : list row) (values : list json) :
  List.length values = List.length rows ->
  Forall2 box_of rows (boxes_of py_str (combine rows values)).
Proof.
  revert values. induction rows as [|[[c l] k] rows IH]; intros [|v vs] H;
    try discriminate; [constructor|].
  cbn [combine boxes_of map]. constructor.
  - exists (clean py_str k v). split; [reflexivity | apply clean_has_kind].
  - apply IH. now injection H.
Qed.

Lemma look_box (code c l : string) (v : json) :
  look code (box c l v) = if String.eqb c code then Returns v else Continues.
Proof. cbn. now destruct (String.eqb c code). Qed.

Lemma look_cells (cells : list (row * json)) (c l : string) (k : cleaner) (v : json) :
  NoDup (map (fun cell => code_of (fst cell)) cells) ->
  In ((c, l, k), v) cells ->
  for_each (boxes_of py_str cells) (look c) = Returns (clean py_str k v).
Proof.
  induction cells as [|[[[c' l'] k'] v'] cells IH]; intros N Hin; [destruct Hin|].
  cbn [boxes_of map for_each]. rewrite look_box.
  cbn [map fst code_of] in N. inversion N as [|? ? Hn N']; subst.
  destruct Hin as [E|Hin].
  - injection E as -> -> -> ->. now rewrite String.eqb_refl.
  - destruct (String.eqb_spec c' c) as [->|Hne].
    + exfalso. apply Hn. apply in_map_iff. exists ((c, l, k), v). auto.
    + apply IH; assumption.
Qed.

Lemma get_plane_value_cells (cells : list (row * json)) (c l : string)
      (k : cleaner) (v : json) :
  NoDup (map (fun cell => code_of (fst cell)) cells) ->
  In ((c, l, k), v) cells ->
  get_plane_value (JArr (boxes_of py_str cells)) c = Some (clean py_str k v).
Proof.
  intros N Hin. unfold get_plane_value.
  replace (truthy (JArr (boxes_of py_str cells))) with true
    by (destruct cells; [destruct Hin | reflexivity]).
  cbn [negb py_iter]. fold (look c).
  now rewrite (look_cells cells c l k v N Hin).
Qed.

Hypothesis py_str_clean : forall v, clean_text (py_str v) = py_str v.

Lemma rebuild_cells (cells some : list (row * json)) :
  NoDup (map (fun cell => code_of (fst cell)) cells) ->
  incl some cells ->
  build_plane py_str (map fst some) (JArr (boxes_of py_str cells))
  = Some (boxes_of py_str some).
Proof.
  intros N. induction some as [|[[[c l] k] v] some IH]; intros Hin; [reflexivity|].
  cbn [map fst build_plane].
  rewrite (get_plane_value_cells cells c l k v N) by (apply Hin; now left).
  rewrite IH by (intros x Hx; apply Hin; now right).
  cbn [boxes_of map]. now rewrite clean_twice.
Qed.

Lemma map_fst_combine {A B : Type} (l : list A) (l' : list B) :
  List.length l' = List.length l -> map fst (combine l l') = l.
Proof.
  revert l'. induction l as [|a l IH]; intros [|b l'] H; try discriminate;
    [reflexivity|].
  simpl. f_equal. apply IH. now injection H.
Qed.

(** A plane built once is built again as it is. *)
Lemma build_plane_twice (rows : list row) (part : json) (boxes : list json) :
  distinct (map code_of rows) = true ->
  build_plane py_str rows part = Some boxes ->
  build_plane py_str rows (JArr boxes) = Some boxes.
Proof.
  intros D H. destruct (build_plane_cells rows part boxes H) as (vs & Hl & ->).
  pose proof (map_fst_combine rows vs Hl) as E.
  rewrite <- E at 1. apply rebuild_cells; [|apply incl_refl].
  rewrite <- map_map, E. now apply distinct_nodup.
Qed.

Lemma cleaned_partner_shape (idx : nat) (partner cleaned : json) :
  cleaned_partner py_str idx partner = Some cleaned ->
  exists name page_reference part_i part_ii part_iii plane_i plane_ii plane_iii,
    cleaned = JObj [ ("partner_name", JStr (clean_string py_str name));
                     ("page_reference", page_reference);
                     ("part_i_partnership_plane", JArr plane_i);
                     ("part_ii_partner_plane", JArr plane_ii);
                     ("part_iii_income_loss_plane", JArr plane_iii) ]
    /\ build_plane py_str part_i_rows part_i = Some plane_i
    /\ build_plane py_str part_ii_rows part_ii = Some plane_ii
    /\ build_plane py_str part_iii_rows part_iii = Some plane_iii.
Proof.
  unfold cleaned_partner.
  destruct (py_get partner "part_i_partnership_plane" (JArr [])) as [p1|]; [|discriminate].
  destruct (py_get partner "part_ii_partner_plane" (JArr [])) as [p2|]; [|discriminate].
  destruct (py_get partner "part_iii_income_loss_plane" (JArr [])) as [p3|]; [|discriminate].
  destruct (py_get partner "partner_name" (JStr "")) as [n|]; [|discriminate].
  destruct (py_get partner "page_reference" _) as [r|]; [|discriminate].
  destruct (build_plane py_str part_i_rows p1) as [b1|] eqn:E1; [|discriminate].
  destruct (build_plane py_str part_ii_rows p2) as [b2|] eqn:E2; [|discriminate].
  destruct (build_plane py_str part_iii_rows p3) as [b3|] eqn:E3; [|discriminate].
  intros H. injection H as <-.
  exists n, r, p1, p2, p3, b1, b2, b3. auto.
Qed.

Lemma cleaned_partner_twice (idx idx' : nat) (partner cleaned : json) :
  cleaned_partner py_str idx partner = Some cleaned ->
  cleaned_partner py_str idx' cleaned = Some cleaned.
Proof.
  intros H.
  destruct (cleaned_partner_shape idx partner cleaned H)
    as (n & r & p1 & p2 & p3 & b1 & b2 & b3 & -> & E1 & E2 & E3).
  unfold cleaned_partner. cbn [py_get dict_get String.eqb Ascii.eqb Bool.eqb].
  rewrite (build_plane_twice part_i_rows p1 b1 eq_refl E1).
  rewrite (build_plane_twice part_ii_rows p2 b2 eq_refl E2).
  rewrite (build_plane_twice part_iii_rows p3 b3 eq_refl E3).
  now rewrite clean_string_twice.
Qed.

Lemma cleaned_partners_twice (partners cleaned : list json) (idx idx' : nat) :
  cleaned_partners py_str idx partners = Some cleaned ->
  cleaned_partners py_str idx' cleaned = Some cleaned
  /\ List.length cleaned = List.length partners.
Proof.
  revert cleaned idx idx'. induction partners as [|p ps IH]; intros cleaned idx idx';
    cbn [cleaned_partners].
  - intros H. injection H as <-. now split.
  - destruct (cleaned_partner py_str idx p) as [q|] eqn:E; [|discriminate].
    destruct (cleaned_partners py_str (S idx) ps) as [qs|] eqn:Es; [|discriminate].
    intros H. injection H as <-. cbn [cleaned_partners].
    rewrite (cleaned_partner_twice idx idx' p q E).
    destruct (IH qs (S idx) (S idx') Es) as [-> Hl].
    split; [reflexivity | simpl; now rewrite Hl].
Qed.

Lemma cleaned_metadata_twice (m m' : json) :
  cleaned_metadata py_str m = Some m' -> cleaned_metadata py_str m' = Some m'.
Proof.
  unfold cleaned_metadata.
  destruct (py_get m "form_type" _) as [f|]; [|discriminate].
  destruct (py_get m "tax_year" _) as [t|]; [|discriminate].
  destruct (py_get m "partnership_name" _) as [n|]; [|discriminate].
  destruct (py_get m "partnership_ein" _) as [e|]; [|discriminate].
  intros H. injection H as <-.
  cbn [py_get dict_get String.eqb Ascii.eqb Bool.eqb str].
  now rewrite !clean_string_twice.
Qed.

(** The records the first path walks over are not empty. *)
Lemma partners_not_empty (partner_records : json) (partners : list json) :
  truthy partner_records = true ->
  py_iter partner_records = Some partners ->
  partners <> [].
Proof.
  destruct partner_records as [| | |s|items|fields]; cbn [truthy py_iter];
    try discriminate; intros T H; injection H as <-.
  - destruct s; [discriminate T | discriminate].
  - destruct items; [discriminate T | discriminate].
  - destruct fields; [discriminate T | discriminate].
Qed.

End Planes.

Section Final.
Variable py_str : json -> string.

Lemma cleaned_partners_final (partners cleaned : list json) (idx : nat) :
  cleaned_partners py_str idx partners = Some cleaned ->
  Forall final_partner cleaned.
Proof.
  revert cleaned idx. induction partners as [|p ps IH]; intros cleaned idx;
    cbn [cleaned_partners].
  - intros H. injection H as <-. constructor.
  - destruct (cleaned_partner py_str idx p) as [q|] eqn:E; [|discriminate].
    destruct (cleaned_partners py_str (S idx) ps) as [qs|] eqn:Es; [|discriminate].
    intros H. injection H as <-. constructor; [|now apply (IH qs (S idx))].
    destruct (cleaned_partner_shape py_str idx p q E)
      as (n & r & p1 & p2 & p3 & b1 & b2 & b3 & -> & E1 & E2 & E3).
    exists (clean_string py_str n), r, (JArr b1), (JArr b2), (JArr b3).
    split; [reflexivity|].
    destruct (build_plane_cells py_str _ _ _ E1) as (v1 & L1 & ->).
    destruct (build_plane_cells py_str _ _ _ E2) as (v2 & L2 & ->).
    destruct (build_plane_cells py_str _ _ _ E3) as (v3 & L3 & ->).
    split; [|split]; eexists; (split; [reflexivity|]);
      now apply boxes_of_plane.
Qed.

(** The records of an answer that the first path transforms are a list. *)
Lemma transformed_records_are_a_list (partner_records : json)
      (partners cleaned : list json) :
  truthy partner_records = true ->
  py_iter partner_records = Some partners ->
  cleaned_partners py_str 0 partners = Some cleaned ->
  partner_records = JArr partners.
Proof.
  destruct partner_records as [| | |s|items|fields]; cbn [truthy py_iter];
    try discriminate; intros T H; injection H as <-.
  - destruct s; [discriminate T|]. discriminate.
  - reflexivity.
  - destruct fields; [discriminate T|]. discriminate.
Qed.

(** What the first path returns. *)
Lemma first_path_result (raw_data out : json) :
  in_new_structure raw_data = true ->
  transform_to_k1_structure py_str raw_data = Some out ->
  exists records metadata partners,
    partner_records_of (unwrap raw_data) = JArr records
    /\ records <> []
    /\ cleaned_partners py_str 0 records = Some partners
    /\ cleaned_metadata py_str (doc_metadata_of (unwrap raw_data)) = Some metadata
    /\ out = JArr [JObj [ ("document_metadata", metadata);
                          ("partner_records", JArr partners) ]].
Proof.
  unfold in_new_structure, transform_to_k1_structure. cbv zeta.
  intros H. apply andb_true_iff in H as [H T2]. apply andb_true_iff in H as [He T1].
  apply negb_true_iff in He. rewrite He, T1, T2. cbn [andb].
  unfold clean_and_pass_through.
  destruct (py_iter (partner_records_of (unwrap raw_data))) as [ps|] eqn:Ei;
    [|discriminate].
  destruct (cleaned_partners py_str 0 ps) as [qs|] eqn:Ec; [|discriminate].
  destruct (cleaned_metadata py_str _) as [m|] eqn:Em; [|discriminate].
  intros E. injection E as <-.
  exists ps, m, qs.
  split; [now apply (transformed_records_are_a_list _ ps qs)|].
  split; [now apply (partners_not_empty _ ps T2 Ei)|]. auto.
Qed.

Lemma cleaned_metadata_final (m m' : json) :
  cleaned_metadata py_str m = Some m' -> final_metadata m'.
Proof.
  unfold cleaned_metadata.
  destruct (py_get m "form_type" _) as [f|]; [|discriminate].
  destruct (py_get m "tax_year" _) as [t|]; [|discriminate].
  destruct (py_get m "partnership_name" _) as [n|]; [|discriminate].
  destruct (py_get m "partnership_ein" _) as [e|]; [|discriminate].
  intros H. injection H as <-. repeat eexists.
Qed.

End Final.

(** X22: an answer in the new structure that the K-1 transformer accepts
    comes out in one fixed shape, whatever it holds: metadata of four keys
    with text for year, name and EIN, and one partner record per record of
    the answer, none dropped, each with its name as text, its page reference
    and the three planes with the 4, 20 and 29 boxes of the form, every box
    with its code and label and a value of its kind: text, true or false,
    a number, or a list. *)
Theorem k1_new_structure_shape (py_str : json -> string) (raw_data out : json) :
  in_new_structure raw_data = true ->
  transform_to_k1_structure py_str raw_data = Some out ->
  exists records metadata partners,
    partner_records_of (unwrap raw_data) = JArr records
    /\ out = JArr [JObj [ ("document_metadata", metadata);
                          ("partner_records", JArr partners) ]]
    /\ final_metadata metadata
    /\ List.length partners = List.length records
    /\ partners <> []
    /\ Forall final_partner partners.
Proof.
  intros Hn H.
  destruct (first_path_result py_str raw_data out Hn H)
    as (records & m & qs & Er & Hne & Ec & Em & ->).
  exists records, m, qs.
  split; [exact Er|]. split; [reflexivity|].
  split; [exact (cleaned_metadata_final py_str _ m Em)|].
  assert (L : List.length qs = List.length records).
  { clear -Ec. revert qs Ec. generalize 0%nat.
    induction records as [|p ps IH]; intros idx qs; cbn [cleaned_partners].
    - intros E. now injection E as <-.
    - destruct (cleaned_partner py_str idx p); [|discriminate].
      destruct (cleaned_partners py_str (S idx) ps) as [qs'|] eqn:E'; [|discriminate].
      intros E. injection E as <-. simpl. f_equal. now apply (IH (S idx)). }
  split; [exact L|].
  split; [destruct qs; [destruct records; [congruence | discriminate L] | discriminate]|].
  now apply (cleaned_partners_final py_str records qs 0).
Qed.

(** X23: the K-1 transformer leaves its own result alone: what it returns
    for an answer in the new structure is again in the new structure, and
    transforming it once more returns it unchanged, as long as [str] of a
    value that is no string holds no line break and no whitespace at its
    ends. *)
Theorem k1_transform_twice (py_str : json -> string) (raw_data out : json) :
  (forall v, clean_text (py_str v) = py_str v) ->
  in_new_structure raw_data = true ->
  transform_to_k1_structure py_str raw_data = Some out ->
  in_new_structure out = true
  /\ transform_to_k1_structure py_str out = Some out.
Proof.
  intros Hs Hn H.
  destruct (first_path_result py_str raw_data out Hn H)
    as (records & m & qs & Er & Hne & Ec & Em & ->).
  destruct (cleaned_partners_twice py_str Hs records qs 0 0 Ec) as [Ec' Hl].
  pose proof (cleaned_metadata_twice py_str Hs _ m Em) as Em'.
  destruct (cleaned_metadata_final py_str _ m Em) as (f & t & n & e & ->).
  assert (Hq : qs <> []).
  { destruct qs; [|discriminate]. destruct records; [congruence | discriminate Hl]. }
  assert (Hin : in_new_structure
                  (JArr [JObj [("document_metadata",
                                JObj [("form_type", f); ("tax_year", JStr t);
                                      ("partnership_name", JStr n);
                                      ("partnership_ein", JStr e)]);
                               ("partner_records", JArr qs)]]) = true).
  { unfold in_new_structure. cbn. destruct qs; [congruence | reflexivity]. }
  split; [exact Hin|].
  unfold transform_to_k1_structure. cbv zeta.
  unfold in_new_structure in Hin.
  apply andb_true_iff in Hin as [Hin T2]. apply andb_true_iff in Hin as [He T1].
  apply negb_true_iff in He. rewrite He, T1, T2. cbn [andb].
  unfold clean_and_pass_through.
  cbn [unwrap partner_records_of doc_metadata_of dict_get String.eqb Ascii.eqb
       Bool.eqb py_iter].
  now rewrite Ec', Em'.
Qed.

(** An answer with metadata and one empty partner record. *)
Lemma k1_transform_of_empty_partner :
  let raw_data :=
    JObj [ ("document_metadata", JObj [("tax_year", JStr "2023")]);
           ("partner_records", JArr [JObj []]) ] in
  exists out,
    transform_to_k1_structure Reading.any_str raw_data = Some out
    /\ in_new_structure out = true
    /\ transform_to_k1_structure Reading.any_str out = Some out.
Proof.
  cbv zeta. eexists. split; [reflexivity|].
  apply (k1_transform_twice Reading.any_str
           (JObj [ ("document_metadata", JObj [("tax_year", JStr "2023")]);
                   ("partner_records", JArr [JObj []]) ]));
    reflexivity.
Defined.

(** The shape of the same answer's result. *)
Lemma k1_shape_of_empty_partner :
  let raw_data :=
    JObj [ ("document_metadata", JObj [("tax_year", JStr "2023")]);
           ("partner_records", JArr [JObj []]) ] in
  exists out records metadata partners,
    transform_to_k1_structure Reading.any_str raw_data = Some out
    /\ partner_records_of (unwrap raw_data) = JArr records
    /\ out = JArr [JObj [ ("document_metadata", metadata);
                          ("partner_records", JArr partners) ]]
    /\ final_metadata metadata
    /\ List.length partners = List.length records
    /\ partners <> []
    /\ Forall final_partner partners.
Proof.
  cbv zeta. eexists.
  destruct (k1_new_structure_shape Reading.any_str
              (JObj [ ("document_metadata", JObj [("tax_year", JStr "2023")]);
                      ("partner_records", JArr [JObj []]) ])
              _ eq_refl eq_refl)
    as (records & metadata & partners & H).
  exists records, metadata, partners. split; [reflexivity | exact H].
Defined.

End K1TransformFacts.


(** ** Camel case *)
Module CamelFacts.
Import PyStr Json FormDetector FlatReading K1TransformReading Camel CamelReading.
Import NormalizeFacts K1TransformFacts.

Lemma split_parts_free (s : string) :
  Forall (fun p => free_of "_" p = true) (split_underscore s).
Proof.
  induction s as [|c s IH]; [repeat constructor|].
  cbn [split_underscore]. destruct (Ascii.eqb c "_") eqn:E.
  - constructor; [reflexivity | exact IH].
  - destruct (split_underscore s) as [|p ps].
    + constructor; [|constructor]. cbn [free_of]. now rewrite E.
    + inversion IH as [|? ? Hp Hps]; subst.
      constructor; [|assumption]. cbn [free_of]. now rewrite E, Hp.
Qed.

Lemma cased_is_no_underscore (c : ascii) (previous_is_cased : bool) :
  Ascii.eqb c "_" = false ->
  Ascii.eqb (if is_letter c
             then (if previous_is_cased then lower_ascii c else upper_ascii c)
             else c) "_" = false.
Proof.
  destruct previous_is_cased;
    destruct c as [[] [] [] [] [] [] [] []]; intros H;
    first [exact H | reflexivity].
Qed.

Lemma title_from_free (s : string) (previous_is_cased : bool) :
  free_of "_" s = true -> free_of "_" (title_from previous_is_cased s) = true.
Proof.
  revert previous_is_cased. induction s as [|c s IH]; intros b; [reflexivity|].
  cbn [free_of title_from]. intros H. apply andb_true_iff in H as [H1 H2].
  apply negb_true_iff in H1. pose proof (cased_is_no_underscore c b H1) as Hc.
  destruct (is_letter c); cbn [free_of]; rewrite Hc, IH by assumption; reflexivity.
Qed.

Lemma join_free (l : list string) :
  Forall (fun p => free_of "_" p = true) l -> free_of "_" (join l) = true.
Proof.
  induction 1 as [|p l Hp _ IH]; [reflexivity|].
  cbn [join fold_right]. fold (join l). now rewrite free_of_app, Hp, IH.
Qed.

Lemma to_camel_free (s : string) : free_of "_" (to_camel s) = true.
Proof.
  unfold to_camel. pose proof (split_parts_free s) as H.
  destruct (split_underscore s) as [|p ps]; [reflexivity|].
  inversion H as [|? ? Hp Hps]; subst.
  rewrite free_of_app, Hp. apply join_free.
  apply Forall_forall. intros x Hx. apply in_map_iff in Hx as (y & <- & Hy).
  unfold title. apply title_from_free. rewrite Forall_forall in Hps. now apply Hps.
Qed.

Lemma split_free (s : string) :
  free_of "_" s = true -> split_underscore s = [s].
Proof.
  induction s as [|c s IH]; [reflexivity|].
  cbn [free_of split_underscore]. intros H. apply andb_true_iff in H as [H1 H2].
  apply negb_true_iff in H1. now rewrite H1, IH.
Qed.

Lemma dict_set_pairs {A : Type} (P : string * A -> Prop) (d : list (string * A))
      (k : string) (v : A) :
  P (k, v) -> Forall P d -> Forall P (dict_set d k v).
Proof.
  intros Hv. induction 1 as [|[k0 w] d Hw Hd IH]; simpl.
  - now repeat constructor.
  - destruct (String.eqb_spec k0 k) as [->|]; constructor; assumption.
Qed.

Lemma dict_of_items_pairs {A : Type} (P : string * A -> Prop)
      (items : list (string * A)) :
  Forall P items -> Forall P (dict_of_items items).
Proof.
  unfold dict_of_items.
  generalize (@nil (string * A)) (Forall_nil P).
  induction items as [|[k v] items IH]; intros acc Hacc H; simpl; [assumption|].
  inversion H as [|? ? Hv H']; subst. apply IH; [|assumption].
  now apply dict_set_pairs.
Qed.

Lemma camelized_keys (data : json) :
  Forall (fun k => free_of "_" k = true) (keys_of (camelize_dict data)).
Proof.
  induction data using json_nested_ind; try constructor.
  - cbn [camelize_dict keys_of]. induction H as [|x l Hx _ IH]; [constructor|].
    cbn [map flat_map]. apply Forall_app. split; assumption.
  - cbn [camelize_dict keys_of].
    assert (G : Forall (fun kv : string * json =>
                          free_of "_" (fst kv) = true
                          /\ Forall (fun k => free_of "_" k = true) (keys_of (snd kv)))
                       (dict_of_items
                          (map (fun kv => (to_camel (fst kv), camelize_dict (snd kv)))
                               fields))).
    { apply dict_of_items_pairs.
      induction H as [|kv l Hkv _ IH]; [constructor|].
      cbn [map]. constructor; [|exact IH].
      split; [apply to_camel_free | exact Hkv]. }
    induction G as [|kv l [Hk Hv] _ IH]; [constructor|].
    cbn [flat_map]. constructor; [exact Hk|]. apply Forall_app. split; assumption.
Qed.

(** X24: the camel-case conversion leaves no underscore behind: the result
    of [to_camel] holds none, so that converting it again changes nothing,
    and no key of a response that went through [camelize_dict] holds one,
    at whatever depth of dicts and lists the key lies. *)
Theorem camel_case_has_no_underscore (snake_str : string) (data : json) :
  free_of "_" (to_camel snake_str) = true
  /\ to_camel (to_camel snake_str) = to_camel snake_str
  /\ Forall (fun k => free_of "_" k = true) (keys_of (camelize_dict data)).
Proof.
  split; [apply to_camel_free|]. split; [|apply camelized_keys].
  unfold to_camel at 1. rewrite (split_free _ (to_camel_free snake_str)).
  cbn [map join fold_right]. apply append_empty.
Qed.

End CamelFacts.


(** ** The form regions of a detected page *)
Module RegionsFacts.
Import Regions RegionsReading.

Lemma stacked_from (W h : Z) (types : list string) (n k : nat) :
  stacked (Z.of_nat k * h)
          (map (fun i => mkFormRegion (form_type_at types i) i 0 (i * h) W h)
               (map Z.of_nat (seq k n))).
Proof.
  revert k. induction n as [|n IH]; intros k; [exact I|].
  cbn [seq map stacked y height]. split; [reflexivity|].
  replace (Z.of_nat k * h + h) with (Z.of_nat (S k) * h) by lia. apply IH.
Qed.

Lemma bottom_from (W h : Z) (types : list string) (n k : nat) (b : Z) :
  fold_left (fun _ r => y r + height r)
            (map (fun i => mkFormRegion (form_type_at types i) i 0 (i * h) W h)
                 (map Z.of_nat (seq k n))) b
  = match n with O => b | S _ => Z.of_nat (k + n) * h end.
Proof.
  revert k b. induction n as [|n IH]; intros k b; [reflexivity|].
  cbn [seq map fold_left y height]. rewrite IH. destruct n; [lia|].
  f_equal. lia.
Qed.

Lemma form_type_at_known (types : list string) (i : Z) :
  0 <= i ->
  In (form_type_at types i) types
  \/ (types = [] /\ form_type_at types i = "Unknown").
Proof.
  intros Hi. unfold form_type_at.
  destruct (Z.ltb_spec i (Z.of_nat (List.length types))) as [H|H].
  - left. apply nth_In. lia.
  - destruct types as [|t ts]; [right; now split | left; now left].
Qed.

(** X25: the form regions of a PDF page are a stack of equal slices: for a
    page of height [H >= 0] and [n > 0] forms there are [n] regions of the
    full page width and of height [H // n], the first at the top, each
    starting where the one before it ends, all inside the page, and the
    strip left uncovered at the bottom is less than [n] pixels high; each
    region's type is one of the detected types, or "Unknown" when none was
    detected; and for [n <= 0] there is no region. *)
Theorem regions_stack_inside_page (page_width page_height : Z)
        (item : gemini_page_result) :
  0 <= page_height ->
  let n := number_of_forms item in
  let regions := pdf_form_regions page_width page_height item in
  List.length regions = Z.to_nat n
  /\ stacked 0 regions
  /\ Forall (fun r => x r = 0 /\ width r = page_width
                      /\ height r = page_height / n
                      /\ 0 <= y r /\ y r + height r <= page_height
                      /\ (In (form_type r) (detected_types item)
                          \/ (detected_types item = []
                              /\ form_type r = "Unknown")))
            regions
  /\ map form_index regions = py_range_to n
  /\ (0 < n -> bottom regions <= page_height < bottom regions + n).
Proof.
  intros HH. cbv zeta. unfold pdf_form_regions.
  destruct (Z.ltb_spec 0 (number_of_forms item)) as [Hn|Hn].
  2:{ replace (Z.to_nat (number_of_forms item)) with 0%nat by lia.
      unfold py_range_to.
      replace (Z.to_nat (number_of_forms item)) with 0%nat by lia.
      repeat split; try constructor; lia. }
  set (n := number_of_forms item) in *.
  set (h := page_height / n).
  assert (Hh : 0 <= h) by (apply Z.div_pos; lia).
  assert (Hd : n * h <= page_height < n * h + n).
  { pose proof (Z.div_mod page_height n ltac:(lia)) as E.
    pose proof (Z.mod_pos_bound page_height n Hn) as B. fold h in E. lia. }
  unfold py_range_to. split; [|split; [|split; [|split]]].
  - now rewrite !length_map, length_seq.
  - apply (stacked_from page_width h (detected_types item) (Z.to_nat n) 0).
  - apply Forall_forall. intros r Hr.
    apply in_map_iff in Hr as (i & <- & Hi).
    apply in_map_iff in Hi as (k & <- & Hk). apply in_seq in Hk.
    cbn [x y width height form_type].
    assert (Z.of_nat k * h + h <= n * h) by nia.
    split; [reflexivity|]. split; [reflexivity|]. split; [reflexivity|].
    split; [nia|]. split; [lia|].
    apply form_type_at_known. lia.
  - rewrite map_map. cbn [form_index]. apply map_id.
  - intros _. unfold bottom.
    rewrite (bottom_from page_width h (detected_types item) (Z.to_nat n) 0 0).
    destruct (Z.to_nat n) eqn:E; [lia|].
    rewrite <- E. rewrite Nat.add_0_l, Z2Nat.id by lia. lia.
Qed.

(** A page 100 pixels high with three forms, two of them typed. *)
Lemma regions_of_three_forms :
  let item := mkGeminiPageResult 1 3 ["W-2"; "1099-INT"] in
  pdf_form_regions 50 100 item
  = [ mkFormRegion "W-2" 0 0 0 50 33; mkFormRegion "1099-INT" 1 0 33 50 33;
      mkFormRegion "W-2" 2 0 66 50 33 ]
  /\ stacked 0 (pdf_form_regions 50 100 item)
  /\ bottom (pdf_form_regions 50 100 item) = 99.
Proof.
  cbv zeta.
  destruct (regions_stack_inside_page 50 100
              (mkGeminiPageResult 1 3 ["W-2"; "1099-INT"]) ltac:(lia))
    as (_ & S & _).
  split; [reflexivity|]. split; [exact S | reflexivity].
Defined.

End RegionsFacts.
